(** * Gaea proxy: the namespace runtime ([proxy/server/namespace.go])

    A shallow embedding of the namespace aggregate of the Gaea MySQL proxy:
    construction from a configuration record, the policy lookups, the
    caches, [Close], and the backend health supervisor with its
    exponential back-off probe and replication-lag check.

    Conventions of the embedding:
    - Go [int] / [int64] values are [Z]; where the code does arithmetic on
      them the 64-bit wrap-around is written out ([wrap64]).  [uint64]
      values are [N].
    - A Go map owned by the namespace is a [gmap].  A map of the
      configuration record that the constructor walks with [range] is given
      as the sequence of its entries in the order the loop visits them (Go
      leaves that order unspecified, so statements quantify over every
      sequence).
    - A pointer that may be nil is an [option]; a method call or field access
      through nil is the outcome [Panicked].
    - Packages of the repository that are not part of this development
      (strings handling of the Go library, [mysql], [backend], [router],
      [util]) are the fields of the class [Collaborators].
    - Effects that matter to the properties (sleeping, pool and connection
      calls, closing a slice, starting a supervisor) are recorded as a trace
      of [Event]s. *)

From Stdlib Require Import ZArith Lia Ascii String.
From stdpp Require Import gmap strings list fin_maps.

Local Open Scope string_scope.
Local Open Scope list_scope.
Local Open Scope Z_scope.

(** ** Machine integers and time *)

(** Two's complement wrap-around of a 64-bit signed integer. *)
Definition wrap64 (z : Z) : Z := (z + 2 ^ 63) mod 2 ^ 64 - 2 ^ 63.

(** [time.Second], in nanoseconds ([time.Duration] is an [int64]). *)
Definition Second : Z := 1000000000.

(** [time.Duration(n) * time.Second] *)
Definition seconds (n : Z) : Z := wrap64 (wrap64 n * Second).

(** ** Outcomes: normal return, run-time panic, or a loop cut short *)

Inductive outcome (A : Type) : Type :=
| Done (a : A)
| Panicked (msg : string)
| OutOfFuel.                (* a loop bound of the model was reached *)
Arguments Done {A} a.
Arguments Panicked {A} msg.
Arguments OutOfFuel {A}.

Global Instance outcome_ret : MRet outcome := fun A a => Done a.

Global Instance outcome_bind : MBind outcome := fun A B k m =>
  match m with
  | Done a => k a
  | Panicked msg => Panicked msg
  | OutOfFuel => OutOfFuel
  end.

Definition nilDeref : string := "invalid memory address or nil pointer dereference".

(** ** Errors *)

Inductive error : Type :=
| ErrExternal (msg : string)              (* an error value of a collaborator *)
| ErrWrap (context : string) (cause : error)  (* fmt.Errorf("<context>: %v", err) *)
| ErrInvalidDB (db : string)              (* fmt.Errorf("invalid db %s", dbname) *)
| ErrNoPhyDB (db : string)                (* fmt.Errorf("db %s have no phy db", db) *)
| ErrLessThanZero                         (* fmt.Errorf("less than zero") *)
| ErrInvalidCharset                       (* errors.New("invalid charset") *)
| ErrInvalidCollation                     (* errors.New("invalid collation") *)
| ErrDuplicateSlice (slice : string)      (* fmt.Errorf("duplicate slice [%s]", v.Name) *)
| ErrSequenceSliceNotFound (slice : string)
| ErrDownAfterNoAlive.                    (* "downAfterNoAlive should be greater than 0" *)

(** ** Constants of the file *)

Definition namespaceDelayClose : Z := 60.
Definition defaultSQLCacheCapacity : Z := 64.
Definition defaultPlanCacheCapacity : Z := 128.
Definition defaultSlowSQLTime : Z := 1000.
Definition defaultMaxSqlExecuteTime : Z := 0.
Definition defaultMaxSqlResultSize : Z := 10000.
Definition defaultTimeAfterNoAlive : Z := 8.
Definition defaultMaxClientConnections : Z := 100000000.

(** ** Backend: status codes, pools, connections *)

(** Modelled from the spec: [backend.StatusCode], declared outside the
    sources, is the enumeration UP, DOWN. *)
Inductive StatusCode : Type := UP | DOWN.

Global Instance StatusCode_eq_dec : EqDecision StatusCode.
Proof. solve_decision. Defined.

(** A column value of a result row, as [GetValueByName] hands it out. *)
Inductive Col : Type :=
| ColUint64 (v : N)
| ColString (s : string)
| ColOther.

(** The result of [conn.Execute]: the field names in order and the typed
    access to row 0 by field name. *)
Record Result : Type := {
  Fields : list string;
  GetValueByName : string -> error + Col
}.

(** What one pass through the body of the probe loop meets: the pool's
    answer to [Get] and the connection's answers to [Ping] and
    [Reconnect]. *)
Inductive Attempt : Type :=
| GetFails (connReturned : bool)   (* v.Get(ctx) fails; it may still hand out a connection *)
| PingOk                           (* Get succeeds, Ping succeeds *)
| ReconnectOk                      (* Get succeeds, Ping fails, Reconnect succeeds *)
| PingReconnectFail.               (* Get succeeds, Ping and Reconnect fail *)

Definition failing (a : Attempt) : bool :=
  match a with
  | GetFails _ | PingReconnectFail => true
  | PingOk | ReconnectOk => false
  end.

(** A [backend.ConnectionPool] as the supervisor sees it during one probe:
    its address, the outcome of the n-th pass of the probe loop, and what a
    connection of the pool answers to [show slave status;]. *)
Record ConnectionPool : Type := {
  Addr : string;
  attempt : nat -> Attempt;
  showSlaveStatus : error + Result
}.

(** A [backend.PooledConnect] obtained by a probe: the pass of the loop that
    obtained it, and its answer to [Execute("show slave status;", 0)]. *)
Record PooledConnect : Type := {
  connPass : nat;
  Execute : error + Result
}.

Record DBInfo : Type := {
  ConnPool : list ConnectionPool;
  StatusMap : gmap nat StatusCode         (* sync.Map: index -> StatusCode *)
}.

Record SliceConfig : Type := {
  SliceName : string;
  MasterAddr : string;
  Slaves : list string;
  StatisticSlaves : list string
}.

Record Slice : Type := {
  Cfg : SliceConfig;
  SliceCharset : string;
  SliceCollationID : Z;
  Master : DBInfo;
  Slave : DBInfo;
  StatisticSlave : DBInfo
}.

Inductive Role : Type := RoleSlave | RoleStatisticSlave | RoleMaster.

Global Instance Role_eq_dec : EqDecision Role.
Proof. solve_decision. Defined.

(** ** Observable effects *)

Inductive Event : Type :=
| EvSleep (d : Z)                          (* time.Sleep(d), d in nanoseconds *)
| EvGet                                    (* v.Get(ctx) *)
| EvPing                                   (* conn.Ping() *)
| EvReconnect                              (* conn.Reconnect() *)
| EvRecycle (pass : nat)                   (* conn.Recycle(), conn obtained in that pass *)
| EvExecute (pass : nat)                   (* conn.Execute("show slave status;", 0) *)
| EvStore (idx : nat) (s : StatusCode)     (* StatusMap.Store(idx, status) *)
| EvCloseCalled (delay : bool)             (* entry of Namespace.Close *)
| EvSliceClose (slice : string) (failed : bool)
| EvSpawn (slice : string) (r : Role)      (* go checkStatus(...) *)
| EvCancel.                                (* cancel() of the supervisors' context *)

Global Instance Event_eq_dec : EqDecision Event.
Proof. solve_decision. Defined.

(** Wall-clock time spent sleeping along a trace ([time.Sleep] returns at
    once for a duration that is not positive). *)
Fixpoint elapsed (tr : list Event) : Z :=
  match tr with
  | [] => 0
  | EvSleep d :: tr' => Z.max 0 d + elapsed tr'
  | _ :: tr' => elapsed tr'
  end.

(** The instants, counted from the start of the trace, at which the pool is
    asked for a connection. *)
Fixpoint attemptTimes (now : Z) (tr : list Event) : list Z :=
  match tr with
  | [] => []
  | EvGet :: tr' => now :: attemptTimes now tr'
  | EvSleep d :: tr' => attemptTimes (now + Z.max 0 d) tr'
  | _ :: tr' => attemptTimes now tr'
  end.

(** The durations slept along a trace. *)
Fixpoint sleeps (tr : list Event) : list Z :=
  match tr with
  | [] => []
  | EvSleep d :: tr' => d :: sleeps tr'
  | _ :: tr' => sleeps tr'
  end.

(** Whether [cancel] was called along a trace. *)
Fixpoint cancelled (tr : list Event) : bool :=
  match tr with
  | [] => false
  | EvCancel :: _ => true
  | _ :: tr' => cancelled tr'
  end.

(** The events a probe can have produced when it is about to make the pass
    [pass]: calls on the pool and on connections, sleeps, and the recycling
    of connections obtained in earlier passes. *)
Definition probeEvent (pass : nat) (e : Event) : Prop :=
  match e with
  | EvGet | EvPing | EvReconnect | EvSleep _ => True
  | EvRecycle j => (j < pass)%nat
  | _ => False
  end.

(** ** The configuration record ([models.Namespace]) *)

Record User : Type := {
  UserName : string;
  UserRWFlag : Z;
  UserRWSplit : Z;
  UserOtherProperty : Z
}.

Record GlobalSequence : Type := {
  SeqSliceName : string;
  SeqDB : string;
  SeqTable : string;
  SeqPKName : string
}.

Record NamespaceConfig : Type := {
  Name : string;
  OpenGeneralLog : bool;
  DefaultSlice : string;
  BlackSQL : list string;
  SlowSQLTime : string;
  MaxSqlExecuteTime : Z;
  MaxSqlResultSize : Z;
  AllowedDBS : list (string * bool);          (* map[string]bool, in range order *)
  DefaultPhyDBS : list (string * string);     (* map[string]string, in range order *)
  AllowedIP : list string;
  DefaultCharset : string;
  DefaultCollation : string;
  Users : list User;
  Slices : list SliceConfig;
  GlobalSequences : list GlobalSequence;
  MaxClientConnections : Z;
  DownAfterNoAlive : Z;
  SecondsBehindMaster : N;
  CheckSelectLock_cfg : bool
}.

(** ** Collaborators

    The packages the namespace calls into and that are not part of this
    development.  A function that returns [(value, error)] in Go returns a
    sum here when the value is only used on success. *)

Class Collaborators : Type := {
  (* package strings / strconv of the Go library *)
  TrimSpace : string -> string;
  ToLower : string -> string;
  ToUpper : string -> string;
  ParseInt : string -> error + Z;             (* strconv.ParseInt(str, 10, 64) *)
  (* package mysql *)
  GetFingerprint : string -> string;
  GetMd5 : string -> string;
  mysqlDefaultCharset : string;
  mysqlDefaultCollationID : Z;
  CharsetIds : string -> option Z;
  CollationNames : string -> option Z;
  VerifyCharset : string -> string -> option error;
  (* package util *)
  IPInfo : Type;
  ParseIPInfo : string -> error + IPInfo;
  (* package backend *)
  ParseMaster : string -> error + DBInfo;
  ParseSlave : list string -> error + DBInfo;
  SliceClose : Slice -> option error;
  (* package router *)
  Router : Type;
  NewRouter : NamespaceConfig -> error + Router;
  (* package plan *)
  Plan : Type;
  (* package models *)
  ReadWrite : Z;
  ReadWriteSplit : Z;
  StatisticUser : Z
}.

(** ** The LRU cache ([util/cache]) *)

(** Modelled from the spec: the package [util/cache] is not among the
    sources.  An LRU store of fixed capacity; [Set] puts the entry in front
    and evicts the least recently used one on overflow, [SetIfAbsent] leaves
    an existing entry alone, [Items] is a snapshot and [Clear] empties. *)
Record LRUCache (V : Type) : Type := {
  capacity : Z;
  entries : list (string * V)       (* most recently used first *)
}.
Arguments capacity {V} _.
Arguments entries {V} _.

(** Modelled from the spec: a new cache is empty. *)
Definition NewLRUCache {V} (cap : Z) : LRUCache V :=
  {| capacity := cap; entries := [] |}.

(** Modelled from the spec: the value stored under a key, if any (the
    change of recency that [Get] causes is left out). *)
Definition cacheLookup {V} (key : string) (c : LRUCache V) : option V :=
  (fun r => snd (snd r)) <$> list_find (fun e => fst e = key) (entries c).

(** Modelled from the spec: [Set] evicts least-recently-used on overflow. *)
Definition cacheSet {V} (key : string) (v : V) (c : LRUCache V) : LRUCache V :=
  {| capacity := capacity c;
     entries := take (Z.to_nat (capacity c))
                     ((key, v) :: filter (fun e => fst e <> key) (entries c)) |}.

(** Modelled from the spec: [SetIfAbsent] does not replace an entry. *)
Definition cacheSetIfAbsent {V} (key : string) (v : V) (c : LRUCache V) : LRUCache V :=
  match cacheLookup key c with
  | Some _ => c
  | None => cacheSet key v c
  end.

(** Modelled from the spec: [Items] returns a snapshot. *)
Definition cacheItems {V} (c : LRUCache V) : list (string * V) := entries c.

(** Modelled from the spec: [Clear] empties. *)
Definition cacheClear {V} (c : LRUCache V) : LRUCache V :=
  {| capacity := capacity c; entries := [] |}.

(** ** The namespace *)

Record UserProperty : Type := {
  RWFlag : Z;
  RWSplit : Z;
  OtherProperty : Z
}.

Section Namespace.
Context `{Collaborators}.

Record MySQLSequence : Type := {
  seqSlice : Slice;
  seqName : string;
  seqPKName : string
}.

(** The sequence manager, as the [SetSequence (db, table, seq)] calls made on
    it, latest first. *)
Definition SequenceManager : Type := list (string * string * MySQLSequence).

Record Namespace : Type := {
  name : string;
  allowedDBs : gmap string bool;
  defaultPhyDBs : gmap string string;
  sqls : gmap string string;
  slowSQLTime : Z;
  allowips : list IPInfo;
  router : option Router;
  sequences : option SequenceManager;
  slices : gmap string Slice;
  userProperties : gmap string UserProperty;
  defaultCharset : string;
  defaultCollationID : Z;
  openGeneralLog : bool;
  maxSqlExecuteTime : Z;
  maxSqlResultSize : Z;
  defaultSlice : string;
  downAfterNoAlive : Z;
  secondsBehindMaster : N;
  slowSQLCache : LRUCache string;
  errorSQLCache : LRUCache string;
  backendSlowSQLCache : LRUCache string;
  backendErrorSQLCache : LRUCache string;
  planCache : LRUCache Plan;
  maxClientConnections : Z;
  CheckSelectLock : bool
}.

(** Assignments to one field of the namespace object. *)

Definition set_allowedDBs (v : gmap string bool) (n : Namespace) : Namespace :=
  {| name := name n; allowedDBs := v; defaultPhyDBs := defaultPhyDBs n;
     sqls := sqls n; slowSQLTime := slowSQLTime n; allowips := allowips n;
     router := router n; sequences := sequences n; slices := slices n;
     userProperties := userProperties n; defaultCharset := defaultCharset n;
     defaultCollationID := defaultCollationID n;
     openGeneralLog := openGeneralLog n;
     maxSqlExecuteTime := maxSqlExecuteTime n;
     maxSqlResultSize := maxSqlResultSize n; defaultSlice := defaultSlice n;
     downAfterNoAlive := downAfterNoAlive n;
     secondsBehindMaster := secondsBehindMaster n;
     slowSQLCache := slowSQLCache n; errorSQLCache := errorSQLCache n;
     backendSlowSQLCache := backendSlowSQLCache n;
     backendErrorSQLCache := backendErrorSQLCache n; planCache := planCache n;
     maxClientConnections := maxClientConnections n;
     CheckSelectLock := CheckSelectLock n |}.

Definition set_defaultPhyDBs (v : gmap string string) (n : Namespace) : Namespace :=
  {| name := name n; allowedDBs := allowedDBs n; defaultPhyDBs := v;
     sqls := sqls n; slowSQLTime := slowSQLTime n; allowips := allowips n;
     router := router n; sequences := sequences n; slices := slices n;
     userProperties := userProperties n; defaultCharset := defaultCharset n;
     defaultCollationID := defaultCollationID n;
     openGeneralLog := openGeneralLog n;
     maxSqlExecuteTime := maxSqlExecuteTime n;
     maxSqlResultSize := maxSqlResultSize n; defaultSlice := defaultSlice n;
     downAfterNoAlive := downAfterNoAlive n;
     secondsBehindMaster := secondsBehindMaster n;
     slowSQLCache := slowSQLCache n; errorSQLCache := errorSQLCache n;
     backendSlowSQLCache := backendSlowSQLCache n;
     backendErrorSQLCache := backendErrorSQLCache n; planCache := planCache n;
     maxClientConnections := maxClientConnections n;
     CheckSelectLock := CheckSelectLock n |}.

Definition set_sqls (v : gmap string string) (n : Namespace) : Namespace :=
  {| name := name n; allowedDBs := allowedDBs n;
     defaultPhyDBs := defaultPhyDBs n; sqls := v; slowSQLTime := slowSQLTime n;
     allowips := allowips n; router := router n; sequences := sequences n;
     slices := slices n; userProperties := userProperties n;
     defaultCharset := defaultCharset n;
     defaultCollationID := defaultCollationID n;
     openGeneralLog := openGeneralLog n;
     maxSqlExecuteTime := maxSqlExecuteTime n;
     maxSqlResultSize := maxSqlResultSize n; defaultSlice := defaultSlice n;
     downAfterNoAlive := downAfterNoAlive n;
     secondsBehindMaster := secondsBehindMaster n;
     slowSQLCache := slowSQLCache n; errorSQLCache := errorSQLCache n;
     backendSlowSQLCache := backendSlowSQLCache n;
     backendErrorSQLCache := backendErrorSQLCache n; planCache := planCache n;
     maxClientConnections := maxClientConnections n;
     CheckSelectLock := CheckSelectLock n |}.

Definition set_slowSQLTime (v : Z) (n : Namespace) : Namespace :=
  {| name := name n; allowedDBs := allowedDBs n;
     defaultPhyDBs := defaultPhyDBs n; sqls := sqls n; slowSQLTime := v;
     allowips := allowips n; router := router n; sequences := sequences n;
     slices := slices n; userProperties := userProperties n;
     defaultCharset := defaultCharset n;
     defaultCollationID := defaultCollationID n;
     openGeneralLog := openGeneralLog n;
     maxSqlExecuteTime := maxSqlExecuteTime n;
     maxSqlResultSize := maxSqlResultSize n; defaultSlice := defaultSlice n;
     downAfterNoAlive := downAfterNoAlive n;
     secondsBehindMaster := secondsBehindMaster n;
     slowSQLCache := slowSQLCache n; errorSQLCache := errorSQLCache n;
     backendSlowSQLCache := backendSlowSQLCache n;
     backendErrorSQLCache := backendErrorSQLCache n; planCache := planCache n;
     maxClientConnections := maxClientConnections n;
     CheckSelectLock := CheckSelectLock n |}.

Definition set_allowips (v : list IPInfo) (n : Namespace) : Namespace :=
  {| name := name n; allowedDBs := allowedDBs n;
     defaultPhyDBs := defaultPhyDBs n; sqls := sqls n;
     slowSQLTime := slowSQLTime n; allowips := v; router := router n;
     sequences := sequences n; slices := slices n;
     userProperties := userProperties n; defaultCharset := defaultCharset n;
     defaultCollationID := defaultCollationID n;
     openGeneralLog := openGeneralLog n;
     maxSqlExecuteTime := maxSqlExecuteTime n;
     maxSqlResultSize := maxSqlResultSize n; defaultSlice := defaultSlice n;
     downAfterNoAlive := downAfterNoAlive n;
     secondsBehindMaster := secondsBehindMaster n;
     slowSQLCache := slowSQLCache n; errorSQLCache := errorSQLCache n;
     backendSlowSQLCache := backendSlowSQLCache n;
     backendErrorSQLCache := backendErrorSQLCache n; planCache := planCache n;
     maxClientConnections := maxClientConnections n;
     CheckSelectLock := CheckSelectLock n |}.

Definition set_router (v : option Router) (n : Namespace) : Namespace :=
  {| name := name n; allowedDBs := allowedDBs n;
     defaultPhyDBs := defaultPhyDBs n; sqls := sqls n;
     slowSQLTime := slowSQLTime n; allowips := allowips n; router := v;
     sequences := sequences n; slices := slices n;
     userProperties := userProperties n; defaultCharset := defaultCharset n;
     defaultCollationID := defaultCollationID n;
     openGeneralLog := openGeneralLog n;
     maxSqlExecuteTime := maxSqlExecuteTime n;
     maxSqlResultSize := maxSqlResultSize n; defaultSlice := defaultSlice n;
     downAfterNoAlive := downAfterNoAlive n;
     secondsBehindMaster := secondsBehindMaster n;
     slowSQLCache := slowSQLCache n; errorSQLCache := errorSQLCache n;
     backendSlowSQLCache := backendSlowSQLCache n;
     backendErrorSQLCache := backendErrorSQLCache n; planCache := planCache n;
     maxClientConnections := maxClientConnections n;
     CheckSelectLock := CheckSelectLock n |}.

Definition set_sequences (v : option SequenceManager) (n : Namespace) : Namespace :=
  {| name := name n; allowedDBs := allowedDBs n;
     defaultPhyDBs := defaultPhyDBs n; sqls := sqls n;
     slowSQLTime := slowSQLTime n; allowips := allowips n; router := router n;
     sequences := v; slices := slices n; userProperties := userProperties n;
     defaultCharset := defaultCharset n;
     defaultCollationID := defaultCollationID n;
     openGeneralLog := openGeneralLog n;
     maxSqlExecuteTime := maxSqlExecuteTime n;
     maxSqlResultSize := maxSqlResultSize n; defaultSlice := defaultSlice n;
     downAfterNoAlive := downAfterNoAlive n;
     secondsBehindMaster := secondsBehindMaster n;
     slowSQLCache := slowSQLCache n; errorSQLCache := errorSQLCache n;
     backendSlowSQLCache := backendSlowSQLCache n;
     backendErrorSQLCache := backendErrorSQLCache n; planCache := planCache n;
     maxClientConnections := maxClientConnections n;
     CheckSelectLock := CheckSelectLock n |}.

Definition set_slices (v : gmap string Slice) (n : Namespace) : Namespace :=
  {| name := name n; allowedDBs := allowedDBs n;
     defaultPhyDBs := defaultPhyDBs n; sqls := sqls n;
     slowSQLTime := slowSQLTime n; allowips := allowips n; router := router n;
     sequences := sequences n; slices := v; userProperties := userProperties n;
     defaultCharset := defaultCharset n;
     defaultCollationID := defaultCollationID n;
     openGeneralLog := openGeneralLog n;
     maxSqlExecuteTime := maxSqlExecuteTime n;
     maxSqlResultSize := maxSqlResultSize n; defaultSlice := defaultSlice n;
     downAfterNoAlive := downAfterNoAlive n;
     secondsBehindMaster := secondsBehindMaster n;
     slowSQLCache := slowSQLCache n; errorSQLCache := errorSQLCache n;
     backendSlowSQLCache := backendSlowSQLCache n;
     backendErrorSQLCache := backendErrorSQLCache n; planCache := planCache n;
     maxClientConnections := maxClientConnections n;
     CheckSelectLock := CheckSelectLock n |}.

Definition set_userProperties (v : gmap string UserProperty) (n : Namespace) : Namespace :=
  {| name := name n; allowedDBs := allowedDBs n;
     defaultPhyDBs := defaultPhyDBs n; sqls := sqls n;
     slowSQLTime := slowSQLTime n; allowips := allowips n; router := router n;
     sequences := sequences n; slices := slices n; userProperties := v;
     defaultCharset := defaultCharset n;
     defaultCollationID := defaultCollationID n;
     openGeneralLog := openGeneralLog n;
     maxSqlExecuteTime := maxSqlExecuteTime n;
     maxSqlResultSize := maxSqlResultSize n; defaultSlice := defaultSlice n;
     downAfterNoAlive := downAfterNoAlive n;
     secondsBehindMaster := secondsBehindMaster n;
     slowSQLCache := slowSQLCache n; errorSQLCache := errorSQLCache n;
     backendSlowSQLCache := backendSlowSQLCache n;
     backendErrorSQLCache := backendErrorSQLCache n; planCache := planCache n;
     maxClientConnections := maxClientConnections n;
     CheckSelectLock := CheckSelectLock n |}.

Definition set_defaultCharset (v : string) (n : Namespace) : Namespace :=
  {| name := name n; allowedDBs := allowedDBs n;
     defaultPhyDBs := defaultPhyDBs n; sqls := sqls n;
     slowSQLTime := slowSQLTime n; allowips := allowips n; router := router n;
     sequences := sequences n; slices := slices n;
     userProperties := userProperties n; defaultCharset := v;
     defaultCollationID := defaultCollationID n;
     openGeneralLog := openGeneralLog n;
     maxSqlExecuteTime := maxSqlExecuteTime n;
     maxSqlResultSize := maxSqlResultSize n; defaultSlice := defaultSlice n;
     downAfterNoAlive := downAfterNoAlive n;
     secondsBehindMaster := secondsBehindMaster n;
     slowSQLCache := slowSQLCache n; errorSQLCache := errorSQLCache n;
     backendSlowSQLCache := backendSlowSQLCache n;
     backendErrorSQLCache := backendErrorSQLCache n; planCache := planCache n;
     maxClientConnections := maxClientConnections n;
     CheckSelectLock := CheckSelectLock n |}.

Definition set_defaultCollationID (v : Z) (n : Namespace) : Namespace :=
  {| name := name n; allowedDBs := allowedDBs n;
     defaultPhyDBs := defaultPhyDBs n; sqls := sqls n;
     slowSQLTime := slowSQLTime n; allowips := allowips n; router := router n;
     sequences := sequences n; slices := slices n;
     userProperties := userProperties n; defaultCharset := defaultCharset n;
     defaultCollationID := v; openGeneralLog := openGeneralLog n;
     maxSqlExecuteTime := maxSqlExecuteTime n;
     maxSqlResultSize := maxSqlResultSize n; defaultSlice := defaultSlice n;
     downAfterNoAlive := downAfterNoAlive n;
     secondsBehindMaster := secondsBehindMaster n;
     slowSQLCache := slowSQLCache n; errorSQLCache := errorSQLCache n;
     backendSlowSQLCache := backendSlowSQLCache n;
     backendErrorSQLCache := backendErrorSQLCache n; planCache := planCache n;
     maxClientConnections := maxClientConnections n;
     CheckSelectLock := CheckSelectLock n |}.

Definition set_maxSqlExecuteTime (v : Z) (n : Namespace) : Namespace :=
  {| name := name n; allowedDBs := allowedDBs n;
     defaultPhyDBs := defaultPhyDBs n; sqls := sqls n;
     slowSQLTime := slowSQLTime n; allowips := allowips n; router := router n;
     sequences := sequences n; slices := slices n;
     userProperties := userProperties n; defaultCharset := defaultCharset n;
     defaultCollationID := defaultCollationID n;
     openGeneralLog := openGeneralLog n; maxSqlExecuteTime := v;
     maxSqlResultSize := maxSqlResultSize n; defaultSlice := defaultSlice n;
     downAfterNoAlive := downAfterNoAlive n;
     secondsBehindMaster := secondsBehindMaster n;
     slowSQLCache := slowSQLCache n; errorSQLCache := errorSQLCache n;
     backendSlowSQLCache := backendSlowSQLCache n;
     backendErrorSQLCache := backendErrorSQLCache n; planCache := planCache n;
     maxClientConnections := maxClientConnections n;
     CheckSelectLock := CheckSelectLock n |}.

Definition set_maxSqlResultSize (v : Z) (n : Namespace) : Namespace :=
  {| name := name n; allowedDBs := allowedDBs n;
     defaultPhyDBs := defaultPhyDBs n; sqls := sqls n;
     slowSQLTime := slowSQLTime n; allowips := allowips n; router := router n;
     sequences := sequences n; slices := slices n;
     userProperties := userProperties n; defaultCharset := defaultCharset n;
     defaultCollationID := defaultCollationID n;
     openGeneralLog := openGeneralLog n;
     maxSqlExecuteTime := maxSqlExecuteTime n; maxSqlResultSize := v;
     defaultSlice := defaultSlice n; downAfterNoAlive := downAfterNoAlive n;
     secondsBehindMaster := secondsBehindMaster n;
     slowSQLCache := slowSQLCache n; errorSQLCache := errorSQLCache n;
     backendSlowSQLCache := backendSlowSQLCache n;
     backendErrorSQLCache := backendErrorSQLCache n; planCache := planCache n;
     maxClientConnections := maxClientConnections n;
     CheckSelectLock := CheckSelectLock n |}.

Definition set_downAfterNoAlive (v : Z) (n : Namespace) : Namespace :=
  {| name := name n; allowedDBs := allowedDBs n;
     defaultPhyDBs := defaultPhyDBs n; sqls := sqls n;
     slowSQLTime := slowSQLTime n; allowips := allowips n; router := router n;
     sequences := sequences n; slices := slices n;
     userProperties := userProperties n; defaultCharset := defaultCharset n;
     defaultCollationID := defaultCollationID n;
     openGeneralLog := openGeneralLog n;
     maxSqlExecuteTime := maxSqlExecuteTime n;
     maxSqlResultSize := maxSqlResultSize n; defaultSlice := defaultSlice n;
     downAfterNoAlive := v; secondsBehindMaster := secondsBehindMaster n;
     slowSQLCache := slowSQLCache n; errorSQLCache := errorSQLCache n;
     backendSlowSQLCache := backendSlowSQLCache n;
     backendErrorSQLCache := backendErrorSQLCache n; planCache := planCache n;
     maxClientConnections := maxClientConnections n;
     CheckSelectLock := CheckSelectLock n |}.

Definition set_secondsBehindMaster (v : N) (n : Namespace) : Namespace :=
  {| name := name n; allowedDBs := allowedDBs n;
     defaultPhyDBs := defaultPhyDBs n; sqls := sqls n;
     slowSQLTime := slowSQLTime n; allowips := allowips n; router := router n;
     sequences := sequences n; slices := slices n;
     userProperties := userProperties n; defaultCharset := defaultCharset n;
     defaultCollationID := defaultCollationID n;
     openGeneralLog := openGeneralLog n;
     maxSqlExecuteTime := maxSqlExecuteTime n;
     maxSqlResultSize := maxSqlResultSize n; defaultSlice := defaultSlice n;
     downAfterNoAlive := downAfterNoAlive n; secondsBehindMaster := v;
     slowSQLCache := slowSQLCache n; errorSQLCache := errorSQLCache n;
     backendSlowSQLCache := backendSlowSQLCache n;
     backendErrorSQLCache := backendErrorSQLCache n; planCache := planCache n;
     maxClientConnections := maxClientConnections n;
     CheckSelectLock := CheckSelectLock n |}.

Definition set_slowSQLCache (v : LRUCache string) (n : Namespace) : Namespace :=
  {| name := name n; allowedDBs := allowedDBs n;
     defaultPhyDBs := defaultPhyDBs n; sqls := sqls n;
     slowSQLTime := slowSQLTime n; allowips := allowips n; router := router n;
     sequences := sequences n; slices := slices n;
     userProperties := userProperties n; defaultCharset := defaultCharset n;
     defaultCollationID := defaultCollationID n;
     openGeneralLog := openGeneralLog n;
     maxSqlExecuteTime := maxSqlExecuteTime n;
     maxSqlResultSize := maxSqlResultSize n; defaultSlice := defaultSlice n;
     downAfterNoAlive := downAfterNoAlive n;
     secondsBehindMaster := secondsBehindMaster n; slowSQLCache := v;
     errorSQLCache := errorSQLCache n;
     backendSlowSQLCache := backendSlowSQLCache n;
     backendErrorSQLCache := backendErrorSQLCache n; planCache := planCache n;
     maxClientConnections := maxClientConnections n;
     CheckSelectLock := CheckSelectLock n |}.

Definition set_errorSQLCache (v : LRUCache string) (n : Namespace) : Namespace :=
  {| name := name n; allowedDBs := allowedDBs n;
     defaultPhyDBs := defaultPhyDBs n; sqls := sqls n;
     slowSQLTime := slowSQLTime n; allowips := allowips n; router := router n;
     sequences := sequences n; slices := slices n;
     userProperties := userProperties n; defaultCharset := defaultCharset n;
     defaultCollationID := defaultCollationID n;
     openGeneralLog := openGeneralLog n;
     maxSqlExecuteTime := maxSqlExecuteTime n;
     maxSqlResultSize := maxSqlResultSize n; defaultSlice := defaultSlice n;
     downAfterNoAlive := downAfterNoAlive n;
     secondsBehindMaster := secondsBehindMaster n;
     slowSQLCache := slowSQLCache n; errorSQLCache := v;
     backendSlowSQLCache := backendSlowSQLCache n;
     backendErrorSQLCache := backendErrorSQLCache n; planCache := planCache n;
     maxClientConnections := maxClientConnections n;
     CheckSelectLock := CheckSelectLock n |}.

Definition set_backendSlowSQLCache (v : LRUCache string) (n : Namespace) : Namespace :=
  {| name := name n; allowedDBs := allowedDBs n;
     defaultPhyDBs := defaultPhyDBs n; sqls := sqls n;
     slowSQLTime := slowSQLTime n; allowips := allowips n; router := router n;
     sequences := sequences n; slices := slices n;
     userProperties := userProperties n; defaultCharset := defaultCharset n;
     defaultCollationID := defaultCollationID n;
     openGeneralLog := openGeneralLog n;
     maxSqlExecuteTime := maxSqlExecuteTime n;
     maxSqlResultSize := maxSqlResultSize n; defaultSlice := defaultSlice n;
     downAfterNoAlive := downAfterNoAlive n;
     secondsBehindMaster := secondsBehindMaster n;
     slowSQLCache := slowSQLCache n; errorSQLCache := errorSQLCache n;
     backendSlowSQLCache := v; backendErrorSQLCache := backendErrorSQLCache n;
     planCache := planCache n; maxClientConnections := maxClientConnections n;
     CheckSelectLock := CheckSelectLock n |}.

Definition set_backendErrorSQLCache (v : LRUCache string) (n : Namespace) : Namespace :=
  {| name := name n; allowedDBs := allowedDBs n;
     defaultPhyDBs := defaultPhyDBs n; sqls := sqls n;
     slowSQLTime := slowSQLTime n; allowips := allowips n; router := router n;
     sequences := sequences n; slices := slices n;
     userProperties := userProperties n; defaultCharset := defaultCharset n;
     defaultCollationID := defaultCollationID n;
     openGeneralLog := openGeneralLog n;
     maxSqlExecuteTime := maxSqlExecuteTime n;
     maxSqlResultSize := maxSqlResultSize n; defaultSlice := defaultSlice n;
     downAfterNoAlive := downAfterNoAlive n;
     secondsBehindMaster := secondsBehindMaster n;
     slowSQLCache := slowSQLCache n; errorSQLCache := errorSQLCache n;
     backendSlowSQLCache := backendSlowSQLCache n; backendErrorSQLCache := v;
     planCache := planCache n; maxClientConnections := maxClientConnections n;
     CheckSelectLock := CheckSelectLock n |}.

Definition set_planCache (v : LRUCache Plan) (n : Namespace) : Namespace :=
  {| name := name n; allowedDBs := allowedDBs n;
     defaultPhyDBs := defaultPhyDBs n; sqls := sqls n;
     slowSQLTime := slowSQLTime n; allowips := allowips n; router := router n;
     sequences := sequences n; slices := slices n;
     userProperties := userProperties n; defaultCharset := defaultCharset n;
     defaultCollationID := defaultCollationID n;
     openGeneralLog := openGeneralLog n;
     maxSqlExecuteTime := maxSqlExecuteTime n;
     maxSqlResultSize := maxSqlResultSize n; defaultSlice := defaultSlice n;
     downAfterNoAlive := downAfterNoAlive n;
     secondsBehindMaster := secondsBehindMaster n;
     slowSQLCache := slowSQLCache n; errorSQLCache := errorSQLCache n;
     backendSlowSQLCache := backendSlowSQLCache n;
     backendErrorSQLCache := backendErrorSQLCache n; planCache := v;
     maxClientConnections := maxClientConnections n;
     CheckSelectLock := CheckSelectLock n |}.

Definition set_maxClientConnections (v : Z) (n : Namespace) : Namespace :=
  {| name := name n; allowedDBs := allowedDBs n;
     defaultPhyDBs := defaultPhyDBs n; sqls := sqls n;
     slowSQLTime := slowSQLTime n; allowips := allowips n; router := router n;
     sequences := sequences n; slices := slices n;
     userProperties := userProperties n; defaultCharset := defaultCharset n;
     defaultCollationID := defaultCollationID n;
     openGeneralLog := openGeneralLog n;
     maxSqlExecuteTime := maxSqlExecuteTime n;
     maxSqlResultSize := maxSqlResultSize n; defaultSlice := defaultSlice n;
     downAfterNoAlive := downAfterNoAlive n;
     secondsBehindMaster := secondsBehindMaster n;
     slowSQLCache := slowSQLCache n; errorSQLCache := errorSQLCache n;
     backendSlowSQLCache := backendSlowSQLCache n;
     backendErrorSQLCache := backendErrorSQLCache n; planCache := planCache n;
     maxClientConnections := v; CheckSelectLock := CheckSelectLock n |}.

Definition set_CheckSelectLock (v : bool) (n : Namespace) : Namespace :=
  {| name := name n; allowedDBs := allowedDBs n;
     defaultPhyDBs := defaultPhyDBs n; sqls := sqls n;
     slowSQLTime := slowSQLTime n; allowips := allowips n; router := router n;
     sequences := sequences n; slices := slices n;
     userProperties := userProperties n; defaultCharset := defaultCharset n;
     defaultCollationID := defaultCollationID n;
     openGeneralLog := openGeneralLog n;
     maxSqlExecuteTime := maxSqlExecuteTime n;
     maxSqlResultSize := maxSqlResultSize n; defaultSlice := defaultSlice n;
     downAfterNoAlive := downAfterNoAlive n;
     secondsBehindMaster := secondsBehindMaster n;
     slowSQLCache := slowSQLCache n; errorSQLCache := errorSQLCache n;
     backendSlowSQLCache := backendSlowSQLCache n;
     backendErrorSQLCache := backendErrorSQLCache n; planCache := planCache n;
     maxClientConnections := maxClientConnections n; CheckSelectLock := v |}.

(** ** Parsing the configuration *)

(** The body of the loop of [parseBlackSqls]. *)
Definition addBlackSql (sqlMap : gmap string string) (sql : string) : gmap string string :=
  let sql := TrimSpace sql in
  if decide (sql = "") then sqlMap
  else
    let fingerprint := GetFingerprint sql in
    let md5 := GetMd5 fingerprint in
    <[md5 := fingerprint]> sqlMap.

(** [parseBlackSqls]: the blacklist, keyed by the md5 of the fingerprint. *)
Definition parseBlackSqls (sqls : list string) : gmap string string :=
  foldl addBlackSql ∅ sqls.

Definition parseSlowSQLTime (str : string) : Z * option error :=
  if decide (str = "") then (defaultSlowSQLTime, None)
  else
    match ParseInt str with
    | inl err => (0, Some err)
    | inr t => if t <? 0 then (0, Some ErrLessThanZero) else (t, None)
    end.

(** [parseDefaultPhyDB]; a nil map is returned with an error.  When several
    allowed DBs lack a physical DB the one named in the error is the first
    the range loop meets. *)
Definition parseDefaultPhyDB (defaultPhyDBs : gmap string string)
    (allowedDBs : gmap string bool) : gmap string string * option error :=
  if decide (size defaultPhyDBs = 0%nat) then
    (* no logic database mode *)
    (map_imap (fun db _ => Some db) allowedDBs, None)
  else
    (* logic database mode *)
    match list_find (fun e => defaultPhyDBs !! (fst e) = None) (map_to_list allowedDBs) with
    | Some (_, (db, _)) => (∅, Some (ErrNoPhyDB db))
    | None => (defaultPhyDBs, None)
    end.

Fixpoint parseAllowIps_from (allowips : list IPInfo) (allowedIP : list string)
    : list IPInfo * option error :=
  match allowedIP with
  | [] => (allowips, None)
  | ipStr :: rest =>
      let ipStr := TrimSpace ipStr in
      if decide (ipStr = "") then parseAllowIps_from allowips rest
      else
        match ParseIPInfo ipStr with
        | inl err => ([], Some err)
        | inr ipInfo => parseAllowIps_from (allowips ++ [ipInfo]) rest
        end
  end.

Definition parseAllowIps (allowedIP : list string) : list IPInfo * option error :=
  parseAllowIps_from [] allowedIP.

Definition parseCharset (charset collation : string) : string * Z * option error :=
  if decide (charset = "" /\ collation = "") then
    (mysqlDefaultCharset, mysqlDefaultCollationID, None)
  else if decide (collation = "") then
    match CharsetIds charset with
    | None => ("", 0, Some ErrInvalidCharset)
    | Some collationID => (charset, collationID, None)
    end
  else
    match VerifyCharset charset collation with
    | Some err => ("", 0, Some err)
    | None =>
        match CollationNames collation with
        | None => ("", 0, Some ErrInvalidCollation)
        | Some collationID => (charset, collationID, None)
        end
    end.

Definition parseSlice (cfg : SliceConfig) (charset : string) (collationID : Z)
    : error + Slice :=
  match ParseMaster (MasterAddr cfg) with
  | inl err => inl err
  | inr master =>
      match ParseSlave (Slaves cfg) with
      | inl err => inl err
      | inr slaveInfo =>
          match ParseSlave (StatisticSlaves cfg) with
          | inl err => inl err
          | inr statisticSalve =>
              inr {| Cfg := cfg; SliceCharset := charset; SliceCollationID := collationID;
                     Master := master; Slave := slaveInfo;
                     StatisticSlave := statisticSalve |}
          end
      end
  end.

(** [v.Name = strings.TrimSpace(v.Name)]: the slice configuration is
    modified in place. *)
Definition trimSliceName (v : SliceConfig) : SliceConfig :=
  {| SliceName := TrimSpace (SliceName v); MasterAddr := MasterAddr v;
     Slaves := Slaves v; StatisticSlaves := StatisticSlaves v |}.

Fixpoint parseSlices_from (slices : gmap string Slice) (cfgSlices : list SliceConfig)
    (charset : string) (collationID : Z) : gmap string Slice * option error :=
  match cfgSlices with
  | [] => (slices, None)
  | v :: rest =>
      let v := trimSliceName v in
      match slices !! SliceName v with
      | Some _ => (∅, Some (ErrDuplicateSlice (SliceName v)))
      | None =>
          match parseSlice v charset collationID with
          | inl err => (∅, Some err)
          | inr s => parseSlices_from (<[SliceName v := s]> slices) rest charset collationID
          end
      end
  end.

Definition parseSlices (cfgSlices : list SliceConfig) (charset : string) (collationID : Z)
    : gmap string Slice * option error :=
  parseSlices_from ∅ cfgSlices charset collationID.

(** ** Starting the supervisors *)

(** [doCheckSlice] starts the three workers of a slice and returns nil. *)
Definition doCheckSlice (slice : Slice) : option error * list Event :=
  (None, [EvSpawn (SliceName (Cfg slice)) RoleSlave;
          EvSpawn (SliceName (Cfg slice)) RoleStatisticSlave;
          EvSpawn (SliceName (Cfg slice)) RoleMaster]).

(** The loop of [checkSlicesStatus]: the returned error, whether [cancel]
    was called on the context the workers observe, and the trace. *)
Fixpoint checkSlicesStatus_loop (slices : list (string * Slice))
    : option error * bool * list Event :=
  match slices with
  | [] => (None, false, [])
  | (_, v) :: rest =>
      match doCheckSlice v with
      | (Some err, tr) => (Some err, true, tr ++ [EvCancel])
      | (None, tr) =>
          let '(err, cancelled, tr') := checkSlicesStatus_loop rest in
          (err, cancelled, tr ++ tr')
      end
  end.

Definition checkSlicesStatus (slices : gmap string Slice) : option error * bool * list Event :=
  checkSlicesStatus_loop (map_to_list slices).

(** ** Close *)

(** [Close]: sleep when [delay], close every slice (a failure is logged and
    the loop goes on), clear the four fingerprint caches.  The slices are
    visited in the order of [map_to_list]; Go leaves the order of [range]
    unspecified. *)
Definition Close (delay : bool) (n : Namespace) : Namespace * list Event :=
  let closes :=
    (fun e => EvSliceClose (fst e) (bool_decide (is_Some (SliceClose (snd e)))))
      <$> map_to_list (slices n) in
  let n := set_slowSQLCache (cacheClear (slowSQLCache n)) n in
  let n := set_errorSQLCache (cacheClear (errorSQLCache n)) n in
  let n := set_backendSlowSQLCache (cacheClear (backendSlowSQLCache n)) n in
  let n := set_backendErrorSQLCache (cacheClear (backendErrorSQLCache n)) n in
  (n, EvCloseCalled delay
        :: (if delay then [EvSleep (wrap64 (Second * namespaceDelayClose))] else [])
        ++ closes).

(** ** Construction *)

Fixpoint initSequences (sequences : SequenceManager) (l : list GlobalSequence)
    (slices : gmap string Slice) : error + SequenceManager :=
  match l with
  | [] => inr sequences
  | v :: rest =>
      match slices !! SeqSliceName v with
      | None => inl (ErrSequenceSliceNotFound (SeqSliceName v))
      | Some globalSequenceSlice =>
          let seqName := ToUpper (SeqDB v) +:+ "." +:+ ToUpper (SeqTable v) in
          let seq := {| seqSlice := globalSequenceSlice; seqName := seqName;
                        seqPKName := SeqPKName v |} in
          initSequences ((SeqDB v, SeqTable v, seq) :: sequences) rest slices
      end
  end.

(** The configuration as [router.NewRouter] receives it: [parseSlices] has
    trimmed the slice names in place. *)
Definition withTrimmedSliceNames (c : NamespaceConfig) : NamespaceConfig :=
  {| Name := Name c; OpenGeneralLog := OpenGeneralLog c; DefaultSlice := DefaultSlice c;
     BlackSQL := BlackSQL c; SlowSQLTime := SlowSQLTime c;
     MaxSqlExecuteTime := MaxSqlExecuteTime c; MaxSqlResultSize := MaxSqlResultSize c;
     AllowedDBS := AllowedDBS c; DefaultPhyDBS := DefaultPhyDBS c;
     AllowedIP := AllowedIP c; DefaultCharset := DefaultCharset c;
     DefaultCollation := DefaultCollation c; Users := Users c;
     Slices := trimSliceName <$> Slices c; GlobalSequences := GlobalSequences c;
     MaxClientConnections := MaxClientConnections c;
     DownAfterNoAlive := DownAfterNoAlive c;
     SecondsBehindMaster := SecondsBehindMaster c;
     CheckSelectLock_cfg := CheckSelectLock_cfg c |}.

(** How a call of [NewNamespace] ends. *)
Record Return : Type := {
  object : Namespace;       (* the object allocated on entry, as the return leaves it *)
  result : option error;    (* None: (namespace, nil) is returned; Some e: (nil, e) *)
  errVar : option error;    (* the local variable err that the deferred function tests *)
  ctxDone : bool;           (* whether the supervisors' context has been cancelled *)
  trace : list Event
}.

Definition returnError (namespace : Namespace) (e : error) (err : option error)
    (cancelled : bool) (tr : list Event) : Return :=
  {| object := namespace; result := Some e; errVar := err;
     ctxDone := cancelled; trace := tr |}.

(** The body of [NewNamespace], up to its return statement.  An [if] whose
    branches assign one field is written as the assignment of the chosen
    value. *)
Definition NewNamespace_body (namespaceConfig : NamespaceConfig) : Return :=
  let namespace :=
    {| name := Name namespaceConfig; allowedDBs := ∅; defaultPhyDBs := ∅; sqls := ∅;
       slowSQLTime := 0; allowips := []; router := None; sequences := None;
       slices := ∅; userProperties := ∅; defaultCharset := ""; defaultCollationID := 0;
       openGeneralLog := OpenGeneralLog namespaceConfig;
       maxSqlExecuteTime := 0; maxSqlResultSize := 0;
       defaultSlice := DefaultSlice namespaceConfig;
       downAfterNoAlive := 0; secondsBehindMaster := 0%N;
       slowSQLCache := NewLRUCache defaultSQLCacheCapacity;
       errorSQLCache := NewLRUCache defaultSQLCacheCapacity;
       backendSlowSQLCache := NewLRUCache defaultSQLCacheCapacity;
       backendErrorSQLCache := NewLRUCache defaultSQLCacheCapacity;
       planCache := NewLRUCache defaultPlanCacheCapacity;
       maxClientConnections := 0; CheckSelectLock := false |} in
  (* init black sql *)
  let namespace := set_sqls (parseBlackSqls (BlackSQL namespaceConfig)) namespace in
  (* init session slow sql time *)
  let '(t, err) := parseSlowSQLTime (SlowSQLTime namespaceConfig) in
  let namespace := set_slowSQLTime t namespace in
  match err with
  | Some e => returnError namespace (ErrWrap "parse slowSQLTime error" e) err false []
  | None =>
  (* init session slow sql max execute time *)
  let namespace :=
    set_maxSqlExecuteTime
      (if MaxSqlExecuteTime namespaceConfig <=? 0 then defaultMaxSqlExecuteTime
       else MaxSqlExecuteTime namespaceConfig)
      namespace in
  (* init session slow sql max result size *)
  let namespace :=
    set_maxSqlResultSize
      (if (MaxSqlResultSize namespaceConfig <=? 0)
          && negb (MaxSqlResultSize namespaceConfig =? -1)
       then defaultMaxSqlResultSize
       else MaxSqlResultSize namespaceConfig)
      namespace in
  let allowDBs :=
    foldl (fun m e => <[TrimSpace (fst e) := snd e]> m) ∅ (AllowedDBS namespaceConfig) in
  let namespace := set_allowedDBs allowDBs namespace in
  let defaultPhyDBs :=
    foldl (fun m e => <[TrimSpace (fst e) := TrimSpace (snd e)]> m) ∅
          (DefaultPhyDBS namespaceConfig) in
  let '(phyDBs, err) := parseDefaultPhyDB defaultPhyDBs allowDBs in
  let namespace := set_defaultPhyDBs phyDBs namespace in
  match err with
  | Some e => returnError namespace (ErrWrap "parse defaultPhyDBs error" e) err false []
  | None =>
  (* init allow ip *)
  let '(allowips, err) := parseAllowIps (AllowedIP namespaceConfig) in
  match err with
  | Some e => returnError namespace (ErrWrap "parse allowips error" e) err false []
  | None =>
  let namespace := set_allowips allowips namespace in
  let '(charset, collationID, err) :=
    parseCharset (DefaultCharset namespaceConfig) (DefaultCollation namespaceConfig) in
  let namespace := set_defaultCollationID collationID (set_defaultCharset charset namespace) in
  match err with
  | Some e => returnError namespace (ErrWrap "parse charset error" e) err false []
  | None =>
  (* init user properties *)
  let namespace :=
    set_userProperties
      (foldl (fun m user =>
                <[UserName user := {| RWFlag := UserRWFlag user; RWSplit := UserRWSplit user;
                                      OtherProperty := UserOtherProperty user |}]> m)
             (userProperties namespace) (Users namespaceConfig))
      namespace in
  (* init backend slices *)
  let '(parsed, err) :=
    parseSlices (Slices namespaceConfig) (defaultCharset namespace)
                (defaultCollationID namespace) in
  let namespace := set_slices parsed namespace in
  match err with
  | Some e => returnError namespace (ErrWrap "init slices of namespace failed" e) err false []
  | None =>
  (* check slice master and slave status *)
  let '(err, cancelled, tr) := checkSlicesStatus (slices namespace) in
  match err with
  | Some e =>
      returnError namespace (ErrWrap "check salve in slices of namespace failed" e)
                  err cancelled tr
  | None =>
  (* init router *)
  match NewRouter (withTrimmedSliceNames namespaceConfig) with
  | inl e =>
      returnError (set_router None namespace)
                  (ErrWrap "init router of namespace failed" e) (Some e) cancelled tr
  | inr r =>
  let namespace := set_router (Some r) namespace in
  (* init global sequences config; err is nil at this point and the loop
     returns without assigning it *)
  match initSequences [] (GlobalSequences namespaceConfig) (slices namespace) with
  | inl e => returnError namespace e None cancelled tr
  | inr sequences =>
  let namespace := set_sequences (Some sequences) namespace in
  (* the test reads the field of the namespace, not of the configuration *)
  let namespace :=
    set_maxClientConnections
      (if maxClientConnections namespace <=? 0 then defaultMaxClientConnections
       else MaxClientConnections namespaceConfig)
      namespace in
  let namespace := set_downAfterNoAlive (DownAfterNoAlive namespaceConfig) namespace in
  if downAfterNoAlive namespace <? 0
  then returnError namespace ErrDownAfterNoAlive None cancelled tr
  else
  (* not configurable yet, use default *)
  let namespace :=
    set_downAfterNoAlive
      (if downAfterNoAlive namespace =? 0 then defaultTimeAfterNoAlive
       else downAfterNoAlive namespace)
      namespace in
  let namespace := set_secondsBehindMaster (SecondsBehindMaster namespaceConfig) namespace in
  let namespace := set_CheckSelectLock (CheckSelectLock_cfg namespaceConfig) namespace in
  {| object := namespace; result := None; errVar := None;
     ctxDone := cancelled; trace := tr |}
  end end end end end end end end.

(** [NewNamespace]: the body, then the deferred function, which calls
    [Close(false)] when the local variable [err] is not nil. *)
Definition NewNamespace (namespaceConfig : NamespaceConfig) : Return :=
  let r := NewNamespace_body namespaceConfig in
  match errVar r with
  | Some _ =>
      let '(n, tr) := Close false (object r) in
      {| object := n; result := result r; errVar := errVar r;
         ctxDone := ctxDone r; trace := trace r ++ tr |}
  | None => r
  end.

(** The [*Namespace] handed to the caller: nil together with an error. *)
Definition returned (r : Return) : option Namespace :=
  match result r with
  | None => Some (object r)
  | Some _ => None
  end.

(** ** Policy lookups *)

(** [n.userProperties[user]]: the pointer stored for the user, nil for a
    user that is not a key of the map. *)
Definition userProperty (n : Namespace) (user : string) : option UserProperty :=
  userProperties n !! user.

(** Reading a field through a [*UserProperty]. *)
Definition field {A} (p : option UserProperty) (f : UserProperty -> A) : outcome A :=
  match p with
  | Some up => Done (f up)
  | None => Panicked nilDeref
  end.

Definition IsAllowWrite (n : Namespace) (user : string) : outcome bool :=
  flag ← field (userProperty n user) RWFlag;
  mret (bool_decide (flag = ReadWrite)).

Definition IsRWSplit (n : Namespace) (user : string) : outcome bool :=
  flag ← field (userProperty n user) RWSplit;
  mret (bool_decide (flag = ReadWriteSplit)).

Definition IsStatisticUser (n : Namespace) (user : string) : outcome bool :=
  flag ← field (userProperty n user) OtherProperty;
  mret (bool_decide (flag = StatisticUser)).

Definition GetUserProperty (n : Namespace) (user : string) : outcome Z :=
  field (userProperty n user) OtherProperty.

Definition GetMaxExecuteTime (n : Namespace) : Z := maxSqlExecuteTime n.

Definition GetMaxResultSize (n : Namespace) : Z := maxSqlResultSize n.

(** The request context ([util.RequestContext]) as the map it wraps;
    [IsSQLAllowed] returns its answer and the context it leaves. *)
Definition IsSQLAllowed (n : Namespace) (reqCtx : gmap string string) (sql : string)
    : bool * gmap string string :=
  if decide (size (sqls n) = 0%nat) then (true, reqCtx)
  else
    let fingerprint := GetFingerprint sql in
    let reqCtx := <["fingerprint" := fingerprint]> reqCtx in
    let md5 := GetMd5 fingerprint in
    match sqls n !! md5 with
    | Some _ => (false, reqCtx)
    | None => (true, reqCtx)
    end.

Definition IsAllowedDB (n : Namespace) (dbname : string) : bool :=
  match allowedDBs n !! dbname with
  | Some allowed => allowed
  | None => false
  end.

Definition GetDefaultPhyDB (n : Namespace) (dbname : string) : string * option error :=
  if decide (dbname = "") then ("", None)
  else
    match defaultPhyDBs n !! dbname with
    | None => ("", Some (ErrInvalidDB dbname))
    | Some phyDB => (phyDB, None)
    end.

(** ** Cache operations *)

Definition SetCachedPlan (n : Namespace) (db sql : string) (p : Plan) : Namespace :=
  set_planCache (cacheSetIfAbsent (db +:+ "|" +:+ sql) p (planCache n)) n.

Definition GetCachedPlan (n : Namespace) (db sql : string) : option Plan :=
  cacheLookup (db +:+ "|" +:+ sql) (planCache n).

Definition SetSlowSQLFingerprint (n : Namespace) (md5 fingerprint : string) : Namespace :=
  set_slowSQLCache (cacheSet md5 fingerprint (slowSQLCache n)) n.

Definition SetErrorSQLFingerprint (n : Namespace) (md5 fingerprint : string) : Namespace :=
  set_errorSQLCache (cacheSet md5 fingerprint (errorSQLCache n)) n.

Definition SetBackendSlowSQLFingerprint (n : Namespace) (md5 fingerprint : string)
    : Namespace :=
  set_backendSlowSQLCache (cacheSet md5 fingerprint (backendSlowSQLCache n)) n.

Definition SetBackendErrorSQLFingerprint (n : Namespace) (md5 fingerprint : string)
    : Namespace :=
  set_backendErrorSQLCache (cacheSet md5 fingerprint (backendErrorSQLCache n)) n.

Definition GetSlowSQLFingerprints (n : Namespace) : list (string * string) :=
  cacheItems (slowSQLCache n).

Definition GetErrorSQLFingerprints (n : Namespace) : list (string * string) :=
  cacheItems (errorSQLCache n).

Definition GetBackendSlowSQLFingerprints (n : Namespace) : list (string * string) :=
  cacheItems (backendSlowSQLCache n).

Definition GetBackendErrorSQLFingerprints (n : Namespace) : list (string * string) :=
  cacheItems (backendErrorSQLCache n).

(** ** The health probe *)

Record SlaveStatus : Type := {
  SecondsBehindMaster_st : N;
  SlaveIORunning : string;
  SlaveSQLRunning : string;
  MasterLogFile : string;
  ReadMasterLogPos : N;
  RelayMasterLogFile : string;
  ExecMasterLogPos : N
}.

Definition zeroSlaveStatus : SlaveStatus :=
  {| SecondsBehindMaster_st := 0%N; SlaveIORunning := ""; SlaveSQLRunning := "";
     MasterLogFile := ""; ReadMasterLogPos := 0%N; RelayMasterLogFile := "";
     ExecMasterLogPos := 0%N |}.

Definition asUint64 (col : Col) : N :=
  match col with ColUint64 v => v | _ => 0%N end.

Definition asString (default : string) (col : Col) : string :=
  match col with ColString s => s | _ => default end.

(** The [switch] on the lower-cased field name. *)
Definition setField (fieldName : string) (col : Col) (st : SlaveStatus) : SlaveStatus :=
  let lower := ToLower fieldName in
  if decide (lower = "seconds_behind_master") then
    {| SecondsBehindMaster_st := asUint64 col; SlaveIORunning := SlaveIORunning st;
       SlaveSQLRunning := SlaveSQLRunning st; MasterLogFile := MasterLogFile st;
       ReadMasterLogPos := ReadMasterLogPos st; RelayMasterLogFile := RelayMasterLogFile st;
       ExecMasterLogPos := ExecMasterLogPos st |}
  else if decide (lower = "slave_io_running") then
    {| SecondsBehindMaster_st := SecondsBehindMaster_st st;
       SlaveIORunning := asString "No" col;
       SlaveSQLRunning := SlaveSQLRunning st; MasterLogFile := MasterLogFile st;
       ReadMasterLogPos := ReadMasterLogPos st; RelayMasterLogFile := RelayMasterLogFile st;
       ExecMasterLogPos := ExecMasterLogPos st |}
  else if decide (lower = "slave_sql_running") then
    {| SecondsBehindMaster_st := SecondsBehindMaster_st st;
       SlaveIORunning := SlaveIORunning st;
       SlaveSQLRunning := asString "No" col; MasterLogFile := MasterLogFile st;
       ReadMasterLogPos := ReadMasterLogPos st; RelayMasterLogFile := RelayMasterLogFile st;
       ExecMasterLogPos := ExecMasterLogPos st |}
  else if decide (lower = "master_log_file") then
    {| SecondsBehindMaster_st := SecondsBehindMaster_st st;
       SlaveIORunning := SlaveIORunning st;
       SlaveSQLRunning := SlaveSQLRunning st; MasterLogFile := asString "" col;
       ReadMasterLogPos := ReadMasterLogPos st; RelayMasterLogFile := RelayMasterLogFile st;
       ExecMasterLogPos := ExecMasterLogPos st |}
  else if decide (lower = "read_master_log_pos") then
    {| SecondsBehindMaster_st := SecondsBehindMaster_st st;
       SlaveIORunning := SlaveIORunning st;
       SlaveSQLRunning := SlaveSQLRunning st; MasterLogFile := MasterLogFile st;
       ReadMasterLogPos := asUint64 col; RelayMasterLogFile := RelayMasterLogFile st;
       ExecMasterLogPos := ExecMasterLogPos st |}
  else if decide (lower = "relay_master_log_file") then
    {| SecondsBehindMaster_st := SecondsBehindMaster_st st;
       SlaveIORunning := SlaveIORunning st;
       SlaveSQLRunning := SlaveSQLRunning st; MasterLogFile := MasterLogFile st;
       ReadMasterLogPos := ReadMasterLogPos st; RelayMasterLogFile := asString "" col;
       ExecMasterLogPos := ExecMasterLogPos st |}
  else if decide (lower = "exec_master_log_pos") then
    {| SecondsBehindMaster_st := SecondsBehindMaster_st st;
       SlaveIORunning := SlaveIORunning st;
       SlaveSQLRunning := SlaveSQLRunning st; MasterLogFile := MasterLogFile st;
       ReadMasterLogPos := ReadMasterLogPos st; RelayMasterLogFile := RelayMasterLogFile st;
       ExecMasterLogPos := asUint64 col |}
  else st.

(** The loop over [res.Fields]; a failing [GetValueByName] breaks it. *)
Fixpoint readFields (res : Result) (fields : list string) (st : SlaveStatus)
    : SlaveStatus * option error :=
  match fields with
  | [] => (st, None)
  | fieldName :: rest =>
      match GetValueByName res fieldName with
      | inl err => (st, Some err)
      | inr col => readFields res rest (setField fieldName col st)
      end
  end.

(** [GetSlaveStatus]; calling [Execute] on a nil connection panics. *)
Definition GetSlaveStatus (conn : option PooledConnect)
    : outcome (SlaveStatus * option error) :=
  match conn with
  | None => Panicked nilDeref
  | Some c =>
      match Execute c with
      | inl err => Done (zeroSlaveStatus, Some err)
      | inr res => Done (readFields res (Fields res) zeroSlaveStatus)
      end
  end.

Definition slaveIsLagBehand (conn : option PooledConnect) (namespace : Namespace)
    : outcome (bool * option error) :=
  r ← GetSlaveStatus conn;
  match r with
  | (_, Some err) => mret (false, Some err)
  | (slaveStatus, None) =>
      if (secondsBehindMaster namespace <? SecondsBehindMaster_st slaveStatus)%N
      then mret (true, None)
      else if decide (SlaveIORunning slaveStatus <> "Yes") then mret (true, None)
      else if decide (SlaveSQLRunning slaveStatus <> "Yes") then mret (true, None)
      else mret (false, None)
  end.

Definition shouldCheckSlaveDataSyncStatus (namespace : Namespace)
    (crruentStatus : StatusCode) (slice : Slice) (isMaster : bool) : bool :=
  if isMaster || bool_decide (crruentStatus = UP) then false
  else if bool_decide (StatusMap (Master slice) !! 0%nat = Some DOWN) then false
  else bool_decide (secondsBehindMaster namespace <> 0%N).

(** The variables of [getInstanceStatus] when its loop is left. *)
Record LoopExit : Type := {
  exitSleepTime : Z;
  exitErr : bool;                       (* err != nil *)
  exitConn : option PooledConnect;
  exitTrace : list Event
}.

(** The loop of [getInstanceStatus].  [pass] counts the passes made so far.
    The loop need not end (once [sleepTime] has wrapped around to 0 it stays
    there), hence the bound [fuel] on the number of passes. *)
Fixpoint getInstanceStatus_loop (fuel : nat) (namespace : Namespace) (v : ConnectionPool)
    (pass : nat) (sleepTime : Z) (err : bool) (conn : option PooledConnect)
    (tr : list Event) : outcome LoopExit :=
  if sleepTime <? downAfterNoAlive namespace then
    match fuel with
    | O => OutOfFuel
    | S fuel' =>
        let got := {| connPass := pass; Execute := showSlaveStatus v |} in
        match attempt v pass with
        | GetFails connReturned =>
            (* conn is recycled and set to nil when Get handed one out *)
            getInstanceStatus_loop fuel' namespace v (S pass) (wrap64 (sleepTime * 2))
              true None
              (tr ++ [EvGet] ++ (if connReturned then [EvRecycle pass] else [])
                  ++ [EvSleep (seconds sleepTime)])
        | PingOk =>
            Done {| exitSleepTime := sleepTime; exitErr := false; exitConn := Some got;
                    exitTrace := tr ++ [EvGet; EvPing] |}
        | ReconnectOk =>
            Done {| exitSleepTime := sleepTime; exitErr := false; exitConn := Some got;
                    exitTrace := tr ++ [EvGet; EvPing; EvReconnect] |}
        | PingReconnectFail =>
            (* conn is recycled and kept *)
            getInstanceStatus_loop fuel' namespace v (S pass) (wrap64 (sleepTime * 2))
              true (Some got)
              (tr ++ [EvGet; EvPing; EvReconnect; EvRecycle pass;
                      EvSleep (seconds sleepTime)])
        end
    end
  else
    Done {| exitSleepTime := sleepTime; exitErr := err; exitConn := conn;
            exitTrace := tr |}.

(** What [getInstanceStatus] returns, with the trace of the probe. *)
Record Probe : Type := {
  probeStatus : StatusCode;
  probeConn : option PooledConnect;
  probeTrace : list Event
}.

Definition getInstanceStatus (fuel : nat) (namespace : Namespace) (v : ConnectionPool)
    : outcome Probe :=
  x ← getInstanceStatus_loop fuel namespace v 0%nat 1 false None [];
  let status :=
    if exitErr x || (downAfterNoAlive namespace <=? exitSleepTime x) then DOWN else UP in
  mret {| probeStatus := status; probeConn := exitConn x; probeTrace := exitTrace x |}.

(** ** The supervisor *)

(** The body of the loop over [slaveInfo.ConnPool] in [checkStatus], for the
    pool [v] at index [idx]: the status stored and the trace. *)
Definition checkPool (fuel : nat) (namespace : Namespace) (slice : Slice)
    (isMaster : bool) (idx : nat) (v : ConnectionPool)
    : outcome (StatusCode * list Event) :=
  p ← getInstanceStatus fuel namespace v;
  let status := probeStatus p in
  let conn := probeConn p in
  let recycle := match conn with Some c => [EvRecycle (connPass c)] | None => [] end in
  if shouldCheckSlaveDataSyncStatus namespace status slice isMaster then
    l ← slaveIsLagBehand conn namespace;
    let status := if (fst l : bool) then DOWN else status in
    mret (status,
          probeTrace p
            ++ match conn with Some c => [EvExecute (connPass c)] | None => [] end
            ++ recycle ++ [EvStore idx status])
  else
    mret (status, probeTrace p ++ recycle ++ [EvStore idx status]).

(** One pass over the pools of a group, from index [idx] on, storing each
    status in the group's status map. *)
Fixpoint checkPools (fuel : nat) (namespace : Namespace) (slice : Slice) (isMaster : bool)
    (idx : nat) (pools : list ConnectionPool) (statusMap : gmap nat StatusCode)
    : outcome (gmap nat StatusCode * list Event) :=
  match pools with
  | [] => mret (statusMap, [])
  | v :: rest =>
      r ← checkPool fuel namespace slice isMaster idx v;
      r' ← checkPools fuel namespace slice isMaster (S idx) rest (<[idx := fst r]> statusMap);
      mret (fst r', snd r ++ snd r')
  end.

Definition groupOf (slice : Slice) (r : Role) : DBInfo :=
  match r with
  | RoleSlave => Slave slice
  | RoleStatisticSlave => StatisticSlave slice
  | RoleMaster => Master slice
  end.

Definition setGroup (slice : Slice) (r : Role) (g : DBInfo) : Slice :=
  {| Cfg := Cfg slice; SliceCharset := SliceCharset slice;
     SliceCollationID := SliceCollationID slice;
     Master := if decide (r = RoleMaster) then g else Master slice;
     Slave := if decide (r = RoleSlave) then g else Slave slice;
     StatisticSlave := if decide (r = RoleStatisticSlave) then g else StatisticSlave slice |}.

(** One turn of the [for] loop of a worker ([checkStatus]) of the group [r]
    of [slice]: when the context is done the worker returns ([None]);
    otherwise it probes every pool of its group, stores the statuses and
    sleeps two seconds. *)
Definition checkStatus_turn (fuel : nat) (namespace : Namespace) (slice : Slice) (r : Role)
    (done : bool) : outcome (option (Slice * list Event)) :=
  if done then mret None
  else
    let slaveInfo := groupOf slice r in
    x ← checkPools fuel namespace slice (bool_decide (r = RoleMaster)) 0%nat
          (ConnPool slaveInfo) (StatusMap slaveInfo);
    mret (Some (setGroup slice r {| ConnPool := ConnPool slaveInfo; StatusMap := fst x |},
                snd x ++ [EvSleep (wrap64 (2 * Second))])).

(** ** The namespace with its running supervisors *)

Record Worker : Type := {
  workerSlice : string;
  workerRole : Role;
  running : bool
}.

(** The workers started along a trace. *)
Fixpoint workersOf (tr : list Event) : list Worker :=
  match tr with
  | [] => []
  | EvSpawn slice r :: tr' =>
      {| workerSlice := slice; workerRole := r; running := true |} :: workersOf tr'
  | _ :: tr' => workersOf tr'
  end.

Record System : Type := {
  sysNamespace : Namespace;
  sysCtxDone : bool;            (* the context the workers select on *)
  sysWorkers : list Worker;
  sysCrashed : bool             (* a worker panicked *)
}.

Inductive Action : Type :=
| ActClose (delay : bool)       (* the owner calls Close(delay) *)
| ActTurn (i : nat).            (* the i-th worker makes one turn of its loop *)

Definition stopWorker (w : Worker) : Worker :=
  {| workerSlice := workerSlice w; workerRole := workerRole w; running := false |}.

Definition sysStep (fuel : nat) (a : Action) (s : System) : System :=
  match a with
  | ActClose delay =>
      {| sysNamespace := fst (Close delay (sysNamespace s)); sysCtxDone := sysCtxDone s;
         sysWorkers := sysWorkers s; sysCrashed := sysCrashed s |}
  | ActTurn i =>
      match sysWorkers s !! i with
      | Some w =>
          if running w && negb (sysCrashed s) then
            match slices (sysNamespace s) !! workerSlice w with
            | Some slice =>
                match checkStatus_turn fuel (sysNamespace s) slice (workerRole w)
                                       (sysCtxDone s) with
                | Done None =>
                    {| sysNamespace := sysNamespace s; sysCtxDone := sysCtxDone s;
                       sysWorkers := <[i := stopWorker w]> (sysWorkers s);
                       sysCrashed := sysCrashed s |}
                | Done (Some (slice', _)) =>
                    {| sysNamespace :=
                         set_slices (<[workerSlice w := slice']> (slices (sysNamespace s)))
                                    (sysNamespace s);
                       sysCtxDone := sysCtxDone s; sysWorkers := sysWorkers s;
                       sysCrashed := sysCrashed s |}
                | Panicked _ =>
                    {| sysNamespace := sysNamespace s; sysCtxDone := sysCtxDone s;
                       sysWorkers := sysWorkers s; sysCrashed := true |}
                | OutOfFuel => s
                end
            | None => s
            end
          else s
      | None => s
      end
  end.

Definition sysRun (fuel : nat) (acts : list Action) (s : System) : System :=
  foldl (fun s a => sysStep fuel a s) s acts.

(** ** Further lookups *)

(** The loop of [IsClientIPAllowed]: the first matcher that accepts ends it. *)
Fixpoint matchAny {IP} (Match : IPInfo -> IP -> bool) (allowips : list IPInfo)
    (clientIP : IP) : bool :=
  match allowips with
  | [] => false
  | ip :: rest => if Match ip clientIP then true else matchAny Match rest clientIP
  end.

(** [IsClientIPAllowed]; [Match] is the method of [util.IPInfo], [IP] the
    type [net.IP]. *)
Definition IsClientIPAllowed {IP} (Match : IPInfo -> IP -> bool) (n : Namespace)
    (clientIP : IP) : bool :=
  if decide (length (allowips n) = 0%nat) then true
  else matchAny Match (allowips n) clientIP.

(** [GetAllowedDBs]: the keys of [allowedDBs], in the order of the range
    loop (here that of [map_to_list]). *)
Definition GetAllowedDBs (n : Namespace) : list string :=
  fst <$> map_to_list (allowedDBs n).

End Namespace.

(** ** Sample collaborators

    Simple stand-ins for the collaborating packages, with which the
    definitions above run on concrete inputs. *)

Module Sample.

Definition isSpace (a : ascii) : bool :=
  let n := nat_of_ascii a in
  ((n =? 32) || ((9 <=? n) && (n <=? 13)))%nat.

Fixpoint trimLeft (s : string) : string :=
  match s with
  | EmptyString => EmptyString
  | String a s' => if isSpace a then trimLeft s' else s
  end.

Fixpoint trimRight (s : string) : string :=
  match s with
  | EmptyString => EmptyString
  | String a s' =>
      let t := trimRight s' in
      if isSpace a && String.eqb t "" then "" else String a t
  end.

Definition trimSpace (s : string) : string := trimRight (trimLeft s).

Definition lowerAscii (a : ascii) : ascii :=
  let n := nat_of_ascii a in
  if ((65 <=? n) && (n <=? 90))%nat then ascii_of_nat (n + 32) else a.

Definition upperAscii (a : ascii) : ascii :=
  let n := nat_of_ascii a in
  if ((97 <=? n) && (n <=? 122))%nat then ascii_of_nat (n - 32) else a.

Fixpoint mapString (f : ascii -> ascii) (s : string) : string :=
  match s with
  | EmptyString => EmptyString
  | String a s' => String (f a) (mapString f s')
  end.

Fixpoint parseDigits (acc : Z) (s : string) : option Z :=
  match s with
  | EmptyString => Some acc
  | String a s' =>
      let n := Z.of_nat (nat_of_ascii a) in
      if (48 <=? n) && (n <=? 57) then parseDigits (acc * 10 + (n - 48)) s' else None
  end.

Definition parseInt (s : string) : error + Z :=
  let signed :=
    match s with
    | EmptyString => None
    | String "-" (String a s') => Z.opp <$> parseDigits 0 (String a s')
    | _ => parseDigits 0 s
    end in
  match signed with
  | Some z =>
      if (- 2 ^ 63 <=? z) && (z <? 2 ^ 63) then inr z
      else inl (ErrExternal "value out of range")
  | None => inl (ErrExternal "invalid syntax")
  end.

Definition charsetIds (charset : string) : option Z :=
  if String.eqb charset "utf8" then Some 33
  else if String.eqb charset "utf8mb4" then Some 45
  else if String.eqb charset "latin1" then Some 8
  else None.

Definition collationNames (collation : string) : option Z :=
  if String.eqb collation "utf8_general_ci" then Some 33
  else if String.eqb collation "utf8mb4_general_ci" then Some 45
  else if String.eqb collation "latin1_swedish_ci" then Some 8
  else None.

Definition verifyCharset (charset collation : string) : option error :=
  match charsetIds charset, collationNames collation with
  | Some a, Some b => if a =? b then None else Some (ErrExternal "charset mismatch")
  | _, _ => Some (ErrExternal "charset mismatch")
  end.

(** A reply to [show slave status;] of a slave that is [lag] seconds
    behind, with both replication threads running. *)
Definition slaveStatusReply (lag : N) : Result :=
  {| Fields := ["Slave_IO_Running"; "Slave_SQL_Running"; "Seconds_Behind_Master"];
     GetValueByName := fun fieldName =>
       if String.eqb fieldName "Seconds_Behind_Master" then inr (ColUint64 lag)
       else if String.eqb fieldName "Slave_IO_Running" then inr (ColString "Yes")
       else if String.eqb fieldName "Slave_SQL_Running" then inr (ColString "Yes")
       else inl (ErrExternal "column not found") |}.

(** A pool whose instance answers the first PING. *)
Definition healthyPool (addr : string) (lag : N) : ConnectionPool :=
  {| Addr := addr; attempt := fun _ => PingOk;
     showSlaveStatus := inr (slaveStatusReply lag) |}.

(** A pool that never hands out a connection. *)
Definition deadPool (addr : string) : ConnectionPool :=
  {| Addr := addr; attempt := fun _ => GetFails false;
     showSlaveStatus := inl (ErrExternal "connection refused") |}.

(** A pool that hands out no connection during the first [n] passes of a
    probe and answers from then on. *)
Definition recoveringPool (addr : string) (n : nat) : ConnectionPool :=
  {| Addr := addr;
     attempt := fun pass => if Nat.ltb pass n then GetFails false else PingOk;
     showSlaveStatus := inr (slaveStatusReply 0%N) |}.

Definition allUp (pools : list ConnectionPool) : gmap nat StatusCode :=
  list_to_map (imap (fun i _ => (i, UP)) pools).

Definition parseGroup (addrs : list string) : error + DBInfo :=
  let pools := (fun addr => healthyPool addr 0%N) <$> addrs in
  inr {| ConnPool := pools; StatusMap := allUp pools |}.

#[local] Instance collaborators : Collaborators := {|
  TrimSpace := trimSpace;
  ToLower := mapString lowerAscii;
  ToUpper := mapString upperAscii;
  ParseInt := parseInt;
  GetFingerprint := fun sql => mapString lowerAscii (trimSpace sql);
  GetMd5 := fun s => "md5:" +:+ s;
  mysqlDefaultCharset := "utf8";
  mysqlDefaultCollationID := 33;
  CharsetIds := charsetIds;
  CollationNames := collationNames;
  VerifyCharset := verifyCharset;
  IPInfo := string;
  ParseIPInfo := fun s => inr s;
  ParseMaster := fun addr => parseGroup [addr];
  ParseSlave := parseGroup;
  SliceClose := fun _ => None;
  Router := unit;
  NewRouter := fun _ => inr tt;
  Plan := string;
  ReadWrite := 2;
  ReadWriteSplit := 1;
  StatisticUser := 1
|}.

Definition slice0 : SliceConfig :=
  {| SliceName := "slice-0"; MasterAddr := "10.0.0.1:3306";
     Slaves := ["10.0.0.2:3306"]; StatisticSlaves := [] |}.

(** A configuration with one slice (a master and one slave); the policies
    vary. *)
Definition config (blackSQL : list string) (allowedDBS : list (string * bool))
    (defaultPhyDBS : list (string * string))
    (maxClientConnections downAfterNoAlive : Z) (secondsBehindMaster : N)
    : NamespaceConfig :=
  {| Name := "ns"; OpenGeneralLog := false; DefaultSlice := "slice-0";
     BlackSQL := blackSQL; SlowSQLTime := "";
     MaxSqlExecuteTime := 0; MaxSqlResultSize := 0;
     AllowedDBS := allowedDBS; DefaultPhyDBS := defaultPhyDBS;
     AllowedIP := []; DefaultCharset := ""; DefaultCollation := "";
     Users := [{| UserName := "root"; UserRWFlag := 2; UserRWSplit := 1;
                  UserOtherProperty := 0 |}];
     Slices := [slice0]; GlobalSequences := [];
     MaxClientConnections := maxClientConnections;
     DownAfterNoAlive := downAfterNoAlive;
     SecondsBehindMaster := secondsBehindMaster;
     CheckSelectLock_cfg := false |}.

(** The same with a negative slow-SQL time, which construction rejects. *)
Definition configNegativeSlowSQLTime : NamespaceConfig :=
  {| Name := "ns"; OpenGeneralLog := false; DefaultSlice := "slice-0";
     BlackSQL := []; SlowSQLTime := "-5";
     MaxSqlExecuteTime := 0; MaxSqlResultSize := 0;
     AllowedDBS := [("db", true)]; DefaultPhyDBS := [];
     AllowedIP := []; DefaultCharset := ""; DefaultCollation := "";
     Users := []; Slices := [slice0]; GlobalSequences := [];
     MaxClientConnections := 0; DownAfterNoAlive := 8;
     SecondsBehindMaster := 0%N; CheckSelectLock_cfg := false |}.

(** The namespace built from the plain configuration, with the given
    [downAfterNoAlive] and [secondsBehindMaster]. *)
Definition namespace (downAfterNoAlive : Z) (secondsBehindMaster : N) : Namespace :=
  object (NewNamespace (config [] [("db", true)] [] 0 downAfterNoAlive secondsBehindMaster)).

(** Its slice, as construction left it: master and slave UP. *)
Definition slice (downAfterNoAlive : Z) (secondsBehindMaster : N) : option Slice :=
  slices (namespace downAfterNoAlive secondsBehindMaster) !! "slice-0".

(** A second slice whose name, once trimmed, is the name of [slice0]. *)
Definition slice0Padded : SliceConfig :=
  {| SliceName := " slice-0 "; MasterAddr := "10.0.0.3:3306";
     Slaves := []; StatisticSlaves := [] |}.

(** A configuration with padded names, a blacklist and an allow list with
    a blank entry each, a character set with its collation, two users and
    a global sequence. *)
Definition configFull : NamespaceConfig :=
  {| Name := "ns"; OpenGeneralLog := false; DefaultSlice := "slice-0";
     BlackSQL := [" select 1 "; "  "]; SlowSQLTime := "100";
     MaxSqlExecuteTime := 0; MaxSqlResultSize := 0;
     AllowedDBS := [(" db ", true); ("old", false)]; DefaultPhyDBS := [];
     AllowedIP := [" 10.0.0.9 "; "  "; "10.0.0.10"];
     DefaultCharset := "utf8mb4"; DefaultCollation := "utf8mb4_general_ci";
     Users := [{| UserName := "root"; UserRWFlag := 2; UserRWSplit := 1;
                  UserOtherProperty := 0 |};
               {| UserName := "report"; UserRWFlag := 1; UserRWSplit := 0;
                  UserOtherProperty := 1 |}];
     Slices := [slice0Padded];
     GlobalSequences := [{| SeqSliceName := "slice-0"; SeqDB := "db";
                            SeqTable := "t"; SeqPKName := "id" |}];
     MaxClientConnections := 0; DownAfterNoAlive := 8;
     SecondsBehindMaster := 5%N; CheckSelectLock_cfg := false |}.

(** A pool whose connections fail every PING and every RECONNECT, and
    still answer [show slave status;]. *)
Definition failingPool (addr : string) : ConnectionPool :=
  {| Addr := addr; attempt := fun _ => PingReconnectFail;
     showSlaveStatus := inr (slaveStatusReply 0%N) |}.

(** A slice given directly: a master known UP, a slave that answers and is
    [lag] seconds behind, and a slave whose connections fail. *)
Definition sliceWith (lag : N) : Slice :=
  {| Cfg := slice0; SliceCharset := "utf8"; SliceCollationID := 33;
     Master := {| ConnPool := [healthyPool "10.0.0.1:3306" 0%N];
                  StatusMap := {[ 0%nat := UP ]} |};
     Slave := {| ConnPool := [healthyPool "10.0.0.2:3306" lag;
                              failingPool "10.0.0.4:3306"];
                 StatusMap := ∅ |};
     StatisticSlave := {| ConnPool := []; StatusMap := ∅ |} |}.

End Sample.

(** * Properties *)

(** ** Traces *)

Lemma sleeps_app (a b : list Event) : sleeps (a ++ b) = sleeps a ++ sleeps b.
Proof.
  induction a as [|e a IH]; [reflexivity|].
  destruct e; simpl; rewrite ?IH; reflexivity.
Qed.

Lemma elapsed_app (a b : list Event) : elapsed (a ++ b) = elapsed a + elapsed b.
Proof.
  induction a as [|e a IH]; [reflexivity|].
  destruct e; simpl; rewrite ?IH; lia.
Qed.

Lemma attemptTimes_app (a b : list Event) (now : Z) :
  attemptTimes now (a ++ b) = attemptTimes now a ++ attemptTimes (now + elapsed a) b.
Proof.
  revert now. induction a as [|e a IH]; intros now.
  - simpl. f_equal. lia.
  - destruct e; simpl; rewrite ?IH; try reflexivity.
    f_equal. f_equal. lia.
Qed.

(** ** Machine arithmetic *)

Lemma wrap64_small (z : Z) : - 2 ^ 63 <= z < 2 ^ 63 -> wrap64 z = z.
Proof.
  intros Hz. unfold wrap64.
  change (2 ^ 63) with 9223372036854775808 in *.
  change (2 ^ 64) with 18446744073709551616.
  rewrite Z.mod_small by lia. lia.
Qed.

Lemma seconds_small (n : Z) : 0 <= n <= 2 ^ 33 -> seconds n = n * Second.
Proof.
  intros Hn. unfold seconds, Second.
  change (2 ^ 33) with 8589934592 in Hn.
  rewrite (wrap64_small n) by (change (2 ^ 63) with 9223372036854775808; lia).
  apply wrap64_small. change (2 ^ 63) with 9223372036854775808. lia.
Qed.

Lemma pow2_le_33 (k : nat) : (k <= 33)%nat -> 0 < 2 ^ Z.of_nat k <= 2 ^ 33.
Proof.
  intros Hk. split.
  - apply Z.pow_pos_nonneg; lia.
  - apply Z.pow_le_mono_r; lia.
Qed.

Lemma pow2_S (k : nat) : 2 ^ Z.of_nat (S k) = 2 ^ Z.of_nat k * 2.
Proof. rewrite Nat2Z.inj_succ, Z.pow_succ_r by lia. lia. Qed.

Lemma fmap_seq_S {A} (f : nat -> A) (n : nat) :
  f <$> seq 0 (S n) = f 0%nat :: ((fun i => f (S i)) <$> seq 0 n).
Proof.
  simpl. f_equal. rewrite <- fmap_S_seq, <- list_fmap_compose. reflexivity.
Qed.

(** ** The sample [TrimSpace] *)

Lemma sample_trimLeft_fixed (s : string) :
  match s with
  | EmptyString => True
  | String a _ => Sample.isSpace a = false
  end ->
  Sample.trimLeft s = s.
Proof. destruct s as [|a s]; simpl; [reflexivity|]. intros ->. reflexivity. Qed.

Lemma sample_trimRight_head (s : string) :
  match s with
  | EmptyString => True
  | String a _ => Sample.isSpace a = false
  end ->
  match Sample.trimRight s with
  | EmptyString => True
  | String a _ => Sample.isSpace a = false
  end.
Proof.
  destruct s as [|a s]; simpl; [auto|]. intros Ha. rewrite Ha. simpl. exact Ha.
Qed.

Lemma sample_trimLeft_head (s : string) :
  match Sample.trimLeft s with
  | EmptyString => True
  | String a _ => Sample.isSpace a = false
  end.
Proof.
  induction s as [|a s IH]; simpl; [exact I|].
  destruct (Sample.isSpace a) eqn:Ha; [exact IH|exact Ha].
Qed.

Lemma sample_trimRight_idem (s : string) :
  Sample.trimRight (Sample.trimRight s) = Sample.trimRight s.
Proof.
  induction s as [|a s IH]; simpl; [reflexivity|].
  destruct (Sample.isSpace a && String.eqb (Sample.trimRight s) "") eqn:Hc;
    [reflexivity|].
  simpl. rewrite IH, Hc. reflexivity.
Qed.

Lemma sample_trimSpace_idem (s : string) :
  Sample.trimSpace (Sample.trimSpace s) = Sample.trimSpace s.
Proof.
  unfold Sample.trimSpace.
  rewrite (sample_trimLeft_fixed (Sample.trimRight (Sample.trimLeft s)))
    by apply sample_trimRight_head, sample_trimLeft_head.
  apply sample_trimRight_idem.
Qed.

Section Properties.
Context `{Collaborators}.

(** ** The probe loop *)

Lemma getInstanceStatus_loop_eq fuel namespace v pass sleepTime err conn tr :
  getInstanceStatus_loop fuel namespace v pass sleepTime err conn tr =
  if sleepTime <? downAfterNoAlive namespace then
    match fuel with
    | O => OutOfFuel
    | S fuel' =>
        let got := {| connPass := pass; Execute := showSlaveStatus v |} in
        match attempt v pass with
        | GetFails connReturned =>
            getInstanceStatus_loop fuel' namespace v (S pass) (wrap64 (sleepTime * 2))
              true None
              (tr ++ [EvGet] ++ (if connReturned then [EvRecycle pass] else [])
                  ++ [EvSleep (seconds sleepTime)])
        | PingOk =>
            Done {| exitSleepTime := sleepTime; exitErr := false; exitConn := Some got;
                    exitTrace := tr ++ [EvGet; EvPing] |}
        | ReconnectOk =>
            Done {| exitSleepTime := sleepTime; exitErr := false; exitConn := Some got;
                    exitTrace := tr ++ [EvGet; EvPing; EvReconnect] |}
        | PingReconnectFail =>
            getInstanceStatus_loop fuel' namespace v (S pass) (wrap64 (sleepTime * 2))
              true (Some got)
              (tr ++ [EvGet; EvPing; EvReconnect; EvRecycle pass;
                      EvSleep (seconds sleepTime)])
        end
    end
  else
    Done {| exitSleepTime := sleepTime; exitErr := err; exitConn := conn;
            exitTrace := tr |}.
Proof. destruct fuel; reflexivity. Qed.

(** A failing pass: the loop goes on with the doubled sleep time, having
    asked the pool once, at the instant the pass began, and slept. *)
Lemma failing_pass fuel namespace v pass sleepTime err conn tr :
  failing (attempt v pass) = true ->
  sleepTime < downAfterNoAlive namespace ->
  exists conn' tr',
    getInstanceStatus_loop (S fuel) namespace v pass sleepTime err conn tr =
    getInstanceStatus_loop fuel namespace v (S pass) (wrap64 (sleepTime * 2)) true conn' tr'
    /\ sleeps tr' = sleeps tr ++ [seconds sleepTime]
    /\ attemptTimes 0 tr' = attemptTimes 0 tr ++ [elapsed tr]
    /\ elapsed tr' = elapsed tr + Z.max 0 (seconds sleepTime).
Proof.
  intros Hfail Hlt.
  rewrite getInstanceStatus_loop_eq.
  apply Z.ltb_lt in Hlt. rewrite Hlt.
  destruct (attempt v pass) as [c| | |]; simpl in Hfail; try discriminate.
  - eexists _, _. split; [reflexivity|].
    rewrite !sleeps_app, !attemptTimes_app, !elapsed_app.
    destruct c; simpl; rewrite ?app_nil_r; repeat split; f_equal; lia.
  - eexists _, _. split; [reflexivity|].
    rewrite !sleeps_app, !attemptTimes_app, !elapsed_app.
    simpl; rewrite ?app_nil_r; repeat split; f_equal; lia.
Qed.

(** The schedule of a probe on a pool that fails every pass, entered with
    the sleep time [2 ^ k]: [n] more passes are made, each followed by a
    sleep of the current sleep time, which then doubles; the loop is left
    when the sleep time has reached [downAfterNoAlive]. *)
Lemma all_fail_schedule namespace v :
  (forall i, failing (attempt v i) = true) ->
  downAfterNoAlive namespace <= 2 ^ 33 ->
  forall fuel k pass err conn tr,
    (k <= 33)%nat -> (33 <= k + fuel)%nat ->
    exists n x,
      getInstanceStatus_loop fuel namespace v pass (2 ^ Z.of_nat k) err conn tr = Done x
      /\ exitSleepTime x = 2 ^ Z.of_nat (k + n)
      /\ downAfterNoAlive namespace <= 2 ^ Z.of_nat (k + n)
      /\ (forall i, (i < n)%nat -> 2 ^ Z.of_nat (k + i) < downAfterNoAlive namespace)
      /\ (n = 0%nat -> exitErr x = err /\ exitConn x = conn)
      /\ sleeps (exitTrace x) =
           sleeps tr ++ ((fun i => 2 ^ Z.of_nat (k + i) * Second) <$> seq 0 n)
      /\ attemptTimes 0 (exitTrace x) =
           attemptTimes 0 tr
             ++ ((fun i => elapsed tr + (2 ^ Z.of_nat (k + i) - 2 ^ Z.of_nat k) * Second)
                   <$> seq 0 n)
      /\ elapsed (exitTrace x) =
           elapsed tr + (2 ^ Z.of_nat (k + n) - 2 ^ Z.of_nat k) * Second.
Proof.
  intros Hfail Hmax fuel.
  induction fuel as [|fuel IH]; intros k pass err conn tr Hk Hfuel.
  - (* no pass left: the sleep time is 2^33 already *)
    assert (k = 33%nat) as -> by lia.
    exists 0%nat. eexists. rewrite getInstanceStatus_loop_eq.
    destruct (Z.ltb_spec (2 ^ Z.of_nat 33) (downAfterNoAlive namespace)) as [Hlt|Hge].
    { change (Z.of_nat 33) with 33 in Hlt. lia. }
    split; [reflexivity|]. simpl exitSleepTime. simpl exitTrace.
    rewrite Nat.add_0_r, !app_nil_r. repeat split; try lia.
  - destruct (Z.ltb_spec (2 ^ Z.of_nat k) (downAfterNoAlive namespace)) as [Hlt|Hge].
    + assert (k < 33)%nat as Hk'.
      { destruct (decide (k = 33%nat)) as [->|]; [|lia].
        change (Z.of_nat 33) with 33 in Hlt. lia. }
      destruct (failing_pass fuel namespace v pass _ err conn tr (Hfail pass) Hlt)
        as (conn' & tr' & -> & Hs & Ha & He).
      pose proof (pow2_le_33 k Hk) as Hpow.
      rewrite wrap64_small
        by (change (2 ^ 63) with 9223372036854775808;
            change (2 ^ 33) with 8589934592 in Hpow; lia).
      rewrite seconds_small in Hs, He by lia.
      rewrite <- pow2_S.
      destruct (IH (S k) (S pass) true conn' tr' ltac:(lia) ltac:(lia))
        as (n & x & Hx & Hst & Hge & Hbelow & _ & Hs' & Ha' & He').
      exists (S n), x.
      replace (k + S n)%nat with (S k + n)%nat by lia.
      split; [exact Hx|]. split; [exact Hst|]. split; [exact Hge|].
      split.
      { intros i Hi. destruct i as [|i].
        - rewrite Nat.add_0_r. exact Hlt.
        - replace (k + S i)%nat with (S k + i)%nat by lia. apply Hbelow. lia. }
      split; [intros; lia|].
      split.
      { rewrite Hs', Hs, fmap_seq_S, Nat.add_0_r, <- app_assoc. simpl.
        do 2 f_equal. apply list_fmap_ext. intros _ i _.
        replace (k + S i)%nat with (S k + i)%nat by lia. reflexivity. }
      split.
      { rewrite Ha', Ha, fmap_seq_S, Nat.add_0_r, <- app_assoc. simpl.
        f_equal. f_equal; [lia|]. apply list_fmap_ext. intros _ i _.
        replace (k + S i)%nat with (S k + i)%nat by lia.
        change (S k + i)%nat with (S (k + i)).
        rewrite He, (pow2_S k), (pow2_S (k + i)). unfold Second. lia. }
      rewrite He', He. change (S k + n)%nat with (S (k + n)).
      rewrite (pow2_S k), (pow2_S (k + n)). unfold Second. lia.
    + exists 0%nat. eexists. rewrite getInstanceStatus_loop_eq.
      destruct (Z.ltb_spec (2 ^ Z.of_nat k) (downAfterNoAlive namespace)); [lia|].
      split; [reflexivity|]. simpl exitSleepTime. simpl exitTrace.
      rewrite Nat.add_0_r, !app_nil_r. repeat split; try lia.
Qed.

(** ** Construction *)

(** Computing with the fields of the namespace object. *)
Ltac ns_fields :=
  cbv beta iota zeta delta
      [name allowedDBs defaultPhyDBs sqls slowSQLTime allowips router
       sequences slices userProperties defaultCharset defaultCollationID
       openGeneralLog maxSqlExecuteTime maxSqlResultSize defaultSlice
       downAfterNoAlive secondsBehindMaster slowSQLCache errorSQLCache
       backendSlowSQLCache backendErrorSQLCache planCache
       maxClientConnections CheckSelectLock set_allowedDBs set_defaultPhyDBs
       set_sqls set_slowSQLTime set_allowips set_router set_sequences
       set_slices set_userProperties set_defaultCharset
       set_defaultCollationID set_maxSqlExecuteTime set_maxSqlResultSize
       set_downAfterNoAlive set_secondsBehindMaster set_slowSQLCache
       set_errorSQLCache set_backendSlowSQLCache set_backendErrorSQLCache
       set_planCache set_maxClientConnections set_CheckSelectLock returnError
       result errVar object ctxDone trace].

(** An early return with an error leaves a result that is not nil. *)
Ltac error_return :=
  intros Hr; exfalso; revert Hr;
  cbv beta iota zeta delta [result returnError]; discriminate.

(** What the body has established when it returns without an error. *)
Lemma NewNamespace_body_success cfg :
  result (NewNamespace_body cfg) = None ->
  let n := object (NewNamespace_body cfg) in
  let allowDBs := foldl (fun m e => <[TrimSpace (fst e) := snd e]> m) ∅ (AllowedDBS cfg) in
  let phyDBs :=
    foldl (fun m e => <[TrimSpace (fst e) := TrimSpace (snd e)]> m) ∅ (DefaultPhyDBS cfg) in
  errVar (NewNamespace_body cfg) = None
  /\ sqls n = parseBlackSqls (BlackSQL cfg)
  /\ allowedDBs n = allowDBs
  /\ parseDefaultPhyDB phyDBs allowDBs = (defaultPhyDBs n, None)
  /\ maxClientConnections n = defaultMaxClientConnections
  /\ 0 <= DownAfterNoAlive cfg
  /\ downAfterNoAlive n =
       (if DownAfterNoAlive cfg =? 0 then defaultTimeAfterNoAlive else DownAfterNoAlive cfg)
  /\ secondsBehindMaster n = SecondsBehindMaster cfg.
Proof.
  unfold NewNamespace_body. ns_fields.
  destruct (parseSlowSQLTime (SlowSQLTime cfg)) as [t [e|]]; [error_return|].
  destruct (parseDefaultPhyDB _ _) as [phy [e|]] eqn:Hphy; [error_return|].
  destruct (parseAllowIps _) as [ips [e|]]; [error_return|].
  destruct (parseCharset _ _) as [[cs cid] [e|]]; [error_return|].
  destruct (parseSlices _ _ _) as [sl [e|]]; [error_return|].
  destruct (checkSlicesStatus _) as [[[e|] c] tr]; [error_return|].
  destruct (NewRouter _) as [e|r]; [error_return|].
  destruct (initSequences _ _ _) as [e|sq]; [error_return|].
  change (0 <=? 0) with true. cbv iota.
  destruct (Z.ltb_spec (DownAfterNoAlive cfg) 0) as [Hneg|Hpos]; [error_return|].
  intros _. ns_fields. repeat split; try reflexivity. exact Hpos.
Qed.

Lemma NewNamespace_success cfg n :
  returned (NewNamespace cfg) = Some n ->
  NewNamespace cfg = NewNamespace_body cfg
  /\ result (NewNamespace_body cfg) = None
  /\ n = object (NewNamespace_body cfg).
Proof.
  unfold returned, NewNamespace. cbv zeta.
  destruct (result (NewNamespace_body cfg)) as [e|] eqn:Hres.
  - destruct (errVar (NewNamespace_body cfg)); [destruct (Close _ _)|];
      cbn [result]; rewrite ?Hres; discriminate.
  - destruct (NewNamespace_body_success cfg Hres) as [-> _].
    rewrite Hres. intros [= <-]. auto.
Qed.
(** ** User properties *)

(** C9. For a user name that is not a key of [userProperties], each of
    [IsAllowWrite], [IsRWSplit], [IsStatisticUser] and [GetUserProperty]
    reads a field through the nil [*UserProperty] the map lookup yields and
    panics; none of them returns a boolean or an integer. *)
Theorem C9_unknown_user_panics (n : Namespace) (user : string) :
  userProperties n !! user = None ->
  IsAllowWrite n user = Panicked nilDeref
  /\ IsRWSplit n user = Panicked nilDeref
  /\ IsStatisticUser n user = Panicked nilDeref
  /\ GetUserProperty n user = Panicked nilDeref
  /\ (forall b, IsAllowWrite n user <> Done b)
  /\ (forall b, IsRWSplit n user <> Done b)
  /\ (forall b, IsStatisticUser n user <> Done b)
  /\ (forall z, GetUserProperty n user <> Done z).
Proof.
  intros Hnone.
  unfold IsAllowWrite, IsRWSplit, IsStatisticUser, GetUserProperty, userProperty.
  rewrite Hnone. cbn. repeat split; intros; discriminate.
Qed.

(** ** The SQL blacklist *)

Lemma addBlackSql_is_Some (m : gmap string string) (sql md5 : string) :
  is_Some (addBlackSql m sql !! md5) <->
  is_Some (m !! md5)
  \/ (TrimSpace sql <> "" /\ md5 = GetMd5 (GetFingerprint (TrimSpace sql))).
Proof.
  unfold addBlackSql. destruct (decide (TrimSpace sql = "")) as [Heq|Hne].
  - split; [auto|]. intros [?|[? _]]; [assumption|contradiction].
  - rewrite lookup_insert_is_Some. split.
    + intros [<-|[_ ?]]; auto.
    + intros [?|[_ ->]]; [|auto].
      destruct (decide (GetMd5 (GetFingerprint (TrimSpace sql)) = md5)); auto.
Qed.

Lemma blacklist_fold_is_Some (entries : list string) (m : gmap string string)
    (md5 : string) :
  is_Some (foldl addBlackSql m entries !! md5) <->
  is_Some (m !! md5)
  \/ exists e, e ∈ entries /\ TrimSpace e <> ""
               /\ md5 = GetMd5 (GetFingerprint (TrimSpace e)).
Proof.
  revert m. induction entries as [|sql entries IH]; intros m; simpl.
  - split; [auto|]. intros [?|(e & He & _)]; [assumption|].
    apply elem_of_nil in He. contradiction.
  - rewrite IH, addBlackSql_is_Some. split.
    + intros [[?|[? ?]]|(e & He & ?)]; auto.
      * right. exists sql. split; [left|auto].
      * right. exists e. split; [right; exact He|auto].
    + intros [?|(e & He & Hne & Hmd5)]; auto.
      apply elem_of_cons in He as [->|He]; [auto|].
      right. exists e. auto.
Qed.

(** The blacklist depends on the entries through their trimmed forms only. *)
Lemma blacklist_fold_trim (entries entries' : list string) (m : gmap string string) :
  TrimSpace <$> entries = TrimSpace <$> entries' ->
  foldl addBlackSql m entries = foldl addBlackSql m entries'.
Proof.
  revert entries' m. induction entries as [|sql entries IH];
    intros [|sql' entries'] m Heq; try discriminate; [reflexivity|].
  simpl in Heq. injection Heq as Hhd Htl. simpl.
  replace (addBlackSql m sql') with (addBlackSql m sql)
    by (unfold addBlackSql; rewrite Hhd; reflexivity).
  apply IH, Htl.
Qed.

(** C6. [IsSQLAllowed] answers true and leaves the request context alone
    when the blacklist is empty; otherwise it stores the fingerprint of the
    statement under the key "fingerprint" and answers false exactly when the
    md5 of the fingerprint is a key of the blacklist.  The keys of the parsed
    blacklist are the md5s of the fingerprints of the trimmed, non-empty
    entries (so duplicates collapse); two lists of entries that agree after
    trimming give the same blacklist, and, [TrimSpace] being idempotent,
    trimming the entries beforehand does not change it. *)
Theorem C6_IsSQLAllowed (n : Namespace) (reqCtx : gmap string string) (sql : string)
    (entries entries' : list string) (md5 : string) :
  (sqls n = ∅ -> IsSQLAllowed n reqCtx sql = (true, reqCtx))
  /\ (sqls n <> ∅ ->
        snd (IsSQLAllowed n reqCtx sql) = <["fingerprint" := GetFingerprint sql]> reqCtx
        /\ (fst (IsSQLAllowed n reqCtx sql) = false <->
            is_Some (sqls n !! GetMd5 (GetFingerprint sql))))
  /\ (is_Some (parseBlackSqls entries !! md5) <->
      exists e, e ∈ entries /\ TrimSpace e <> ""
                /\ md5 = GetMd5 (GetFingerprint (TrimSpace e)))
  /\ (TrimSpace <$> entries = TrimSpace <$> entries' ->
      parseBlackSqls entries = parseBlackSqls entries')
  /\ ((forall s, TrimSpace (TrimSpace s) = TrimSpace s) ->
      parseBlackSqls (TrimSpace <$> entries) = parseBlackSqls entries).
Proof.
  repeat split.
  - intros Hempty. unfold IsSQLAllowed.
    rewrite Hempty, map_size_empty. reflexivity.
  - unfold IsSQLAllowed.
    destruct (decide (size (sqls n) = 0%nat)) as [Hz|Hnz].
    + apply map_size_empty_inv in Hz. contradiction.
    + destruct (sqls n !! GetMd5 (GetFingerprint sql)); reflexivity.
  - unfold IsSQLAllowed.
    destruct (decide (size (sqls n) = 0%nat)) as [Hz|Hnz].
    + apply map_size_empty_inv in Hz. contradiction.
    + destruct (sqls n !! GetMd5 (GetFingerprint sql)); [eauto|discriminate].
  - unfold IsSQLAllowed.
    destruct (decide (size (sqls n) = 0%nat)) as [Hz|Hnz].
    + apply map_size_empty_inv in Hz. contradiction.
    + intros [v Hv]. rewrite Hv. reflexivity.
  - unfold parseBlackSqls. rewrite blacklist_fold_is_Some.
    intros [Hin|?]; [|assumption].
    rewrite lookup_empty in Hin. destruct Hin; discriminate.
  - unfold parseBlackSqls. rewrite blacklist_fold_is_Some. auto.
  - apply blacklist_fold_trim.
  - intros Hidem. apply blacklist_fold_trim.
    rewrite <- list_fmap_compose. apply list_fmap_ext. intros _ e _. apply Hidem.
Qed.

(** The deferred function: [Close(false)] runs exactly when the body
    returns with the variable [err] set. *)
Lemma NewNamespace_trace (cfg : NamespaceConfig) :
  trace (NewNamespace cfg) =
  trace (NewNamespace_body cfg)
    ++ match errVar (NewNamespace_body cfg) with
       | Some _ => snd (Close false (object (NewNamespace_body cfg)))
       | None => []
       end.
Proof.
  unfold NewNamespace. cbv zeta.
  destruct (errVar (NewNamespace_body cfg)).
  - destruct (Close false (object (NewNamespace_body cfg))). reflexivity.
  - rewrite app_nil_r. reflexivity.
Qed.

Lemma returned_ok (r : Return) : result r = None -> returned r = Some (object r).
Proof. unfold returned. intros ->. reflexivity. Qed.

Lemma returned_nil (r : Return) (e : error) : result r = Some e -> returned r = None.
Proof. unfold returned. intros ->. reflexivity. Qed.

(** ** Physical databases *)

(** The copy of a configuration map with trimmed keys: a key of the copy is
    the trimmed form of a configured key, and its value comes from such an
    entry. *)
Lemma trimmed_copy_lookup {A B} (g : A -> B) (l : list (string * A))
    (m : gmap string B) (d : string) (v : B) :
  foldl (fun m e => <[TrimSpace (fst e) := g (snd e)]> m) m l !! d = Some v ->
  m !! d = Some v \/ exists e, e ∈ l /\ TrimSpace (fst e) = d /\ v = g (snd e).
Proof.
  revert m. induction l as [|e l IH]; intros m; simpl; [auto|].
  intros Hl. apply IH in Hl as [Hl|(e' & He' & ?)].
  - apply lookup_insert_Some in Hl as [[<- <-]|[_ Hl]]; [|auto].
    right. exists e. split; [left|auto].
  - right. exists e'. split; [right; exact He'|auto].
Qed.

Lemma trimmed_copy_nonempty {A B} (g : A -> B) (l : list (string * A))
    (m : gmap string B) :
  (l <> [] \/ m <> ∅) ->
  foldl (fun m e => <[TrimSpace (fst e) := g (snd e)]> m) m l <> ∅.
Proof.
  revert m. induction l as [|e l IH]; intros m Hne; simpl.
  - destruct Hne as [?|?]; [contradiction|assumption].
  - apply IH. right. apply insert_non_empty.
Qed.

Lemma parseDefaultPhyDB_success (phyDBs : gmap string string) (allowDBs : gmap string bool)
    (result : gmap string string) (d : string) :
  parseDefaultPhyDB phyDBs allowDBs = (result, None) ->
  is_Some (allowDBs !! d) ->
  (phyDBs = ∅ /\ result !! d = Some d)
  \/ (phyDBs <> ∅ /\ result = phyDBs /\ is_Some (phyDBs !! d)).
Proof.
  unfold parseDefaultPhyDB. intros Hparse [allowed Hd].
  destruct (decide (size phyDBs = 0%nat)) as [Hz|Hnz].
  - left. injection Hparse as <-. split; [apply map_size_empty_inv, Hz|].
    rewrite map_lookup_imap, Hd. reflexivity.
  - right. split; [apply map_size_non_empty_iff, Hnz|].
    destruct (list_find _ _) as [[i [db a]]|] eqn:Hfind; [discriminate|].
    injection Hparse as <-. split; [reflexivity|].
    apply list_find_None in Hfind.
    rewrite Forall_forall in Hfind.
    specialize (Hfind (d, allowed)). simpl in Hfind.
    apply not_eq_None_Some, Hfind, elem_of_map_to_list, Hd.
Qed.

(** C7 (amended).  [GetDefaultPhyDB ""] returns the empty string and no
    error; for a non-empty name that is not a key of the physical-DB map it
    returns an invalid-db error; and for every key [d] of [allowedDBs] of a
    successfully constructed namespace it returns no error, returns [d]
    when no [DefaultPhyDBS] is configured, and otherwise, for a non-empty
    [d], returns the trimmed physical name of a configured entry whose
    trimmed key is [d]. *)
Theorem C7_GetDefaultPhyDB (cfg : NamespaceConfig) (n : Namespace) (d : string) :
  GetDefaultPhyDB n "" = ("", None)
  /\ (d <> "" -> defaultPhyDBs n !! d = None ->
      GetDefaultPhyDB n d = ("", Some (ErrInvalidDB d)))
  /\ (returned (NewNamespace cfg) = Some n -> is_Some (allowedDBs n !! d) ->
      snd (GetDefaultPhyDB n d) = None
      /\ (DefaultPhyDBS cfg = [] -> fst (GetDefaultPhyDB n d) = d)
      /\ (DefaultPhyDBS cfg <> [] -> d <> "" ->
          exists e, e ∈ DefaultPhyDBS cfg /\ TrimSpace (fst e) = d
                    /\ fst (GetDefaultPhyDB n d) = TrimSpace (snd e))).
Proof.
  split; [reflexivity|]. split.
  - intros Hne Hnone. unfold GetDefaultPhyDB.
    destruct (decide (d = "")); [contradiction|]. rewrite Hnone. reflexivity.
  - intros Hok Hallowed.
    apply NewNamespace_success in Hok as (_ & Hres & ->).
    destruct (NewNamespace_body_success cfg Hres) as (_ & _ & Hallow & Hphy & _).
    rewrite Hallow in Hallowed.
    destruct (parseDefaultPhyDB_success _ _ _ d Hphy Hallowed)
      as [[Hempty Hd]|(Hnonempty & Hsame & [v Hv])].
    + (* no logic database mode *)
      unfold GetDefaultPhyDB. rewrite Hd.
      destruct (decide (d = "")) as [->|]; simpl; repeat split; auto.
      all: intros Hcfg ?; exfalso.
      all: eapply (trimmed_copy_nonempty TrimSpace); [|exact Hempty]; auto.
    + (* logic database mode *)
      unfold GetDefaultPhyDB. rewrite Hsame, Hv.
      destruct (decide (d = "")) as [->|Hd]; simpl.
      * repeat split. intros _ Hne. contradiction.
      * repeat split.
        all: try (intros Hcfg; rewrite Hcfg in Hnonempty; contradiction).
        intros _ _. apply trimmed_copy_lookup in Hv as [Hv|(e & ? & ? & ?)];
          [rewrite lookup_empty in Hv; discriminate|].
        exists e. auto.
Qed.

(** ** Replication-lag check *)

(** When the lag check of a probe is issued. *)
Lemma shouldCheckSlaveDataSyncStatus_true namespace status slice isMaster :
  shouldCheckSlaveDataSyncStatus namespace status slice isMaster = true <->
  isMaster = false /\ status <> UP
  /\ StatusMap (Master slice) !! 0%nat <> Some DOWN
  /\ secondsBehindMaster namespace <> 0%N.
Proof.
  unfold shouldCheckSlaveDataSyncStatus.
  destruct isMaster; simpl.
  - split; [discriminate|]. intros [? _]. discriminate.
  - repeat case_bool_decide; split; try discriminate; intuition congruence.
Qed.

(** When the lag check reports the slave as lagging. *)
Lemma slaveIsLagBehand_true conn namespace lag err :
  slaveIsLagBehand conn namespace = Done (lag, err) ->
  lag = true <->
  exists st, GetSlaveStatus conn = Done (st, None)
    /\ ((secondsBehindMaster namespace < SecondsBehindMaster_st st)%N
        \/ SlaveIORunning st <> "Yes" \/ SlaveSQLRunning st <> "Yes").
Proof.
  unfold slaveIsLagBehand.
  destruct (GetSlaveStatus conn) as [[st [e|]]| |]; cbn; try discriminate.
  - intros [= <- <-]. split; [discriminate|]. intros (st' & [=] & _).
  - destruct (N.ltb_spec (secondsBehindMaster namespace) (SecondsBehindMaster_st st)).
    { intros [= <- <-]. split; [|reflexivity]. intros _. exists st. auto. }
    destruct (decide (SlaveIORunning st <> "Yes")).
    { intros [= <- <-]. split; [|reflexivity]. intros _. exists st. auto. }
    destruct (decide (SlaveSQLRunning st <> "Yes")).
    { intros [= <- <-]. split; [|reflexivity]. intros _. exists st. auto. }
    intros [= <- <-]. split; [discriminate|].
    intros (st' & [= <-] & [?|[?|?]]); [lia|contradiction|contradiction].
Qed.

(** ** The probe *)

(** With [downAfterNoAlive = 1] the loop body never runs: no pass is made,
    the status is DOWN and the connection nil, whatever the pool would
    answer. *)
Lemma getInstanceStatus_downAfterNoAlive_1 fuel namespace v :
  downAfterNoAlive namespace = 1 ->
  getInstanceStatus fuel namespace v =
  Done {| probeStatus := DOWN; probeConn := None; probeTrace := [] |}.
Proof.
  intros H1. unfold getInstanceStatus.
  rewrite getInstanceStatus_loop_eq, H1. reflexivity.
Qed.

(** Construction accepts [DownAfterNoAlive = 1] as it is. *)
Lemma NewNamespace_downAfterNoAlive_1 cfg n :
  returned (NewNamespace cfg) = Some n ->
  DownAfterNoAlive cfg = 1 ->
  downAfterNoAlive n = 1.
Proof.
  intros Hok H1.
  apply NewNamespace_success in Hok as (_ & Hres & ->).
  destruct (NewNamespace_body_success cfg Hres) as (_ & _ & _ & _ & _ & _ & Hd & _).
  rewrite Hd, H1. reflexivity.
Qed.

(** With [downAfterNoAlive = 1], a probe whose lag check is not issued (a
    master pool, a master known DOWN, or [secondsBehindMaster = 0]) stores
    DOWN; a probe whose lag check is issued calls [Execute] on the nil
    connection. *)
Lemma checkPool_downAfterNoAlive_1 fuel namespace slice isMaster idx v :
  downAfterNoAlive namespace = 1 ->
  checkPool fuel namespace slice isMaster idx v =
  if shouldCheckSlaveDataSyncStatus namespace DOWN slice isMaster
  then Panicked nilDeref
  else Done (DOWN, [EvStore idx DOWN]).
Proof.
  intros H1. unfold checkPool.
  rewrite (getInstanceStatus_downAfterNoAlive_1 _ _ _ H1). cbn.
  destruct (shouldCheckSlaveDataSyncStatus namespace DOWN slice isMaster); reflexivity.
Qed.

(** The schedule of the probe loop as it is written.  On a pool where
    every pass fails the probe sleeps 1, 2, 4, ... seconds after its
    passes, each pass beginning when the previous sleep ends; it makes
    exactly the passes whose sleep time is below [downAfterNoAlive], and
    once the sleep time has reached [downAfterNoAlive] it returns DOWN
    without another pass.  With [downAfterNoAlive = 8] the pool is asked at
    0, 1 and 3 seconds and DOWN is returned after 7 seconds. *)
Lemma probe_backoff_schedule (namespace : Namespace) (v : ConnectionPool) (fuel : nat) :
  (forall i, failing (attempt v i) = true) ->
  (33 <= fuel)%nat ->
  1 <= downAfterNoAlive namespace <= 2 ^ 33 ->
  exists p n,
    getInstanceStatus fuel namespace v = Done p
    /\ probeStatus p = DOWN
    /\ sleeps (probeTrace p) = (fun i => 2 ^ Z.of_nat i * Second) <$> seq 0 n
    /\ attemptTimes 0 (probeTrace p) = (fun i => (2 ^ Z.of_nat i - 1) * Second) <$> seq 0 n
    /\ elapsed (probeTrace p) = (2 ^ Z.of_nat n - 1) * Second
    /\ (forall i, (i < n)%nat -> 2 ^ Z.of_nat i < downAfterNoAlive namespace)
    /\ downAfterNoAlive namespace <= 2 ^ Z.of_nat n
    /\ (downAfterNoAlive namespace = 8 ->
        attemptTimes 0 (probeTrace p) = [0; 1 * Second; 3 * Second]
        /\ sleeps (probeTrace p) = [1 * Second; 2 * Second; 4 * Second]
        /\ elapsed (probeTrace p) = 7 * Second).
Proof.
  intros Hfail Hfuel [Hlo Hhi].
  destruct (all_fail_schedule namespace v Hfail Hhi fuel 0%nat 0%nat false None []
              ltac:(lia) ltac:(lia))
    as (n & x & Hx & Hst & Hge & Hbelow & _ & Hs & Ha & He).
  change (2 ^ Z.of_nat 0) with 1 in *. simpl in Hst, Hge, Hbelow, Hs, Ha, He.
  exists {| probeStatus := DOWN; probeConn := exitConn x; probeTrace := exitTrace x |}, n.
  assert (Ha' : attemptTimes 0 (exitTrace x)
                = (fun i => (2 ^ Z.of_nat i - 1) * Second) <$> seq 0 n).
  { rewrite Ha. apply list_fmap_ext. intros _ i _. lia. }
  cbn [probeStatus probeTrace].
  split.
  { unfold getInstanceStatus. rewrite Hx. cbn.
    destruct (Z.leb_spec (downAfterNoAlive namespace) (exitSleepTime x)) as [_|Hlt];
      [rewrite orb_true_r; reflexivity|lia]. }
  split; [reflexivity|]. split; [exact Hs|]. split; [exact Ha'|].
  split; [lia|]. split; [exact Hbelow|]. split; [exact Hge|].
  intros H8. rewrite H8 in *.
  assert (n = 3%nat) as ->.
  { destruct n as [|[|[|[|n]]]].
    - simpl in Hge. lia.
    - simpl in Hge. lia.
    - simpl in Hge. lia.
    - reflexivity.
    - specialize (Hbelow 3%nat ltac:(lia)). simpl in Hbelow. lia. }
  rewrite Ha', Hs, He. repeat split.
Qed.

(** ** Close *)

(** [Close] empties the four fingerprint caches and leaves the plan cache
    and every other field as they are. *)
Lemma Close_caches (delay : bool) (n : Namespace) :
  let n' := fst (Close delay n) in
  entries (slowSQLCache n') = []
  /\ entries (errorSQLCache n') = []
  /\ entries (backendSlowSQLCache n') = []
  /\ entries (backendErrorSQLCache n') = []
  /\ planCache n' = planCache n
  /\ slices n' = slices n.
Proof. repeat split. Qed.



(** ** The supervisors *)

Lemma checkSlicesStatus_loop_ok (l : list (string * Slice)) :
  fst (checkSlicesStatus_loop l) = (None, false).
Proof.
  induction l as [|[k v] l IH]; [reflexivity|].
  cbn [checkSlicesStatus_loop doCheckSlice].
  destruct (checkSlicesStatus_loop l) as [[err cancelled] tr].
  cbn in IH |- *. exact IH.
Qed.


Lemma checkStatus_turn_cancelled fuel namespace slice r :
  checkStatus_turn fuel namespace slice r true = Done None.
Proof. reflexivity. Qed.


End Properties.

(** ** The definitions at work on concrete inputs *)

Section Concrete.
Local Existing Instance Sample.collaborators.

(** C1.  Master UP, threshold 5 seconds; the slave answers the first PING
    and would report 10 seconds of lag with both threads running.  The lag
    check is not issued for a probe that ends UP, so the slave is stored as
    UP, although the check itself, run on that connection, reports the lag. *)
Theorem C1_lagging_slave_stored_UP :
  match Sample.slice 8 5 with
  | Some slice =>
      let namespace := Sample.namespace 8 5 in
      let v := Sample.healthyPool "10.0.0.2:3306" 10 in
      StatusMap (Master slice) !! 0%nat = Some UP
      /\ secondsBehindMaster namespace = 5%N
      /\ shouldCheckSlaveDataSyncStatus namespace UP slice false = false
      /\ checkPool 64 namespace slice false 0 v
         = Done (UP, [EvGet; EvPing; EvRecycle 0; EvStore 0 UP])
      /\ slaveIsLagBehand (Some {| connPass := 0; Execute := showSlaveStatus v |}) namespace
         = Done (true, None)
  | None => False
  end.
Proof. vm_compute. repeat split. Qed.

(** C2.  [downAfterNoAlive = 8].  A pool that never hands out a connection
    is asked at 0, 1 and 3 seconds; after the sleep of 4 seconds the probe
    returns DOWN, 7 seconds after it began, without asking the pool again:
    there is no attempt at 7 seconds.  A pool that is back during that last
    sleep, and would answer the fourth pass, is returned DOWN all the same.
    With [downAfterNoAlive = 9] the same pool is asked at 7 seconds and
    returned UP. *)
Theorem C2_no_recheck_after_last_sleep :
  let namespace := Sample.namespace 8 5 in
  let dead := Sample.deadPool "10.0.0.2:3306" in
  let back := Sample.recoveringPool "10.0.0.2:3306" 3 in
  downAfterNoAlive namespace = 8
  /\ match getInstanceStatus 64 namespace dead with
     | Done p =>
         probeStatus p = DOWN
         /\ probeTrace p = [EvGet; EvSleep (1 * Second); EvGet; EvSleep (2 * Second);
                            EvGet; EvSleep (4 * Second)]
         /\ attemptTimes 0 (probeTrace p) = [0; 1 * Second; 3 * Second]
         /\ attemptTimes 0 (probeTrace p) <> [0; 1 * Second; 3 * Second; 7 * Second]
         /\ elapsed (probeTrace p) = 7 * Second
     | _ => False
     end
  /\ failing (attempt back 3) = false
  /\ match getInstanceStatus 64 namespace back with
     | Done p =>
         probeStatus p = DOWN /\ probeConn p = None
         /\ attemptTimes 0 (probeTrace p) = [0; 1 * Second; 3 * Second]
         /\ elapsed (probeTrace p) = 7 * Second
     | _ => False
     end
  /\ match getInstanceStatus 64 (Sample.namespace 9 5) back with
     | Done p =>
         probeStatus p = UP
         /\ attemptTimes 0 (probeTrace p) = [0; 1 * Second; 3 * Second; 7 * Second]
     | _ => False
     end.
Proof. vm_compute. repeat split. intros Heq. discriminate Heq. Qed.

(** The schedule at work: [downAfterNoAlive = 8] and a pool that never
    hands out a connection. *)
Lemma probe_backoff_schedule_witness :
  (forall i, failing (attempt (Sample.deadPool "10.0.0.2:3306") i) = true)
  /\ (33 <= 64)%nat
  /\ 1 <= downAfterNoAlive (Sample.namespace 8 5) <= 2 ^ 33
  /\ exists p,
       getInstanceStatus 64 (Sample.namespace 8 5) (Sample.deadPool "10.0.0.2:3306") = Done p
       /\ probeStatus p = DOWN
       /\ attemptTimes 0 (probeTrace p) = [0; 1 * Second; 3 * Second]
       /\ sleeps (probeTrace p) = [1 * Second; 2 * Second; 4 * Second]
       /\ elapsed (probeTrace p) = 7 * Second.
Proof.
  assert (H8 : downAfterNoAlive (Sample.namespace 8 5) = 8) by (vm_compute; reflexivity).
  assert (Hfail : forall i, failing (attempt (Sample.deadPool "10.0.0.2:3306") i) = true)
    by (intros i; reflexivity).
  assert (Hfuel : (33 <= 64)%nat) by lia.
  assert (Hrange : 1 <= downAfterNoAlive (Sample.namespace 8 5) <= 2 ^ 33)
    by (rewrite H8; change (2 ^ 33) with 8589934592; lia).
  split; [exact Hfail|]. split; [exact Hfuel|]. split; [exact Hrange|].
  destruct (probe_backoff_schedule (Sample.namespace 8 5) (Sample.deadPool "10.0.0.2:3306")
              64 Hfail Hfuel Hrange)
    as (p & n & Hp & Hdown & _ & _ & _ & _ & _ & Height).
  destruct (Height H8) as (Ha & Hs & He).
  exists p. auto.
Defined.

(** C3.  [MaxClientConnections = 100] is configured and construction
    succeeds; the namespace holds the default 100000000, because the test
    reads the (still zero) field of the namespace. *)
Theorem C3_configured_maxClientConnections_ignored :
  let cfg := Sample.config [] [("db", true)] [] 100 8 5 in
  MaxClientConnections cfg = 100
  /\ result (NewNamespace cfg) = None
  /\ maxClientConnections (object (NewNamespace cfg)) = 100000000.
Proof. vm_compute. repeat split. Qed.


(** C5.  A namespace with a slow-SQL fingerprint and a plan cached is
    closed: the fingerprint cache is empty afterwards, the plan cache still
    holds the plan. *)
Theorem C5_plan_cache_survives_Close :
  let n := SetCachedPlan (SetSlowSQLFingerprint (Sample.namespace 8 5) "md5" "fingerprint")
                         "db" "select 1" "plan" in
  let n' := fst (Close false n) in
  GetSlowSQLFingerprints n = [("md5", "fingerprint")]
  /\ GetSlowSQLFingerprints n' = []
  /\ cacheItems (planCache n') = [("db|select 1", "plan")]
  /\ GetCachedPlan n' "db" "select 1" = Some "plan".
Proof. vm_compute. repeat split. Qed.

(** C6 at work: an empty blacklist, and the blacklist ["  select 1 "]
    against the statement "SELECT 1". *)
Lemma C6_IsSQLAllowed_witness :
  let n := object (NewNamespace (Sample.config ["  select 1 "] [("db", true)] [] 0 8 0)) in
  let entries := ["  select 1 "; ""] in
  let entries' := ["select 1"; "  "] in
  sqls (Sample.namespace 8 5) = ∅
  /\ IsSQLAllowed (Sample.namespace 8 5) ∅ "SELECT 1" = (true, ∅)
  /\ sqls n <> ∅
  /\ snd (IsSQLAllowed n ∅ "SELECT 1") = <["fingerprint" := GetFingerprint "SELECT 1"]> ∅
  /\ fst (IsSQLAllowed n ∅ "SELECT 1") = false
  /\ TrimSpace <$> entries = TrimSpace <$> entries'
  /\ parseBlackSqls entries = parseBlackSqls entries'
  /\ (forall s, TrimSpace (TrimSpace s) = TrimSpace s)
  /\ parseBlackSqls (TrimSpace <$> entries) = parseBlackSqls entries.
Proof.
  intros n entries entries'.
  assert (Hempty : sqls (Sample.namespace 8 5) = ∅) by (vm_compute; reflexivity).
  assert (Hkey : is_Some (sqls n !! GetMd5 (GetFingerprint "SELECT 1")))
    by (vm_compute; eexists; reflexivity).
  assert (Htrim : TrimSpace <$> entries = TrimSpace <$> entries')
    by (vm_compute; reflexivity).
  assert (Hidem : forall s, TrimSpace (TrimSpace s) = TrimSpace s)
    by exact sample_trimSpace_idem.
  clearbody n entries entries'.
  assert (Hne : sqls n <> ∅).
  { intros Heq. destruct Hkey as [v Hv].
    pose proof (lookup_empty (M := gmap string) (A := string)
                  (GetMd5 (GetFingerprint "SELECT 1"))) as Hnone.
    congruence. }
  split; [exact Hempty|].
  split; [exact (proj1 (C6_IsSQLAllowed (Sample.namespace 8 5) ∅ "SELECT 1" [] [] "") Hempty)|].
  split; [exact Hne|].
  destruct (C6_IsSQLAllowed n ∅ "SELECT 1" entries entries' "")
    as (_ & Hblack & _ & Hsame & Hpre).
  destruct (Hblack Hne) as [Hctx Hfalse].
  split; [exact Hctx|].
  split; [exact (proj2 Hfalse Hkey)|].
  split; [exact Htrim|].
  split; [exact (Hsame Htrim)|].
  split; [exact Hidem|].
  exact (Hpre Hidem).
Defined.

(** C7, counterexample.  (1) The empty name is an allowed DB with the
    physical DB "phy" configured: [GetDefaultPhyDB ""] returns the empty
    string.  (2) The allowed DB "a" is configured with the physical name
    " A": [GetDefaultPhyDB "a"] returns "A". *)
Lemma C7_empty_and_padded_names :
  (let cfg := Sample.config [] [("", true)] [("", "phy")] 0 8 0 in
   let n := object (NewNamespace cfg) in
   returned (NewNamespace cfg) = Some n
   /\ is_Some (allowedDBs n !! "")
   /\ DefaultPhyDBS cfg = [("", "phy")]
   /\ GetDefaultPhyDB n "" = ("", None)
   /\ fst (GetDefaultPhyDB n "") <> "phy")
  /\
  (let cfg := Sample.config [] [("a", true)] [("a", " A")] 0 8 0 in
   let n := object (NewNamespace cfg) in
   returned (NewNamespace cfg) = Some n
   /\ is_Some (allowedDBs n !! "a")
   /\ DefaultPhyDBS cfg = [("a", " A")]
   /\ GetDefaultPhyDB n "a" = ("A", None)
   /\ fst (GetDefaultPhyDB n "a") <> " A").
Proof.
  split; intros cfg n.
  - assert (Hres : result (NewNamespace cfg) = None) by (vm_compute; reflexivity).
    assert (Hallowed : is_Some (allowedDBs n !! "")) by (vm_compute; eexists; reflexivity).
    assert (Hget : GetDefaultPhyDB n "" = ("", None)) by (vm_compute; reflexivity).
    split; [unfold n; exact (returned_ok _ Hres)|]. split; [exact Hallowed|].
    split; [reflexivity|]. split; [exact Hget|].
    clearbody n. rewrite Hget. discriminate.
  - assert (Hres : result (NewNamespace cfg) = None) by (vm_compute; reflexivity).
    assert (Hallowed : is_Some (allowedDBs n !! "a")) by (vm_compute; eexists; reflexivity).
    assert (Hget : GetDefaultPhyDB n "a" = ("A", None)) by (vm_compute; reflexivity).
    split; [unfold n; exact (returned_ok _ Hres)|]. split; [exact Hallowed|].
    split; [reflexivity|]. split; [exact Hget|].
    clearbody n. rewrite Hget. discriminate.
Qed.

(** C7 at work: logic database mode with padded names. *)
Lemma C7_GetDefaultPhyDB_witness :
  let cfg := Sample.config [] [(" db ", true)] [("db ", " phy ")] 0 8 0 in
  let n := object (NewNamespace cfg) in
  "db" <> ""
  /\ defaultPhyDBs n !! "other" = None
  /\ GetDefaultPhyDB n "other" = ("", Some (ErrInvalidDB "other"))
  /\ returned (NewNamespace cfg) = Some n
  /\ is_Some (allowedDBs n !! "db")
  /\ DefaultPhyDBS cfg <> []
  /\ snd (GetDefaultPhyDB n "db") = None
  /\ exists e, e ∈ DefaultPhyDBS cfg /\ TrimSpace (fst e) = "db"
               /\ fst (GetDefaultPhyDB n "db") = TrimSpace (snd e).
Proof.
  intros cfg n.
  assert (Hd : "db" <> "") by discriminate.
  assert (Ho : "other" <> "") by discriminate.
  assert (Hnone : defaultPhyDBs n !! "other" = None) by (vm_compute; reflexivity).
  assert (Hres : result (NewNamespace cfg) = None) by (vm_compute; reflexivity).
  assert (Hok : returned (NewNamespace cfg) = Some n)
    by (unfold n; exact (returned_ok _ Hres)).
  assert (Hallowed : is_Some (allowedDBs n !! "db")) by (vm_compute; eexists; reflexivity).
  assert (Hlogic : DefaultPhyDBS cfg <> []) by discriminate.
  clearbody n cfg.
  split; [exact Hd|]. split; [exact Hnone|].
  split; [exact (proj1 (proj2 (C7_GetDefaultPhyDB cfg n "other")) Ho Hnone)|].
  split; [exact Hok|]. split; [exact Hallowed|]. split; [exact Hlogic|].
  destruct (proj2 (proj2 (C7_GetDefaultPhyDB cfg n "db")) Hok Hallowed)
    as (Hnoerr & _ & Hphy).
  split; [exact Hnoerr|]. exact (Hphy Hlogic Hd).
Defined.

(** C8.  [DownAfterNoAlive = -1]: construction returns nil and the error
    of the range check, after the slices were built and their supervisors
    started; that return statement leaves the variable [err] nil, so the
    deferred function does not call [Close].  A negative slow-SQL time, an
    error held in [err], does reach [Close(false)]. *)
Theorem C8_error_return_without_Close :
  let r := NewNamespace (Sample.config [] [("db", true)] [] 0 (-1) 0) in
  result r = Some ErrDownAfterNoAlive
  /\ returned r = None
  /\ errVar r = None
  /\ trace r = [EvSpawn "slice-0" RoleSlave; EvSpawn "slice-0" RoleStatisticSlave;
                EvSpawn "slice-0" RoleMaster]
  /\ bool_decide (EvCloseCalled false ∈ trace r) = false
  /\ bool_decide (EvSliceClose "slice-0" false ∈ trace r) = false
  /\ trace (NewNamespace Sample.configNegativeSlowSQLTime) = [EvCloseCalled false].
Proof.
  intros r.
  assert (Hres : result r = Some ErrDownAfterNoAlive) by (vm_compute; reflexivity).
  split; [exact Hres|]. split; [exact (returned_nil r _ Hres)|].
  vm_compute. repeat split.
Qed.

(** C9 at work: the user "nobody" of a namespace that knows "root" only. *)
Lemma C9_unknown_user_panics_witness :
  userProperties (Sample.namespace 8 5) !! "nobody" = None
  /\ IsAllowWrite (Sample.namespace 8 5) "nobody" = Panicked nilDeref
  /\ IsRWSplit (Sample.namespace 8 5) "nobody" = Panicked nilDeref
  /\ IsStatisticUser (Sample.namespace 8 5) "nobody" = Panicked nilDeref
  /\ GetUserProperty (Sample.namespace 8 5) "nobody" = Panicked nilDeref.
Proof.
  assert (Hnone : userProperties (Sample.namespace 8 5) !! "nobody" = None)
    by (vm_compute; reflexivity).
  split; [exact Hnone|].
  destruct (C9_unknown_user_panics (Sample.namespace 8 5) "nobody" Hnone)
    as (H1 & H2 & H3 & H4 & _).
  auto.
Defined.

(** C10.  [DownAfterNoAlive = 1] is accepted; the probe makes no pass and
    returns DOWN with a nil connection, whatever the pool (here a healthy
    one).  The master is stored as DOWN.  For the slave, with the threshold
    at 5 seconds and the master still UP, the lag check is issued on the
    DOWN status and calls [Execute] on the nil connection: the worker
    panics and no status is stored. *)
Theorem C10_slave_probe_panics :
  match Sample.slice 1 5 with
  | Some slice =>
      let namespace := Sample.namespace 1 5 in
      let v := Sample.healthyPool "10.0.0.2:3306" 0 in
      downAfterNoAlive namespace = 1
      /\ getInstanceStatus 64 namespace v
         = Done {| probeStatus := DOWN; probeConn := None; probeTrace := [] |}
      /\ checkPool 64 namespace slice true 0 v = Done (DOWN, [EvStore 0 DOWN])
      /\ StatusMap (Master slice) !! 0%nat = Some UP
      /\ checkPool 64 namespace slice false 0 v = Panicked nilDeref
  | None => False
  end.
Proof. vm_compute. repeat split. Qed.

End Concrete.

(** * Further properties *)

(** Computing with the fields of the namespace object and of a return. *)
Ltac ns_compute :=
  cbv beta iota zeta delta
      [name allowedDBs defaultPhyDBs sqls slowSQLTime allowips router
       sequences slices userProperties defaultCharset defaultCollationID
       openGeneralLog maxSqlExecuteTime maxSqlResultSize defaultSlice
       downAfterNoAlive secondsBehindMaster slowSQLCache errorSQLCache
       backendSlowSQLCache backendErrorSQLCache planCache
       maxClientConnections CheckSelectLock set_allowedDBs set_defaultPhyDBs
       set_sqls set_slowSQLTime set_allowips set_router set_sequences
       set_slices set_userProperties set_defaultCharset
       set_defaultCollationID set_maxSqlExecuteTime set_maxSqlResultSize
       set_downAfterNoAlive set_secondsBehindMaster set_slowSQLCache
       set_errorSQLCache set_backendSlowSQLCache set_backendErrorSQLCache
       set_planCache set_maxClientConnections set_CheckSelectLock returnError
       result errVar object ctxDone trace].

Ltac early_return :=
  intros Hr; exfalso; revert Hr;
  cbv beta iota zeta delta [result returnError]; discriminate.

Section MoreProperties.
Context `{Collaborators}.

(** ** What construction computes *)

(** The parsing steps a successful construction went through, and the fields
    they filled. *)
Lemma NewNamespace_body_parsed cfg :
  result (NewNamespace_body cfg) = None ->
  let n := object (NewNamespace_body cfg) in
  exists t ips cs cid sl tr r sq,
    parseSlowSQLTime (SlowSQLTime cfg) = (t, None) /\ slowSQLTime n = t
    /\ parseAllowIps (AllowedIP cfg) = (ips, None) /\ allowips n = ips
    /\ parseCharset (DefaultCharset cfg) (DefaultCollation cfg) = (cs, cid, None)
    /\ parseSlices (Slices cfg) cs cid = (sl, None) /\ slices n = sl
    /\ checkSlicesStatus sl = (None, false, tr) /\ trace (NewNamespace_body cfg) = tr
    /\ NewRouter (withTrimmedSliceNames cfg) = inr r
    /\ initSequences [] (GlobalSequences cfg) sl = inr sq /\ sequences n = Some sq
    /\ userProperties n =
         foldl (fun m user =>
                  <[UserName user := {| RWFlag := UserRWFlag user;
                                        RWSplit := UserRWSplit user;
                                        OtherProperty := UserOtherProperty user |}]> m)
               ∅ (Users cfg)
    /\ maxSqlExecuteTime n =
         (if MaxSqlExecuteTime cfg <=? 0 then defaultMaxSqlExecuteTime
          else MaxSqlExecuteTime cfg)
    /\ maxSqlResultSize n =
         (if (MaxSqlResultSize cfg <=? 0) && negb (MaxSqlResultSize cfg =? -1)
          then defaultMaxSqlResultSize else MaxSqlResultSize cfg).
Proof.
  unfold NewNamespace_body. ns_compute.
  destruct (parseSlowSQLTime (SlowSQLTime cfg)) as [t [e|]]; [early_return|].
  destruct (parseDefaultPhyDB _ _) as [phy [e|]]; [early_return|].
  destruct (parseAllowIps _) as [ips [e|]]; [early_return|].
  destruct (parseCharset _ _) as [[cs cid] [e|]]; [early_return|].
  destruct (parseSlices _ _ _) as [sl [e|]] eqn:Hsl; [early_return|].
  unfold checkSlicesStatus.
  pose proof (checkSlicesStatus_loop_ok (map_to_list sl)) as Hloop.
  destruct (checkSlicesStatus_loop _) as [[err c] tr] eqn:Hcheck.
  cbn in Hloop. injection Hloop as -> ->.
  destruct (NewRouter _) as [e|r]; [early_return|].
  destruct (initSequences _ _ _) as [e|sq] eqn:Hsq; [early_return|].
  change (0 <=? 0) with true. cbv iota.
  destruct (DownAfterNoAlive cfg <? 0); [early_return|].
  intros _. ns_compute. exists t, ips, cs, cid, sl, tr, r, sq.
  repeat split; assumption.
Qed.

(** X1.  After a successful construction the numeric policies are in range:
    the slow-SQL time is not negative, the maximal execution time is not
    negative (0 switches the limit off), the maximal result size is -1 (no
    limit) or positive, and [downAfterNoAlive] is at least 1. *)
Theorem NewNamespace_policies_in_range (cfg : NamespaceConfig) (n : Namespace) :
  returned (NewNamespace cfg) = Some n ->
  0 <= slowSQLTime n
  /\ 0 <= maxSqlExecuteTime n
  /\ (maxSqlResultSize n = -1 \/ 0 < maxSqlResultSize n)
  /\ 1 <= downAfterNoAlive n.
Proof.
  intros Hok. apply NewNamespace_success in Hok as (_ & Hres & ->).
  destruct (NewNamespace_body_success cfg Hres) as (_ & _ & _ & _ & _ & Hpos & Hd & _).
  destruct (NewNamespace_body_parsed cfg Hres)
    as (t & ips & cs & cid & sl & tr & r & sq & Ht & -> & _ & _ & _ & _ & _ & _ & _ & _
        & _ & _ & _ & -> & ->).
  repeat split.
  - unfold parseSlowSQLTime in Ht.
    destruct (decide (SlowSQLTime cfg = "")); [injection Ht as <-; unfold defaultSlowSQLTime; lia|].
    destruct (ParseInt (SlowSQLTime cfg)) as [e|z]; [discriminate|].
    destruct (Z.ltb_spec z 0); [discriminate|]. injection Ht as <-. assumption.
  - destruct (Z.leb_spec (MaxSqlExecuteTime cfg) 0); unfold defaultMaxSqlExecuteTime; lia.
  - destruct (Z.leb_spec (MaxSqlResultSize cfg) 0);
      destruct (Z.eqb_spec (MaxSqlResultSize cfg) (-1)); simpl;
      unfold defaultMaxSqlResultSize; lia.
  - rewrite Hd. destruct (Z.eqb_spec (DownAfterNoAlive cfg) 0);
      unfold defaultTimeAfterNoAlive; lia.
Qed.

(** ** The IP allow list *)

Lemma parseAllowIps_from_success (l : list string) (acc ips : list IPInfo) :
  parseAllowIps_from acc l = (ips, None) ->
  exists new,
    ips = acc ++ new
    /\ Forall2 (fun s ip => ParseIPInfo s = inr ip)
               (filter (fun s => s <> "") (TrimSpace <$> l)) new.
Proof.
  revert acc. induction l as [|s l IH]; intros acc; simpl.
  - intros [= <-]. exists []. rewrite app_nil_r. split; [reflexivity|constructor].
  - destruct (decide (TrimSpace s = "")) as [Hs|Hs].
    + rewrite filter_cons_False by (intros Hne; apply Hne, Hs). apply IH.
    + rewrite filter_cons_True by exact Hs.
      destruct (ParseIPInfo (TrimSpace s)) as [e|ip] eqn:Hip; [discriminate|].
      intros Hrest. apply IH in Hrest as (new & -> & Hall).
      exists (ip :: new). rewrite <- app_assoc. split; [reflexivity|].
      constructor; assumption.
Qed.

Lemma parseAllowIps_from_failure (l : list string) (acc ips : list IPInfo) (e : error) :
  parseAllowIps_from acc l = (ips, Some e) ->
  ips = [] /\ exists s, s ∈ l /\ TrimSpace s <> "" /\ ParseIPInfo (TrimSpace s) = inl e.
Proof.
  revert acc. induction l as [|s l IH]; intros acc; simpl; [discriminate|].
  destruct (decide (TrimSpace s = "")) as [Hs|Hs].
  - intros Hrest. apply IH in Hrest as (-> & s' & Hin & ?).
    split; [reflexivity|]. exists s'. split; [right; exact Hin|assumption].
  - destruct (ParseIPInfo (TrimSpace s)) as [e'|ip] eqn:Hip.
    + intros [= <- <-]. split; [reflexivity|]. exists s. split; [left|auto].
    + intros Hrest. apply IH in Hrest as (-> & s' & Hin & ?).
      split; [reflexivity|]. exists s'. split; [right; exact Hin|assumption].
Qed.

(** X2.  [parseAllowIps] trims every entry and skips the empty ones; when
    it succeeds the result holds, in order, the matcher parsed from each
    remaining entry; when it fails the result is nil and the error is that
    of a non-empty trimmed entry that does not parse. *)
Theorem parseAllowIps_result (allowedIP : list string) :
  match parseAllowIps allowedIP with
  | (allowips, None) =>
      Forall2 (fun s ip => ParseIPInfo s = inr ip)
              (filter (fun s => s <> "") (TrimSpace <$> allowedIP)) allowips
  | (allowips, Some e) =>
      allowips = []
      /\ exists s, s ∈ allowedIP /\ TrimSpace s <> ""
                   /\ ParseIPInfo (TrimSpace s) = inl e
  end.
Proof.
  unfold parseAllowIps.
  destruct (parseAllowIps_from [] allowedIP) as [ips [e|]] eqn:Hparse.
  - eapply parseAllowIps_from_failure, Hparse.
  - apply parseAllowIps_from_success in Hparse as (new & -> & Hall). exact Hall.
Qed.

Lemma matchAny_true {IP} (Match : IPInfo -> IP -> bool) (l : list IPInfo) (clientIP : IP) :
  matchAny Match l clientIP = true <-> exists ip, ip ∈ l /\ Match ip clientIP = true.
Proof.
  induction l as [|ip l IH]; simpl.
  - split; [discriminate|]. intros (ip & Hin & _). apply elem_of_nil in Hin. contradiction.
  - destruct (Match ip clientIP) eqn:Hm.
    + split; [|reflexivity]. intros _. exists ip. split; [left|exact Hm].
    + rewrite IH. split.
      * intros (ip' & Hin & ?). exists ip'. split; [right; exact Hin|assumption].
      * intros (ip' & Hin & Hm'). apply elem_of_cons in Hin as [->|Hin].
        -- congruence.
        -- exists ip'. auto.
Qed.

(** X3.  A client is allowed exactly when the allow list is empty or one of
    its matchers accepts the address; and a namespace constructed from a
    configuration whose [AllowedIP] entries are all blank allows every
    client. *)
Theorem IsClientIPAllowed_spec {IP} (Match : IPInfo -> IP -> bool) (cfg : NamespaceConfig)
    (n : Namespace) (clientIP : IP) :
  (IsClientIPAllowed Match n clientIP = true <->
   allowips n = [] \/ exists ip, ip ∈ allowips n /\ Match ip clientIP = true)
  /\ (returned (NewNamespace cfg) = Some n ->
      Forall (fun s => TrimSpace s = "") (AllowedIP cfg) ->
      IsClientIPAllowed Match n clientIP = true).
Proof.
  assert (Hspec : IsClientIPAllowed Match n clientIP = true <->
                  allowips n = [] \/ exists ip, ip ∈ allowips n /\ Match ip clientIP = true).
  { unfold IsClientIPAllowed.
    destruct (decide (length (allowips n) = 0%nat)) as [Hlen|Hlen].
    - apply length_zero_iff_nil in Hlen. split; auto.
    - rewrite matchAny_true. split; [auto|].
      intros [Hnil|?]; [|assumption]. rewrite Hnil in Hlen. contradiction. }
  split; [exact Hspec|].
  intros Hok Hblank. apply Hspec. left.
  apply NewNamespace_success in Hok as (_ & Hres & ->).
  destruct (NewNamespace_body_parsed cfg Hres)
    as (t & ips & cs & cid & sl & tr & r & sq & _ & _ & Hips & -> & _).
  apply parseAllowIps_from_success in Hips as (new & -> & Hall).
  simpl. replace (filter (fun s => s <> "") (TrimSpace <$> AllowedIP cfg))
    with (@nil string) in Hall; [inversion Hall; reflexivity|].
  clear Hall. induction Hblank as [|s l Hs _ IH]; [reflexivity|].
  simpl. rewrite filter_cons_False by (intros Hne; apply Hne, Hs). exact IH.
Qed.

(** ** Slices *)

Lemma parseSlice_Cfg (cfg : SliceConfig) (charset : string) (collationID : Z) (s : Slice) :
  parseSlice cfg charset collationID = inr s ->
  Cfg s = cfg /\ SliceCharset s = charset /\ SliceCollationID s = collationID
  /\ ParseMaster (MasterAddr cfg) = inr (Master s)
  /\ ParseSlave (Slaves cfg) = inr (Slave s)
  /\ ParseSlave (StatisticSlaves cfg) = inr (StatisticSlave s).
Proof.
  unfold parseSlice.
  destruct (ParseMaster _) as [e|m]; [discriminate|].
  destruct (ParseSlave (Slaves cfg)) as [e|sl]; [discriminate|].
  destruct (ParseSlave (StatisticSlaves cfg)) as [e|st]; [discriminate|].
  intros [= <-]. repeat split.
Qed.

Lemma parseSlices_from_success (l : list SliceConfig) (charset : string) (collationID : Z)
    (m m' : gmap string Slice) :
  parseSlices_from m l charset collationID = (m', None) ->
  NoDup ((fun v => TrimSpace (SliceName v)) <$> l)
  /\ (forall v, v ∈ l -> m !! TrimSpace (SliceName v) = None)
  /\ (forall k s, m !! k = Some s -> m' !! k = Some s)
  /\ (forall v, v ∈ l ->
        exists s, m' !! TrimSpace (SliceName v) = Some s
                  /\ parseSlice (trimSliceName v) charset collationID = inr s)
  /\ (forall k, is_Some (m' !! k) ->
        is_Some (m !! k) \/ k ∈ (fun v => TrimSpace (SliceName v)) <$> l)
  /\ size m' = (size m + length l)%nat.
Proof.
  revert m. induction l as [|v l IH]; intros m; simpl.
  - intros [= <-]. split; [constructor|].
    split; [intros v Hin; apply elem_of_nil in Hin; contradiction|].
    split; [auto|].
    split; [intros v Hin; apply elem_of_nil in Hin; contradiction|].
    split; [auto|lia].
  - destruct (m !! TrimSpace (SliceName v)) as [old|] eqn:Hfree; [discriminate|].
    destruct (parseSlice (trimSliceName v) charset collationID) as [e|s] eqn:Hs;
      [discriminate|].
    intros Hrest. apply IH in Hrest as (Hnodup & Hfresh & Hkeep & Hall & Hdom & Hsize).
    assert (Hnotin : TrimSpace (SliceName v) ∉ (fun v => TrimSpace (SliceName v)) <$> l).
    { intros Hin. apply list_elem_of_fmap in Hin as (v' & Heq & Hin).
      specialize (Hfresh v' Hin). rewrite <- Heq in Hfresh.
      simpl in Hfresh. rewrite lookup_insert_eq in Hfresh. discriminate. }
    split; [constructor; assumption|].
    split.
    { intros v' Hin. apply elem_of_cons in Hin as [->|Hin]; [exact Hfree|].
      specialize (Hfresh v' Hin). simpl in Hfresh.
      apply lookup_insert_None in Hfresh as [? _]. assumption. }
    split.
    { intros k s' Hk. apply Hkeep. simpl.
      rewrite lookup_insert_ne; [exact Hk|]. intros <-. congruence. }
    split.
    { intros v' Hin. apply elem_of_cons in Hin as [->|Hin]; [|apply Hall, Hin].
      exists s. split; [|exact Hs]. apply Hkeep. simpl. apply lookup_insert_eq. }
    split.
    { intros k Hk. apply Hdom in Hk as [Hk|Hk]; [|right; right; exact Hk].
      simpl in Hk. apply lookup_insert_is_Some in Hk as [<-|[_ Hk]];
        [right; left|left; exact Hk]. }
    rewrite Hsize. simpl. rewrite map_size_insert_None by exact Hfree. lia.
Qed.

Lemma parseSlices_from_failure (l : list SliceConfig) (charset : string) (collationID : Z)
    (m m' : gmap string Slice) (e : error) :
  parseSlices_from m l charset collationID = (m', Some e) -> m' = ∅.
Proof.
  revert m. induction l as [|v l IH]; intros m; simpl; [discriminate|].
  destruct (m !! TrimSpace (SliceName v)); [intros [= <- _]; reflexivity|].
  destruct (parseSlice _ _ _); [intros [= <- _]; reflexivity|]. apply IH.
Qed.

Lemma parseSlices_success (cfgSlices : list SliceConfig) (charset : string)
    (collationID : Z) (slices : gmap string Slice) :
  parseSlices cfgSlices charset collationID = (slices, None) ->
  NoDup ((fun v => TrimSpace (SliceName v)) <$> cfgSlices)
  /\ size slices = length cfgSlices
  /\ (forall k, is_Some (slices !! k) <->
                k ∈ (fun v => TrimSpace (SliceName v)) <$> cfgSlices)
  /\ (forall k s, slices !! k = Some s ->
        SliceName (Cfg s) = k
        /\ exists v, v ∈ cfgSlices
                     /\ parseSlice (trimSliceName v) charset collationID = inr s).
Proof.
  unfold parseSlices. intros Hparse.
  apply parseSlices_from_success in Hparse
    as (Hnodup & _ & _ & Hall & Hdom & Hsize).
  rewrite map_size_empty in Hsize.
  assert (Hkeys : forall k, is_Some (slices !! k) <->
                    k ∈ (fun v => TrimSpace (SliceName v)) <$> cfgSlices).
  { intros k. split.
    - intros Hk. apply Hdom in Hk as [Hk|Hk]; [|exact Hk].
      rewrite lookup_empty in Hk. destruct Hk; discriminate.
    - intros Hk. apply list_elem_of_fmap in Hk as (v & -> & Hin).
      destruct (Hall v Hin) as (s & Hs & _). eauto. }
  split; [exact Hnodup|]. split; [exact Hsize|]. split; [exact Hkeys|].
  intros k s Hk.
  assert (Hin : k ∈ (fun v => TrimSpace (SliceName v)) <$> cfgSlices)
    by (apply Hkeys; eauto).
  apply list_elem_of_fmap in Hin as (v & -> & Hin).
  destruct (Hall v Hin) as (s' & Hs' & Hbuilt).
  rewrite Hk in Hs'. injection Hs' as <-.
  split; [|exists v; auto].
  apply parseSlice_Cfg in Hbuilt as (-> & _). reflexivity.
Qed.

(** X4.  When [parseSlices] succeeds, the trimmed names of the configured
    slices are pairwise distinct, the map has exactly one slice per
    configured slice, stored under the trimmed name, and that slice is what
    [parseSlice] builds from the configuration with its name trimmed (so
    the name inside the slice is the key); when it fails, the map is nil. *)
Theorem parseSlices_result (cfgSlices : list SliceConfig) (charset : string)
    (collationID : Z) :
  match parseSlices cfgSlices charset collationID with
  | (slices, None) =>
      NoDup ((fun v => TrimSpace (SliceName v)) <$> cfgSlices)
      /\ size slices = length cfgSlices
      /\ (forall k, is_Some (slices !! k) <->
                    k ∈ (fun v => TrimSpace (SliceName v)) <$> cfgSlices)
      /\ (forall k s, slices !! k = Some s ->
            SliceName (Cfg s) = k
            /\ exists v, v ∈ cfgSlices
                         /\ parseSlice (trimSliceName v) charset collationID = inr s)
  | (slices, Some _) => slices = ∅
  end.
Proof.
  destruct (parseSlices cfgSlices charset collationID) as [m' [e|]] eqn:Hparse.
  - unfold parseSlices in Hparse. eapply parseSlices_from_failure, Hparse.
  - apply parseSlices_success, Hparse.
Qed.

(** X5.  Two configured slices whose names agree after trimming are never
    accepted: [parseSlices] returns an error and the nil map. *)
Theorem parseSlices_rejects_duplicates (cfgSlices : list SliceConfig) (charset : string)
    (collationID : Z) :
  ~ NoDup ((fun v => TrimSpace (SliceName v)) <$> cfgSlices) ->
  exists e, parseSlices cfgSlices charset collationID = (∅, Some e).
Proof.
  intros Hdup. unfold parseSlices.
  destruct (parseSlices_from ∅ cfgSlices charset collationID) as [m' [e|]] eqn:Hparse.
  - exists e. apply parseSlices_from_failure in Hparse as ->. reflexivity.
  - apply parseSlices_from_success in Hparse as (Hnodup & _). contradiction.
Qed.

(** ** Maps built by a loop of assignments *)

Lemma assigned_lookup {A B} (key : A -> string) (val : A -> B) (l : list A)
    (m : gmap string B) (k : string) (v : B) :
  foldl (fun m x => <[key x := val x]> m) m l !! k = Some v ->
  m !! k = Some v \/ exists x, x ∈ l /\ key x = k /\ v = val x.
Proof.
  revert m. induction l as [|x l IH]; intros m; simpl; [auto|].
  intros Hl. apply IH in Hl as [Hl|(x' & Hx' & ?)].
  - apply lookup_insert_Some in Hl as [[<- <-]|[_ Hl]]; [|auto].
    right. exists x. split; [left|auto].
  - right. exists x'. split; [right; exact Hx'|auto].
Qed.

Lemma assigned_is_Some {A B} (key : A -> string) (val : A -> B) (l : list A)
    (m : gmap string B) (k : string) :
  is_Some (foldl (fun m x => <[key x := val x]> m) m l !! k) <->
  is_Some (m !! k) \/ exists x, x ∈ l /\ key x = k.
Proof.
  revert m. induction l as [|x l IH]; intros m; simpl.
  - split; [auto|]. intros [?|(x & Hin & _)]; [assumption|].
    apply elem_of_nil in Hin. contradiction.
  - rewrite IH, lookup_insert_is_Some. split.
    + intros [[<-|[_ ?]]|(x' & Hin & ?)]; auto.
      * right. exists x. split; [left|reflexivity].
      * right. exists x'. split; [right; exact Hin|assumption].
    + intros [?|(x' & Hin & Hk)].
      * left. destruct (decide (key x = k)); auto.
      * apply elem_of_cons in Hin as [->|Hin]; [auto|].
        right. exists x'. auto.
Qed.

(** ** Physical databases, once more *)

(** X6.  [parseDefaultPhyDB] fails exactly in logic database mode when an
    allowed DB has no physical DB: the error names such a DB and the map
    returned is nil.  When it succeeds every allowed DB has an entry; with no
    physical DBs configured the result maps each allowed DB to itself and
    has no other key, otherwise it is the configured map. *)
Theorem parseDefaultPhyDB_result (defaultPhyDBs : gmap string string)
    (allowedDBs : gmap string bool) :
  match parseDefaultPhyDB defaultPhyDBs allowedDBs with
  | (result, Some e) =>
      result = ∅ /\ defaultPhyDBs <> ∅
      /\ exists db, e = ErrNoPhyDB db /\ is_Some (allowedDBs !! db)
                    /\ defaultPhyDBs !! db = None
  | (result, None) =>
      (forall db, is_Some (allowedDBs !! db) -> is_Some (result !! db))
      /\ (defaultPhyDBs = ∅ ->
          forall db phyDB, result !! db = Some phyDB <->
                           is_Some (allowedDBs !! db) /\ phyDB = db)
      /\ (defaultPhyDBs <> ∅ -> result = defaultPhyDBs)
  end.
Proof.
  unfold parseDefaultPhyDB.
  destruct (decide (size defaultPhyDBs = 0%nat)) as [Hz|Hnz].
  - apply map_size_empty_inv in Hz. split; [|split; [|contradiction]].
    + intros db [a Ha]. rewrite map_lookup_imap, Ha. simpl. eauto.
    + intros _ db phyDB. rewrite map_lookup_imap.
      destruct (allowedDBs !! db) as [a|]; simpl.
      * split; [intros [= <-]; eauto|intros [_ ->]; reflexivity].
      * split; [discriminate|]. intros [[? [=]] _].
  - apply map_size_non_empty_iff in Hnz.
    destruct (list_find _ _) as [[i [db a]]|] eqn:Hfind.
    + apply list_find_Some in Hfind as (Hi & Hnone & _). simpl in Hnone.
      split; [reflexivity|]. split; [exact Hnz|].
      exists db. split; [reflexivity|]. split; [|exact Hnone].
      exists a. apply elem_of_map_to_list. eapply list_elem_of_lookup_2, Hi.
    + apply list_find_None in Hfind. rewrite Forall_forall in Hfind.
      split; [|split; [contradiction|reflexivity]].
      intros db [a Ha]. apply not_eq_None_Some.
      apply (Hfind (db, a)). apply elem_of_map_to_list, Ha.
Qed.

(** ** Allowed databases *)

(** X7.  [GetAllowedDBs] lists every key of [allowedDBs] once, the DBs
    flagged false included; every DB [IsAllowedDB] accepts is in the list,
    while a DB flagged false is in the list and not accepted. *)
Theorem GetAllowedDBs_keys (n : Namespace) (db : string) :
  NoDup (GetAllowedDBs n)
  /\ (db ∈ GetAllowedDBs n <-> is_Some (allowedDBs n !! db))
  /\ (IsAllowedDB n db = true -> db ∈ GetAllowedDBs n)
  /\ (allowedDBs n !! db = Some false ->
      db ∈ GetAllowedDBs n /\ IsAllowedDB n db = false).
Proof.
  assert (Hin : db ∈ GetAllowedDBs n <-> is_Some (allowedDBs n !! db)).
  { unfold GetAllowedDBs. rewrite list_elem_of_fmap. split.
    - intros ([k a] & -> & Hka). apply elem_of_map_to_list in Hka. eauto.
    - intros [a Ha]. exists (db, a). split; [reflexivity|].
      apply elem_of_map_to_list, Ha. }
  split; [apply NoDup_fst_map_to_list|]. split; [exact Hin|]. split.
  - unfold IsAllowedDB. intros Hallowed. apply Hin.
    destruct (allowedDBs n !! db); [eauto|discriminate].
  - intros Hfalse. split; [apply Hin; eauto|].
    unfold IsAllowedDB. rewrite Hfalse. reflexivity.
Qed.

(** X8.  In a successfully constructed namespace the keys of [allowedDBs]
    are the trimmed configured names, and a DB that [IsAllowedDB] accepts
    was configured, up to surrounding white space, with the flag true. *)
Theorem IsAllowedDB_configured (cfg : NamespaceConfig) (n : Namespace) (db : string) :
  returned (NewNamespace cfg) = Some n ->
  (is_Some (allowedDBs n !! db) <->
   exists e, e ∈ AllowedDBS cfg /\ TrimSpace (fst e) = db)
  /\ (IsAllowedDB n db = true ->
      exists e, e ∈ AllowedDBS cfg /\ TrimSpace (fst e) = db /\ snd e = true).
Proof.
  intros Hok. apply NewNamespace_success in Hok as (_ & Hres & ->).
  destruct (NewNamespace_body_success cfg Hres) as (_ & _ & Hallow & _).
  unfold IsAllowedDB. rewrite Hallow. split.
  - rewrite (assigned_is_Some (fun e => TrimSpace (fst e)) snd).
    rewrite lookup_empty. split; [|auto].
    intros [[? [=]]|?]; assumption.
  - destruct (foldl _ _ _ !! db) as [a|] eqn:Hdb; [|discriminate].
    intros ->.
    apply (assigned_lookup (fun e => TrimSpace (fst e)) snd) in Hdb
      as [Hdb|(e & Hin & Hk & Hv)]; [rewrite lookup_empty in Hdb; discriminate|].
    exists e. auto.
Qed.

(** ** Users *)

(** X9.  In a successfully constructed namespace the four user predicates
    return a value for every configured user name (taken as it is, not
    trimmed), and the value comes from a configured user of that name; for
    a name that no configured user has, each of the four panics. *)
Theorem user_predicates_configured (cfg : NamespaceConfig) (n : Namespace) (user : string) :
  returned (NewNamespace cfg) = Some n ->
  ((exists u, u ∈ Users cfg /\ UserName u = user) ->
   exists u, u ∈ Users cfg /\ UserName u = user
     /\ IsAllowWrite n user = Done (bool_decide (UserRWFlag u = ReadWrite))
     /\ IsRWSplit n user = Done (bool_decide (UserRWSplit u = ReadWriteSplit))
     /\ IsStatisticUser n user = Done (bool_decide (UserOtherProperty u = StatisticUser))
     /\ GetUserProperty n user = Done (UserOtherProperty u))
  /\ ((forall u, u ∈ Users cfg -> UserName u <> user) ->
      IsAllowWrite n user = Panicked nilDeref
      /\ IsRWSplit n user = Panicked nilDeref
      /\ IsStatisticUser n user = Panicked nilDeref
      /\ GetUserProperty n user = Panicked nilDeref).
Proof.
  intros Hok. apply NewNamespace_success in Hok as (_ & Hres & ->).
  destruct (NewNamespace_body_parsed cfg Hres)
    as (t & ips & cs & cid & sl & tr & r & sq & _ & _ & _ & _ & _ & _ & _ & _ & _ & _
        & _ & _ & Husers & _).
  unfold IsAllowWrite, IsRWSplit, IsStatisticUser, GetUserProperty, userProperty.
  rewrite Husers. clear Husers. split.
  - intros Hconf.
    destruct (proj2 (assigned_is_Some UserName
                (fun user0 => {| RWFlag := UserRWFlag user0; RWSplit := UserRWSplit user0;
                                 OtherProperty := UserOtherProperty user0 |})
                (Users cfg) ∅ user) (or_intror Hconf)) as [up Hup].
    rewrite Hup.
    apply (assigned_lookup UserName
             (fun user0 => {| RWFlag := UserRWFlag user0; RWSplit := UserRWSplit user0;
                              OtherProperty := UserOtherProperty user0 |})) in Hup
      as [Hup|(u & Hin & Hname & ->)]; [rewrite lookup_empty in Hup; discriminate|].
    exists u. repeat split; assumption.
  - intros Hnone.
    destruct (foldl _ _ _ !! user) as [up|] eqn:Hup; [|repeat split; reflexivity].
    apply (assigned_lookup UserName
             (fun user0 => {| RWFlag := UserRWFlag user0; RWSplit := UserRWSplit user0;
                              OtherProperty := UserOtherProperty user0 |})) in Hup
      as [Hup|(u & Hin & Hname & _)]; [rewrite lookup_empty in Hup; discriminate|].
    exfalso. exact (Hnone u Hin Hname).
Qed.

(** ** Global sequences *)

Lemma initSequences_success (l : list GlobalSequence) (slices : gmap string Slice)
    (acc sequences : SequenceManager) :
  initSequences acc l slices = inr sequences ->
  length sequences = (length acc + length l)%nat
  /\ (forall e, e ∈ acc -> e ∈ sequences)
  /\ (forall v, v ∈ l ->
        exists s, slices !! SeqSliceName v = Some s
                  /\ (SeqDB v, SeqTable v,
                      {| seqSlice := s;
                         seqName := ToUpper (SeqDB v) +:+ "." +:+ ToUpper (SeqTable v);
                         seqPKName := SeqPKName v |}) ∈ sequences).
Proof.
  revert acc. induction l as [|v l IH]; intros acc; simpl.
  - intros [= <-]. split; [lia|]. split; [auto|].
    intros v Hin. apply elem_of_nil in Hin. contradiction.
  - destruct (slices !! SeqSliceName v) as [s|] eqn:Hs; [|discriminate].
    intros Hrest. apply IH in Hrest as (Hlen & Hkeep & Hall).
    split; [rewrite Hlen; simpl; lia|].
    split; [intros e He; apply Hkeep; right; exact He|].
    intros v' Hin. apply elem_of_cons in Hin as [->|Hin]; [|apply Hall, Hin].
    exists s. split; [exact Hs|]. apply Hkeep. left.
Qed.

Lemma initSequences_failure (l : list GlobalSequence) (slices : gmap string Slice)
    (acc : SequenceManager) (e : error) :
  initSequences acc l slices = inl e ->
  exists v, v ∈ l /\ slices !! SeqSliceName v = None
            /\ e = ErrSequenceSliceNotFound (SeqSliceName v).
Proof.
  revert acc. induction l as [|v l IH]; intros acc; simpl; [discriminate|].
  destruct (slices !! SeqSliceName v) as [s|] eqn:Hs.
  - intros Hrest. apply IH in Hrest as (v' & Hin & ?).
    exists v'. split; [right; exact Hin|assumption].
  - intros [= <-]. exists v. split; [left|auto].
Qed.

(** X10.  In a successfully constructed namespace every configured global
    sequence is registered, under its DB and table, with a slice that is in
    the namespace under the sequence's slice name exactly as configured
    (slice names are trimmed, the reference is not), with the upper-cased
    name "DB.TABLE"; [SetSequence] is called once per configured
    sequence. *)
Theorem NewNamespace_sequences_resolve (cfg : NamespaceConfig) (n : Namespace) :
  returned (NewNamespace cfg) = Some n ->
  exists registered,
    sequences n = Some registered
    /\ length registered = length (GlobalSequences cfg)
    /\ (forall v, v ∈ GlobalSequences cfg ->
          exists s, slices n !! SeqSliceName v = Some s
                    /\ (SeqDB v, SeqTable v,
                        {| seqSlice := s;
                           seqName := ToUpper (SeqDB v) +:+ "." +:+ ToUpper (SeqTable v);
                           seqPKName := SeqPKName v |}) ∈ registered).
Proof.
  intros Hok. apply NewNamespace_success in Hok as (_ & Hres & ->).
  destruct (NewNamespace_body_parsed cfg Hres)
    as (t & ips & cs & cid & sl & tr & r & sq & _ & _ & _ & _ & _ & _ & -> & _ & _ & _
        & Hsq & -> & _).
  apply initSequences_success in Hsq as (Hlen & _ & Hall).
  exists sq. split; [reflexivity|]. split; [exact Hlen|exact Hall].
Qed.

(** X11.  [initSequences] fails exactly when a sequence names a slice that
    is not in the map; the error carries the name of such a slice. *)
Theorem initSequences_result (l : list GlobalSequence) (slices : gmap string Slice) :
  match initSequences [] l slices with
  | inr registered =>
      Forall (fun v => is_Some (slices !! SeqSliceName v)) l
      /\ length registered = length l
  | inl e =>
      exists v, v ∈ l /\ slices !! SeqSliceName v = None
                /\ e = ErrSequenceSliceNotFound (SeqSliceName v)
  end.
Proof.
  destruct (initSequences [] l slices) as [e|sq] eqn:Hinit.
  - eapply initSequences_failure, Hinit.
  - apply initSequences_success in Hinit as (Hlen & _ & Hall).
    split; [|exact Hlen]. apply Forall_forall. intros v Hin.
    destruct (Hall v Hin) as (s & Hs & _). eauto.
Qed.

(** ** Close, once more *)

Lemma elapsed_closes {A} (f : A -> Event) (l : list A) :
  (forall a, exists k b, f a = EvSliceClose k b) -> elapsed (f <$> l) = 0.
Proof.
  intros Hf. induction l as [|a l IH]; [reflexivity|].
  simpl. destruct (Hf a) as (k & b & ->). exact IH.
Qed.

(** X12.  [Close] sleeps 60 seconds when [delay] and not at all otherwise;
    it closes every slice of the namespace exactly once, whether or not
    closing another slice failed, and closes nothing else. *)
Theorem Close_closes_every_slice (delay : bool) (n : Namespace) (k : string)
    (failed : bool) :
  elapsed (snd (Close delay n)) = (if delay then 60 * Second else 0)
  /\ NoDup (snd (Close delay n))
  /\ (EvSliceClose k failed ∈ snd (Close delay n) <->
      exists s, slices n !! k = Some s
                /\ failed = bool_decide (is_Some (SliceClose s))).
Proof.
  unfold Close. cbn [snd].
  set (closes := (fun e : string * Slice =>
                    EvSliceClose (fst e) (bool_decide (is_Some (SliceClose (snd e)))))
                 <$> map_to_list (slices n)).
  assert (Hclose : forall e, e ∈ closes <->
            exists k' s, slices n !! k' = Some s
              /\ e = EvSliceClose k' (bool_decide (is_Some (SliceClose s)))).
  { intros e. unfold closes. rewrite list_elem_of_fmap. split.
    - intros ([k' s] & -> & Hin). apply elem_of_map_to_list in Hin. eauto.
    - intros (k' & s & Hs & ->). exists (k', s). split; [reflexivity|].
      apply elem_of_map_to_list, Hs. }
  assert (Hnodup : NoDup closes).
  { unfold closes. apply NoDup_fmap_2_strong; [|apply NoDup_map_to_list].
    intros [k1 s1] [k2 s2] H1 H2 Heq. simpl in Heq. injection Heq as -> _. f_equal.
    exact (map_to_list_unique (slices n) k2 s1 s2 H1 H2). }
  split.
  { assert (Hel : elapsed closes = 0)
      by (unfold closes; apply elapsed_closes; intros [? ?]; eauto).
    cbn [elapsed]. rewrite elapsed_app, Hel. destruct delay; reflexivity. }
  split.
  { apply NoDup_cons. split.
    - intros Hin. apply elem_of_app in Hin as [Hin|Hin].
      + destruct delay; [apply list_elem_of_singleton in Hin; discriminate|].
        apply elem_of_nil in Hin. contradiction.
      + apply Hclose in Hin as (? & ? & _ & [=]).
    - apply NoDup_app. split; [destruct delay; [apply NoDup_singleton|constructor]|].
      split; [|exact Hnodup].
      intros e He Hin. apply Hclose in Hin as (? & ? & _ & ->).
      destruct delay; [apply list_elem_of_singleton in He; discriminate|].
      apply elem_of_nil in He. contradiction. }
  rewrite elem_of_cons, elem_of_app. split.
  - intros [[=]|[Hin|Hin]].
    + destruct delay; [apply list_elem_of_singleton in Hin; discriminate|].
      apply elem_of_nil in Hin. contradiction.
    + apply Hclose in Hin as (k' & s & Hs & [= -> ->]). eauto.
  - intros (s & Hs & ->). right. right. apply Hclose. eauto.
Qed.

(** ** Supervisors started by construction *)

Lemma checkSlicesStatus_loop_spawns (l : list (string * Slice)) :
  exists tr,
    checkSlicesStatus_loop l = (None, false, tr)
    /\ length (workersOf tr) = (3 * length l)%nat
    /\ (forall w, w ∈ workersOf tr <->
          exists e r, e ∈ l
            /\ w = {| workerSlice := SliceName (Cfg (snd e)); workerRole := r;
                      running := true |})
    /\ Forall (fun e => exists k r, e = EvSpawn k r) tr.
Proof.
  induction l as [|[k v] l (tr & Hloop & Hlen & Hw & Hall)].
  - exists []. split; [reflexivity|]. split; [reflexivity|]. split; [|constructor].
    intros w. split.
    + intros Hin. apply elem_of_nil in Hin. contradiction.
    + intros (e & _ & Hin & _). apply elem_of_nil in Hin. contradiction.
  - eexists. cbn [checkSlicesStatus_loop doCheckSlice]. rewrite Hloop.
    split; [reflexivity|]. cbn [app workersOf length].
    split; [rewrite Hlen; lia|]. split.
    + intros w. rewrite !elem_of_cons, Hw. split.
      * intros [->|[->|[->|(e & r & Hin & ->)]]].
        -- exists (k, v), RoleSlave. split; [left|reflexivity].
        -- exists (k, v), RoleStatisticSlave. split; [left|reflexivity].
        -- exists (k, v), RoleMaster. split; [left|reflexivity].
        -- exists e, r. split; [right; exact Hin|reflexivity].
      * intros (e & r & Hin & ->). apply elem_of_cons in Hin as [->|Hin].
        -- destruct r; simpl; auto.
        -- right. right. right. exists e, r. auto.
    + repeat (constructor; [eauto|]). exact Hall.
Qed.

Lemma checkSlicesStatus_spawns (slices : gmap string Slice) (err : option error)
    (cancelled : bool) (tr : list Event) :
  checkSlicesStatus slices = (err, cancelled, tr) ->
  err = None /\ cancelled = false
  /\ length (workersOf tr) = (3 * size slices)%nat
  /\ (forall w, w ∈ workersOf tr <->
        exists k s r, slices !! k = Some s
          /\ w = {| workerSlice := SliceName (Cfg s); workerRole := r;
                    running := true |})
  /\ Forall (fun e => exists k r, e = EvSpawn k r) tr.
Proof.
  unfold checkSlicesStatus.
  destruct (checkSlicesStatus_loop_spawns (map_to_list slices))
    as (tr' & Hloop & Hlen & Hw & Hall).
  rewrite Hloop. intros [= <- <- <-]. split; [reflexivity|]. split; [reflexivity|].
  split; [rewrite Hlen, length_map_to_list; reflexivity|]. split; [|exact Hall].
  intros w. rewrite Hw. split.
  - intros ([k s] & r & Hin & ->). apply elem_of_map_to_list in Hin. eauto.
  - intros (k & s & r & Hs & ->). exists (k, s), r.
    split; [apply elem_of_map_to_list, Hs|reflexivity].
Qed.

(** X13.  [checkSlicesStatus] never returns an error and never cancels the
    context; it starts three workers for every slice of the map, one per
    role, and does nothing else. *)
Theorem checkSlicesStatus_three_workers (slices : gmap string Slice) :
  exists tr,
    checkSlicesStatus slices = (None, false, tr)
    /\ length (workersOf tr) = (3 * size slices)%nat
    /\ (forall w, w ∈ workersOf tr <->
          exists k s r, slices !! k = Some s
            /\ w = {| workerSlice := SliceName (Cfg s); workerRole := r;
                      running := true |})
    /\ Forall (fun e => exists k r, e = EvSpawn k r) tr.
Proof.
  destruct (checkSlicesStatus slices) as [[err cancelled] tr] eqn:Hcheck.
  destruct (checkSlicesStatus_spawns _ _ _ _ Hcheck) as (-> & -> & Hrest).
  exists tr. split; [reflexivity|exact Hrest].
Qed.

(** X14.  A successful construction has started exactly three supervisor
    workers per configured slice, one per role and named by the trimmed
    slice name; nothing was closed and nothing cancelled. *)
Theorem NewNamespace_supervisors (cfg : NamespaceConfig) (n : Namespace) :
  returned (NewNamespace cfg) = Some n ->
  let workers := workersOf (trace (NewNamespace cfg)) in
  length workers = (3 * length (Slices cfg))%nat
  /\ size (slices n) = length (Slices cfg)
  /\ (forall w, w ∈ workers <->
        exists v r, v ∈ Slices cfg
          /\ w = {| workerSlice := TrimSpace (SliceName v); workerRole := r;
                    running := true |})
  /\ Forall (fun e => exists k r, e = EvSpawn k r) (trace (NewNamespace cfg)).
Proof.
  intros Hok. apply NewNamespace_success in Hok as (-> & Hres & ->).
  destruct (NewNamespace_body_parsed cfg Hres)
    as (t & ips & cs & cid & sl & tr & r & sq & _ & _ & _ & _ & _ & Hsl & -> & Hcheck
        & -> & _).
  destruct (parseSlices_success _ _ _ _ Hsl) as (_ & Hsize & Hkeys & Hcfg).
  destruct (checkSlicesStatus_spawns _ _ _ _ Hcheck) as (_ & _ & Hlen & Hw & Hall).
  cbv zeta. split; [rewrite Hlen, Hsize; reflexivity|]. split; [exact Hsize|].
  split; [|exact Hall].
  intros w. rewrite Hw. split.
  - intros (k & s & role & Hs & ->).
    destruct (Hcfg k s Hs) as (Hname & _).
    assert (Hin : k ∈ (fun v => TrimSpace (SliceName v)) <$> Slices cfg)
      by (apply Hkeys; eauto).
    apply list_elem_of_fmap in Hin as (v & -> & Hin).
    exists v, role. rewrite Hname. auto.
  - intros (v & role & Hin & ->).
    assert (Hk : is_Some (sl !! TrimSpace (SliceName v))).
    { apply Hkeys. apply list_elem_of_fmap. eauto. }
    destruct Hk as [s Hs]. destruct (Hcfg _ s Hs) as (Hname & _).
    exists (TrimSpace (SliceName v)), s, role. rewrite Hname. auto.
Qed.

(** ** The probe, for any pool *)

Lemma probeEvent_mono (pass pass' : nat) (e : Event) :
  (pass <= pass')%nat -> probeEvent pass e -> probeEvent pass' e.
Proof. destruct e; simpl; auto. lia. Qed.

(** How the loop of the probe is left, whatever the pool answers: through a
    pass that succeeded, with the connection of that pass, never recycled;
    or through the loop condition, with no connection or one that has been
    recycled. *)
Lemma probe_loop_exit namespace v :
  forall fuel pass sleepTime err conn tr x,
    getInstanceStatus_loop fuel namespace v pass sleepTime err conn tr = Done x ->
    Forall (probeEvent pass) tr ->
    (conn = None \/ exists c, conn = Some c /\ EvRecycle (connPass c) ∈ tr) ->
    exists pass',
      (pass <= pass')%nat
      /\ Forall (probeEvent pass') (exitTrace x)
      /\ (   (exitSleepTime x < downAfterNoAlive namespace
              /\ exitErr x = false
              /\ failing (attempt v pass') = false
              /\ exitConn x = Some {| connPass := pass'; Execute := showSlaveStatus v |})
          \/ (downAfterNoAlive namespace <= exitSleepTime x
              /\ (exitConn x = None
                  \/ exists c, exitConn x = Some c
                               /\ EvRecycle (connPass c) ∈ exitTrace x))).
Proof.
  induction fuel as [|fuel IH]; intros pass sleepTime err conn tr x;
    rewrite getInstanceStatus_loop_eq;
    destruct (Z.ltb_spec sleepTime (downAfterNoAlive namespace)) as [Hlt|Hge];
    try discriminate.
  - intros [= <-] Htr Hconn. exists pass. split; [lia|]. split; [exact Htr|].
    right. split; [exact Hge|exact Hconn].
  - destruct (attempt v pass) as [c| | |] eqn:Hattempt; cbv zeta.
    + intros Hx Htr _. apply IH in Hx as (pass' & Hle & Hrest).
      * exists pass'. split; [lia|exact Hrest].
      * apply Forall_app. split;
          [eapply Forall_impl; [exact Htr|intros e; apply probeEvent_mono; lia]|].
        destruct c; repeat constructor; simpl; lia.
      * left. reflexivity.
    + intros [= <-] Htr _. exists pass. split; [lia|]. split.
      * apply Forall_app. split; [exact Htr|repeat constructor].
      * left. rewrite Hattempt. auto.
    + intros [= <-] Htr _. exists pass. split; [lia|]. split.
      * apply Forall_app. split; [exact Htr|repeat constructor].
      * left. rewrite Hattempt. auto.
    + intros Hx Htr _. apply IH in Hx as (pass' & Hle & Hrest).
      * exists pass'. split; [lia|exact Hrest].
      * apply Forall_app. split;
          [eapply Forall_impl; [exact Htr|intros e; apply probeEvent_mono; lia]|].
        repeat constructor; simpl; lia.
      * right. eexists. split; [reflexivity|]. simpl.
        apply elem_of_app. right. set_solver.
  - intros [= <-] Htr Hconn. exists pass. split; [lia|]. split; [exact Htr|].
    right. split; [exact Hge|exact Hconn].
Qed.

(** The probe calls nothing but the pool and its connections. *)
Lemma probe_trace_events (fuel : nat) (namespace : Namespace) (v : ConnectionPool)
    (p : Probe) :
  getInstanceStatus fuel namespace v = Done p ->
  forall e, e ∈ probeTrace p ->
    e = EvGet \/ e = EvPing \/ e = EvReconnect
    \/ (exists d, e = EvSleep d) \/ (exists j, e = EvRecycle j).
Proof.
  unfold getInstanceStatus.
  destruct (getInstanceStatus_loop fuel namespace v 0 1 false None []) as [x| |] eqn:Hx;
    try discriminate.
  cbn. intros [= <-]. cbn [probeTrace].
  apply probe_loop_exit in Hx as (pass' & _ & Htr & _); [|constructor|auto].
  rewrite Forall_forall in Htr.
  intros e He. apply Htr in He. destruct e; simpl in He; try contradiction; eauto 6.
Qed.

(** X15.  Whatever the pool answers, a probe that returns UP hands out the
    connection of a pass whose PING or RECONNECT succeeded, and has not
    recycled it; a probe that returns DOWN hands out no connection or one
    it has already recycled.  The probe makes no call other than on the
    pool and its connections. *)
Theorem probe_connection (fuel : nat) (namespace : Namespace) (v : ConnectionPool)
    (p : Probe) :
  getInstanceStatus fuel namespace v = Done p ->
  (probeStatus p = UP ->
   exists c, probeConn p = Some c
             /\ failing (attempt v (connPass c)) = false
             /\ Execute c = showSlaveStatus v
             /\ EvRecycle (connPass c) ∉ probeTrace p)
  /\ (probeStatus p = DOWN ->
      probeConn p = None
      \/ exists c, probeConn p = Some c /\ EvRecycle (connPass c) ∈ probeTrace p)
  /\ (forall e, e ∈ probeTrace p ->
        e = EvGet \/ e = EvPing \/ e = EvReconnect
        \/ (exists d, e = EvSleep d) \/ (exists j, e = EvRecycle j)).
Proof.
  unfold getInstanceStatus.
  destruct (getInstanceStatus_loop fuel namespace v 0 1 false None []) as [x| |] eqn:Hx;
    try discriminate.
  cbn. intros [= <-]. cbn [probeStatus probeConn probeTrace].
  apply probe_loop_exit in Hx as (pass' & _ & Htr & Hexit); [|constructor|auto].
  rewrite Forall_forall in Htr. split; [|split].
  - destruct Hexit as [(Hlt & Herr & Hok & Hconn)|(Hge & _)].
    + intros _. eexists. split; [exact Hconn|]. simpl.
      split; [exact Hok|]. split; [reflexivity|].
      intros Hin. apply Htr in Hin. simpl in Hin. lia.
    + destruct (Z.leb_spec (downAfterNoAlive namespace) (exitSleepTime x)); [|lia].
      rewrite orb_true_r. discriminate.
  - destruct Hexit as [(Hlt & Herr & _)|(_ & Hconn)]; [|auto].
    rewrite Herr.
    destruct (Z.leb_spec (downAfterNoAlive namespace) (exitSleepTime x)); [lia|].
    discriminate.
  - intros e He. apply Htr in He. destruct e; simpl in He; try contradiction; eauto 6.
Qed.

(** The loop of the probe, entered with the sleep time [2 ^ k], for any
    pool: it ends, having made [m] failing passes, slept after each of them
    the sleep time of the pass, and doubled the sleep time each time. *)
Lemma probe_loop_time namespace v :
  downAfterNoAlive namespace <= 2 ^ 33 ->
  forall fuel k pass err conn tr,
    (k <= 33)%nat -> (33 <= k + fuel)%nat ->
    exists m x,
      getInstanceStatus_loop fuel namespace v pass (2 ^ Z.of_nat k) err conn tr = Done x
      /\ exitSleepTime x = 2 ^ Z.of_nat (k + m)
      /\ (forall i, (i < m)%nat -> 2 ^ Z.of_nat (k + i) < downAfterNoAlive namespace)
      /\ elapsed (exitTrace x) =
           elapsed tr + (2 ^ Z.of_nat (k + m) - 2 ^ Z.of_nat k) * Second.
Proof.
  intros Hmax fuel.
  induction fuel as [|fuel IH]; intros k pass err conn tr Hk Hfuel;
    rewrite getInstanceStatus_loop_eq;
    destruct (Z.ltb_spec (2 ^ Z.of_nat k) (downAfterNoAlive namespace)) as [Hlt|Hge].
  - assert (k = 33%nat) as -> by lia. change (Z.of_nat 33) with 33 in Hlt. lia.
  - exists 0%nat. eexists. split; [reflexivity|]. cbn [exitSleepTime exitTrace].
    rewrite Nat.add_0_r. repeat split; try lia.
  - assert (k < 33)%nat as Hk'.
    { destruct (decide (k = 33%nat)) as [->|]; [|lia].
      change (Z.of_nat 33) with 33 in Hlt. lia. }
    pose proof (pow2_le_33 k Hk) as Hpow.
    assert (Hwrap : wrap64 (2 ^ Z.of_nat k * 2) = 2 ^ Z.of_nat (S k)).
    { rewrite pow2_S. apply wrap64_small.
      change (2 ^ 63) with 9223372036854775808.
      change (2 ^ 33) with 8589934592 in Hpow. lia. }
    assert (Hsec : seconds (2 ^ Z.of_nat k) = 2 ^ Z.of_nat k * Second)
      by (apply seconds_small; lia).
    assert (Hstep : forall conn' tr',
              elapsed tr' = elapsed tr + 2 ^ Z.of_nat k * Second ->
              exists m x,
                getInstanceStatus_loop fuel namespace v (S pass)
                  (wrap64 (2 ^ Z.of_nat k * 2)) true conn' tr' = Done x
                /\ exitSleepTime x = 2 ^ Z.of_nat (k + m)
                /\ (forall i, (i < m)%nat ->
                      2 ^ Z.of_nat (k + i) < downAfterNoAlive namespace)
                /\ elapsed (exitTrace x) =
                     elapsed tr + (2 ^ Z.of_nat (k + m) - 2 ^ Z.of_nat k) * Second).
    { intros conn' tr' He. rewrite Hwrap.
      destruct (IH (S k) (S pass) true conn' tr' ltac:(lia) ltac:(lia))
        as (m & x & Hx & Hst & Hbelow & He').
      exists (S m), x. replace (k + S m)%nat with (S k + m)%nat by lia.
      split; [exact Hx|]. split; [exact Hst|]. split.
      { intros i Hi. destruct i as [|i]; [rewrite Nat.add_0_r; exact Hlt|].
        replace (k + S i)%nat with (S k + i)%nat by lia. apply Hbelow. lia. }
      rewrite He', He. change (S k + m)%nat with (S (k + m)).
      rewrite (pow2_S k), (pow2_S (k + m)). unfold Second. lia. }
    destruct (attempt v pass) as [c| | |]; cbv zeta.
    + apply Hstep.
      rewrite !elapsed_app, Hsec. destruct c; simpl; unfold Second in *; lia.
    + exists 0%nat. eexists. split; [reflexivity|]. cbn [exitSleepTime exitTrace].
      rewrite Nat.add_0_r, elapsed_app. simpl. repeat split; lia.
    + exists 0%nat. eexists. split; [reflexivity|]. cbn [exitSleepTime exitTrace].
      rewrite Nat.add_0_r, elapsed_app. simpl. repeat split; lia.
    + apply Hstep.
      rewrite !elapsed_app, Hsec. simpl. unfold Second in *. lia.
  - exists 0%nat. eexists. split; [reflexivity|]. cbn [exitSleepTime exitTrace].
    rewrite Nat.add_0_r. repeat split; try lia.
Qed.

(** X16.  For every pool and every [downAfterNoAlive] up to 2^33 the probe
    returns (33 passes of the model suffice).  The time it spends sleeping
    is at most [2 * (downAfterNoAlive - 1)] seconds, and at most
    [downAfterNoAlive - 2] seconds when it returns UP. *)
Theorem probe_returns_in_time (fuel : nat) (namespace : Namespace) (v : ConnectionPool) :
  downAfterNoAlive namespace <= 2 ^ 33 ->
  (33 <= fuel)%nat ->
  exists p,
    getInstanceStatus fuel namespace v = Done p
    /\ 0 <= elapsed (probeTrace p) <= 2 * Z.max 0 (downAfterNoAlive namespace - 1) * Second
    /\ (probeStatus p = UP ->
        elapsed (probeTrace p) <= (downAfterNoAlive namespace - 2) * Second).
Proof.
  intros Hmax Hfuel.
  destruct (probe_loop_time namespace v Hmax fuel 0%nat 0%nat false None []
              ltac:(lia) ltac:(lia))
    as (m & x & Hx & Hst & Hbelow & He).
  change (2 ^ Z.of_nat 0) with 1 in *. simpl in Hst, Hbelow, He.
  unfold getInstanceStatus. rewrite Hx. cbn. eexists. split; [reflexivity|].
  cbn [probeStatus probeTrace]. rewrite He, Hst.
  assert (Hpos : 0 < 2 ^ Z.of_nat m) by (apply Z.pow_pos_nonneg; lia).
  assert (Hlast : m = 0%nat \/ 2 ^ Z.of_nat m <= 2 * (downAfterNoAlive namespace - 1)).
  { destruct m as [|m]; [auto|]. right.
    specialize (Hbelow m ltac:(lia)). rewrite pow2_S. lia. }
  unfold Second. split.
  - destruct Hlast as [->|Hlast]; [simpl; lia|]. lia.
  - destruct (Z.leb_spec (downAfterNoAlive namespace) (2 ^ Z.of_nat m));
      [rewrite orb_true_r; discriminate|]. intros _. lia.
Qed.

(** ** The replication-lag check, once more *)

Lemma readFields_error (res : Result) (fields : list string) (st st' : SlaveStatus)
    (e : error) :
  readFields res fields st = (st', Some e) ->
  exists f, f ∈ fields /\ GetValueByName res f = inl e.
Proof.
  revert st. induction fields as [|f fields IH]; intros st; simpl; [discriminate|].
  destruct (GetValueByName res f) as [e'|col] eqn:Hf.
  - intros [= _ <-]. exists f. split; [left|exact Hf].
  - intros Hrest. apply IH in Hrest as (f' & Hin & ?).
    exists f'. split; [right; exact Hin|assumption].
Qed.

Lemma setField_io (fieldName : string) (col : Col) (st : SlaveStatus) :
  ToLower fieldName <> "slave_io_running" ->
  SlaveIORunning (setField fieldName col st) = SlaveIORunning st.
Proof.
  intros Hne. unfold setField. repeat case_decide; try reflexivity. contradiction.
Qed.

Lemma readFields_io (res : Result) (fields : list string) (st st' : SlaveStatus)
    (err : option error) :
  Forall (fun f => ToLower f <> "slave_io_running") fields ->
  readFields res fields st = (st', err) ->
  SlaveIORunning st' = SlaveIORunning st.
Proof.
  intros Hall. revert st. induction Hall as [|f fields Hf _ IH]; intros st; simpl.
  - intros [= <- _]. reflexivity.
  - destruct (GetValueByName res f) as [e|col]; [intros [= <- _]; reflexivity|].
    intros Hrest. apply IH in Hrest. rewrite Hrest. apply setField_io, Hf.
Qed.

(** X17.  On a connection that is not nil the lag check never panics.  When
    it returns an error (the query failed, or a column of the row could not
    be read) it reports no lag, so a slave whose status cannot be read is
    not demoted.  When the row has no Slave_IO_Running column at all (an
    empty result, as from a server that is not a replica) and no error
    occurs, it reports lag. *)
Theorem slaveIsLagBehand_errors_and_missing_columns (c : PooledConnect)
    (namespace : Namespace) :
  exists lag err,
    slaveIsLagBehand (Some c) namespace = Done (lag, err)
    /\ (forall e, err = Some e ->
          lag = false
          /\ (Execute c = inl e
              \/ exists res f, Execute c = inr res /\ f ∈ Fields res
                               /\ GetValueByName res f = inl e))
    /\ (forall res, Execute c = inr res ->
          Forall (fun f => ToLower f <> "slave_io_running") (Fields res) ->
          err = None -> lag = true).
Proof.
  unfold slaveIsLagBehand, GetSlaveStatus.
  destruct (Execute c) as [e|res] eqn:Hexec; cbn.
  - exists false, (Some e). split; [reflexivity|]. split.
    + intros e' [= <-]. auto.
    + intros res [=].
  - destruct (readFields res (Fields res) zeroSlaveStatus) as [st [e|]] eqn:Hread.
    + exists false, (Some e). split; [reflexivity|]. split; [|discriminate].
      intros e' [= <-]. split; [reflexivity|]. right.
      apply readFields_error in Hread as (f & Hin & Hf). eauto.
    + assert (Hio : forall res', @inr error Result res = inr res' ->
                Forall (fun f => ToLower f <> "slave_io_running") (Fields res') ->
                SlaveIORunning st <> "Yes").
      { intros res' [= <-] Hall.
        rewrite (readFields_io _ _ _ _ _ Hall Hread). discriminate. }
      destruct (secondsBehindMaster namespace <? SecondsBehindMaster_st st)%N.
      { exists true, None. split; [reflexivity|]. split; [discriminate|auto]. }
      destruct (decide (SlaveIORunning st <> "Yes")) as [Hne|Hyes].
      { exists true, None. split; [reflexivity|]. split; [discriminate|auto]. }
      destruct (decide (SlaveSQLRunning st <> "Yes")).
      { exists true, None. split; [reflexivity|]. split; [discriminate|auto]. }
      exists false, None. split; [reflexivity|]. split; [discriminate|].
      intros res' Hres Hall _. exfalso. exact (Hyes (Hio res' Hres Hall)).
Qed.

(** ** One pool, one group *)

(** X18.  The status [checkPool] stores is always the status the probe
    returned: the lag check is issued only for a probe that ended DOWN, and
    then DOWN is stored whatever it finds.  The store is the last thing
    [checkPool] does. *)
Theorem checkPool_stores_probe_status (fuel : nat) (namespace : Namespace)
    (slice : Slice) (isMaster : bool) (idx : nat) (v : ConnectionPool)
    (status : StatusCode) (tr : list Event) :
  checkPool fuel namespace slice isMaster idx v = Done (status, tr) ->
  exists p tr',
    getInstanceStatus fuel namespace v = Done p
    /\ status = probeStatus p
    /\ tr = probeTrace p ++ tr' ++ [EvStore idx status].
Proof.
  unfold checkPool.
  destruct (getInstanceStatus fuel namespace v) as [p| |]; try discriminate. cbn.
  destruct (shouldCheckSlaveDataSyncStatus _ _ _ _) eqn:Hcheck.
  - apply shouldCheckSlaveDataSyncStatus_true in Hcheck as (_ & Hdown & _).
    destruct (slaveIsLagBehand _ _) as [[lag err]| |]; try discriminate. cbn.
    intros [= <- <-]. exists p.
    exists (match probeConn p with Some c => [EvExecute (connPass c)] | None => [] end
            ++ match probeConn p with Some c => [EvRecycle (connPass c)] | None => [] end).
    split; [reflexivity|]. split.
    + destruct (probeStatus p); [contradiction|]. destruct lag; reflexivity.
    + rewrite <- (app_assoc _ _ [EvStore idx _]). reflexivity.
  - intros [= <- <-]. exists p.
    exists (match probeConn p with Some c => [EvRecycle (connPass c)] | None => [] end).
    repeat split.
Qed.

(** X19.  For a master pool, when the master of the slice is known DOWN,
    or when [secondsBehindMaster] is 0, [checkPool] returns whenever the
    probe does, stores the probe's status and never sends
    [show slave status;]. *)
Theorem checkPool_lag_gate (fuel : nat) (namespace : Namespace) (slice : Slice)
    (isMaster : bool) (idx : nat) (v : ConnectionPool) (p : Probe) :
  isMaster = true \/ StatusMap (Master slice) !! 0%nat = Some DOWN
    \/ secondsBehindMaster namespace = 0%N ->
  getInstanceStatus fuel namespace v = Done p ->
  exists tr,
    checkPool fuel namespace slice isMaster idx v = Done (probeStatus p, tr)
    /\ (forall j, EvExecute j ∉ tr).
Proof.
  intros Hgate Hp. unfold checkPool. rewrite Hp. cbn.
  destruct (shouldCheckSlaveDataSyncStatus _ _ _ _) eqn:Hcheck.
  { apply shouldCheckSlaveDataSyncStatus_true in Hcheck as (? & _ & ? & ?).
    destruct Hgate as [?|[?|?]]; congruence. }
  eexists. split; [reflexivity|].
  intros j Hin. apply elem_of_app in Hin as [Hin|Hin].
  - apply (probe_trace_events fuel namespace v p Hp) in Hin
      as [?|[?|[?|[[? ?]|[? ?]]]]]; discriminate.
  - apply elem_of_app in Hin as [Hin|Hin].
    + destruct (probeConn p); [apply list_elem_of_singleton in Hin; discriminate|].
      apply elem_of_nil in Hin. contradiction.
    + apply list_elem_of_singleton in Hin. discriminate.
Qed.

Lemma checkPools_result (fuel : nat) (namespace : Namespace) (slice : Slice)
    (isMaster : bool) (pools : list ConnectionPool) :
  forall idx statusMap statusMap' tr,
    checkPools fuel namespace slice isMaster idx pools statusMap = Done (statusMap', tr) ->
    (forall i, (i < idx \/ idx + length pools <= i)%nat ->
               statusMap' !! i = statusMap !! i)
    /\ (forall i v, pools !! i = Some v ->
          exists status tr',
            checkPool fuel namespace slice isMaster (idx + i) v = Done (status, tr')
            /\ statusMap' !! (idx + i)%nat = Some status).
Proof.
  induction pools as [|v pools IH]; intros idx statusMap statusMap' tr; simpl.
  - intros [= <- _]. split; [auto|]. intros i v' Hi. rewrite lookup_nil in Hi. discriminate.
  - destruct (checkPool fuel namespace slice isMaster idx v) as [[status tr1]| |] eqn:Hv;
      try discriminate. cbn.
    destruct (checkPools _ _ _ _ _ _ _) as [[m2 tr2]| |] eqn:Hrest; try discriminate.
    cbn. intros [= <- _].
    apply IH in Hrest as (Hout & Hin). split.
    + intros i Hi. rewrite Hout by lia. apply lookup_insert_ne. lia.
    + intros [|i] v' Hi; simpl in Hi.
      * injection Hi as <-. rewrite Nat.add_0_r. exists status, tr1.
        split; [exact Hv|]. rewrite Hout by lia. apply lookup_insert_eq.
      * destruct (Hin i v' Hi) as (st & tr' & Hst & Hm).
        replace (idx + S i)%nat with (S idx + i)%nat by lia. eauto.
Qed.

(** A turn leaves the configuration, the other groups and the pool list of
    its own group as they are. *)
Lemma checkStatus_turn_frame (fuel : nat) (namespace : Namespace) (slice slice' : Slice)
    (r : Role) (tr : list Event) :
  checkStatus_turn fuel namespace slice r false = Done (Some (slice', tr)) ->
  Cfg slice' = Cfg slice
  /\ (forall r', r' <> r -> groupOf slice' r' = groupOf slice r')
  /\ ConnPool (groupOf slice' r) = ConnPool (groupOf slice r).
Proof.
  unfold checkStatus_turn.
  destruct (checkPools _ _ _ _ _ _ _) as [[m tr1]| |]; try discriminate.
  cbn. intros [= <- <-].
  split; [reflexivity|]. split.
  { intros r' Hne. destruct r, r'; try contradiction; reflexivity. }
  destruct r; reflexivity.
Qed.

(** X20.  A turn of a worker that finds the context live and returns has
    stored, for every pool of its group, the status [checkPool] computed
    for it, under the index of the pool; it has touched no other index, no
    other group of the slice, and not the pool list; it ends with a sleep
    of two seconds. *)
Theorem checkStatus_turn_result (fuel : nat) (namespace : Namespace) (slice slice' : Slice)
    (r : Role) (tr : list Event) :
  checkStatus_turn fuel namespace slice r false = Done (Some (slice', tr)) ->
  Cfg slice' = Cfg slice
  /\ (forall r', r' <> r -> groupOf slice' r' = groupOf slice r')
  /\ ConnPool (groupOf slice' r) = ConnPool (groupOf slice r)
  /\ (forall i, (length (ConnPool (groupOf slice r)) <= i)%nat ->
        StatusMap (groupOf slice' r) !! i = StatusMap (groupOf slice r) !! i)
  /\ (forall i v, ConnPool (groupOf slice r) !! i = Some v ->
        exists status tr',
          checkPool fuel namespace slice (bool_decide (r = RoleMaster)) i v
            = Done (status, tr')
          /\ StatusMap (groupOf slice' r) !! i = Some status)
  /\ last tr = Some (EvSleep (2 * Second)).
Proof.
  intros Hturn.
  destruct (checkStatus_turn_frame _ _ _ _ _ _ Hturn) as (Hcfg & Hother & Hpool).
  split; [exact Hcfg|]. split; [exact Hother|]. split; [exact Hpool|].
  clear Hcfg Hother Hpool. revert Hturn. unfold checkStatus_turn.
  destruct (checkPools _ _ _ _ _ _ _) as [[m tr1]| |] eqn:Hpools; try discriminate.
  cbn. intros [= <- <-].
  apply checkPools_result in Hpools as (Hout & Hin). split.
  { intros i Hi. destruct r; simpl in *; apply Hout; right; exact Hi. }
  split.
  { intros i v Hv. destruct (Hin i v Hv) as (st & tr' & Hst & Hm).
    exists st, tr'. split; [exact Hst|]. destruct r; exact Hm. }
  rewrite last_snoc. reflexivity.
Qed.

(** ** What never changes after construction *)

Lemma sysStep_policies (fuel : nat) (a : Action) (s : System) :
  let n := sysNamespace s in
  let n' := sysNamespace (sysStep fuel a s) in
  allowedDBs n' = allowedDBs n /\ defaultPhyDBs n' = defaultPhyDBs n
  /\ sqls n' = sqls n /\ userProperties n' = userProperties n
  /\ allowips n' = allowips n /\ planCache n' = planCache n
  /\ downAfterNoAlive n' = downAfterNoAlive n
  /\ secondsBehindMaster n' = secondsBehindMaster n
  /\ (forall k, is_Some (slices n' !! k) <-> is_Some (slices n !! k))
  /\ (forall k sl sl', slices n !! k = Some sl -> slices n' !! k = Some sl' ->
        Cfg sl' = Cfg sl
        /\ forall r, ConnPool (groupOf sl' r) = ConnPool (groupOf sl r)).
Proof.
  assert (Hsame : forall n : Namespace,
            (forall k, is_Some (slices n !! k) <-> is_Some (slices n !! k))
            /\ (forall k sl sl', slices n !! k = Some sl -> slices n !! k = Some sl' ->
                  Cfg sl' = Cfg sl
                  /\ forall r, ConnPool (groupOf sl' r) = ConnPool (groupOf sl r))).
  { intros n. split; [tauto|]. intros k sl sl' H1 H2.
    rewrite H1 in H2. injection H2 as <-. auto. }
  destruct a as [delay|i]; cbn [sysStep sysNamespace].
  - repeat split; try reflexivity; try apply Hsame.
    all: intros; eapply Hsame; eassumption.
  - destruct (sysWorkers s !! i) as [w|];
      [|repeat split; try reflexivity; intros; try tauto; eapply Hsame; eassumption].
    destruct (running w && negb (sysCrashed s));
      [|repeat split; try reflexivity; intros; try tauto; eapply Hsame; eassumption].
    destruct (slices (sysNamespace s) !! workerSlice w) as [slice|] eqn:Hslice;
      [|repeat split; try reflexivity; intros; try tauto; eapply Hsame; eassumption].
    destruct (checkStatus_turn _ _ _ _ _) as [[[slice' tr]|]| |] eqn:Hturn;
      cbn [sysNamespace];
      try (repeat split; try reflexivity; intros; try tauto; eapply Hsame; eassumption).
    assert (Hlive : sysCtxDone s = false).
    { destruct (sysCtxDone s); [discriminate|reflexivity]. }
    rewrite Hlive in Hturn.
    apply checkStatus_turn_frame in Hturn as (Hcfg & Hother & Hpool).
    do 8 (split; [reflexivity|]). cbn. split.
    + intros k. rewrite lookup_insert_is_Some. split.
      * intros [<-|[_ Hk]]; eauto.
      * intros Hk. destruct (decide (workerSlice w = k)); auto.
    + intros k sl sl' Hk Hk'. destruct (decide (workerSlice w = k)) as [<-|Hne].
      * rewrite lookup_insert_eq in Hk'. injection Hk' as <-.
        rewrite Hslice in Hk. injection Hk as <-. split; [exact Hcfg|].
        intros r. destruct (decide (r = workerRole w)) as [->|Hr]; [exact Hpool|].
        rewrite Hother by exact Hr. reflexivity.
      * rewrite lookup_insert_ne in Hk' by exact Hne.
        rewrite Hk in Hk'. injection Hk' as <-. auto.
Qed.

(** X21.  Whatever the owner and the workers do after construction
    ([Close] and turns of workers, in any order), the policy tables of the
    namespace, its plan cache and its probe settings stay as they are; the
    set of slice names stays the same, and so do the configuration and the
    pool lists of every slice: only statuses and fingerprint caches
    change. *)
Theorem sysRun_keeps_policies (fuel : nat) (acts : list Action) (s : System) :
  let n := sysNamespace s in
  let n' := sysNamespace (sysRun fuel acts s) in
  allowedDBs n' = allowedDBs n /\ defaultPhyDBs n' = defaultPhyDBs n
  /\ sqls n' = sqls n /\ userProperties n' = userProperties n
  /\ allowips n' = allowips n /\ planCache n' = planCache n
  /\ downAfterNoAlive n' = downAfterNoAlive n
  /\ secondsBehindMaster n' = secondsBehindMaster n
  /\ (forall k, is_Some (slices n' !! k) <-> is_Some (slices n !! k))
  /\ (forall k sl sl', slices n !! k = Some sl -> slices n' !! k = Some sl' ->
        Cfg sl' = Cfg sl
        /\ forall r, ConnPool (groupOf sl' r) = ConnPool (groupOf sl r)).
Proof.
  cbv zeta. revert s. induction acts as [|a acts IH]; intros s.
  - cbn [sysRun foldl]. do 8 (split; [reflexivity|]). split; [tauto|].
    intros k sl sl' Hk Hk'. rewrite Hk in Hk'. injection Hk' as <-. auto.
  - cbn [sysRun foldl]. fold (sysRun fuel acts (sysStep fuel a s)).
    destruct (IH (sysStep fuel a s))
      as (H1 & H2 & H3 & H4 & H5 & H6 & H7 & H8 & Hkeys & Hsl).
    destruct (sysStep_policies fuel a s)
      as (G1 & G2 & G3 & G4 & G5 & G6 & G7 & G8 & Gkeys & Gsl).
    rewrite H1, H2, H3, H4, H5, H6, H7, H8.
    do 8 (split; [assumption|]). split.
    + intros k. rewrite Hkeys. apply Gkeys.
    + intros k sl sl' Hk Hk'.
      assert (Hmid : is_Some (slices (sysNamespace (sysStep fuel a s)) !! k))
        by (apply Gkeys; eauto).
      destruct Hmid as [mid Hmid].
      destruct (Gsl k sl mid Hk Hmid) as [Gc Gp].
      destruct (Hsl k mid sl' Hmid Hk') as [Hc Hp].
      split; [congruence|]. intros r. rewrite Hp. apply Gp.
Qed.

(** ** Character set and blacklist of a constructed namespace *)

Lemma NewNamespace_body_charset cfg :
  result (NewNamespace_body cfg) = None ->
  let n := object (NewNamespace_body cfg) in
  exists cs cid sl,
    parseCharset (DefaultCharset cfg) (DefaultCollation cfg) = (cs, cid, None)
    /\ defaultCharset n = cs /\ defaultCollationID n = cid
    /\ parseSlices (Slices cfg) cs cid = (sl, None) /\ slices n = sl.
Proof.
  unfold NewNamespace_body. ns_compute.
  destruct (parseSlowSQLTime (SlowSQLTime cfg)) as [t [e|]]; [early_return|].
  destruct (parseDefaultPhyDB _ _) as [phy [e|]]; [early_return|].
  destruct (parseAllowIps _) as [ips [e|]]; [early_return|].
  destruct (parseCharset _ _) as [[cs cid] [e|]]; [early_return|].
  destruct (parseSlices _ _ _) as [sl [e|]] eqn:Hsl; [early_return|].
  unfold checkSlicesStatus.
  pose proof (checkSlicesStatus_loop_ok (map_to_list sl)) as Hloop.
  destruct (checkSlicesStatus_loop _) as [[err c] tr] eqn:Hcheck.
  cbn in Hloop. injection Hloop as -> ->.
  destruct (NewRouter _) as [e|r]; [early_return|].
  destruct (initSequences _ _ _) as [e|sq]; [early_return|].
  change (0 <=? 0) with true. cbv iota.
  destruct (DownAfterNoAlive cfg <? 0); [early_return|].
  intros _. ns_compute. exists cs, cid, sl. repeat split; assumption.
Qed.

(** X22.  In a successfully constructed namespace every slice carries the
    character set and the collation id of the namespace.  These are the
    MySQL defaults when the configuration names neither; with a character
    set and no collation, the configured character set and its id in
    [CharsetIds]; with a collation, the configured character set as it is
    (empty or not), accepted by [VerifyCharset], and the id of the
    collation in [CollationNames]. *)
Theorem NewNamespace_charset (cfg : NamespaceConfig) (n : Namespace) :
  returned (NewNamespace cfg) = Some n ->
  (forall k s, slices n !! k = Some s ->
     SliceCharset s = defaultCharset n /\ SliceCollationID s = defaultCollationID n)
  /\ (DefaultCharset cfg = "" -> DefaultCollation cfg = "" ->
      defaultCharset n = mysqlDefaultCharset
      /\ defaultCollationID n = mysqlDefaultCollationID)
  /\ (DefaultCharset cfg <> "" -> DefaultCollation cfg = "" ->
      defaultCharset n = DefaultCharset cfg
      /\ CharsetIds (DefaultCharset cfg) = Some (defaultCollationID n))
  /\ (DefaultCollation cfg <> "" ->
      defaultCharset n = DefaultCharset cfg
      /\ VerifyCharset (DefaultCharset cfg) (DefaultCollation cfg) = None
      /\ CollationNames (DefaultCollation cfg) = Some (defaultCollationID n)).
Proof.
  intros Hok. apply NewNamespace_success in Hok as (_ & Hres & ->).
  destruct (NewNamespace_body_charset cfg Hres)
    as (cs & cid & sl & Hcs & -> & -> & Hsl & ->).
  split.
  { intros k s Hk.
    destruct (parseSlices_success _ _ _ _ Hsl) as (_ & _ & _ & Hbuilt).
    destruct (Hbuilt k s Hk) as (_ & v & _ & Hv).
    apply parseSlice_Cfg in Hv as (_ & -> & -> & _). auto. }
  revert Hcs. unfold parseCharset.
  destruct (decide (DefaultCharset cfg = "" /\ DefaultCollation cfg = ""))
    as [[Hc Hl]|Hne].
  { intros [= <- <-]. split; [auto|]. split; intros; contradiction. }
  destruct (decide (DefaultCollation cfg = "")) as [Hl|Hl].
  { destruct (CharsetIds (DefaultCharset cfg)) as [id|]; [|discriminate].
    intros [= <- <-]. split; [intros Hc _; destruct Hne; auto|].
    split; [auto|intros; contradiction]. }
  destruct (VerifyCharset _ _) as [e|]; [discriminate|].
  destruct (CollationNames _) as [id|]; [|discriminate].
  intros [= <- <-]. split; [intros; contradiction|].
  split; [intros; contradiction|auto].
Qed.

(** X23.  In a successfully constructed namespace [IsSQLAllowed] rejects a
    statement exactly when the md5 of its fingerprint is that of a
    configured blacklist entry, trimmed and not empty; a configured entry,
    submitted in its trimmed form, is rejected; and when every configured
    entry is blank, every statement is allowed and the request context is
    left alone. *)
Theorem NewNamespace_blacklist (cfg : NamespaceConfig) (n : Namespace)
    (reqCtx : gmap string string) (sql : string) :
  returned (NewNamespace cfg) = Some n ->
  (fst (IsSQLAllowed n reqCtx sql) = false <->
   exists e, e ∈ BlackSQL cfg /\ TrimSpace e <> ""
             /\ GetMd5 (GetFingerprint sql) = GetMd5 (GetFingerprint (TrimSpace e)))
  /\ (forall e, e ∈ BlackSQL cfg -> TrimSpace e <> "" ->
        fst (IsSQLAllowed n reqCtx (TrimSpace e)) = false)
  /\ (Forall (fun e => TrimSpace e = "") (BlackSQL cfg) ->
      IsSQLAllowed n reqCtx sql = (true, reqCtx)).
Proof.
  intros Hok. apply NewNamespace_success in Hok as (_ & Hres & ->).
  destruct (NewNamespace_body_success cfg Hres) as (_ & Hsqls & _).
  assert (Hkeys : forall md5,
            is_Some (sqls (object (NewNamespace_body cfg)) !! md5) <->
            exists e, e ∈ BlackSQL cfg /\ TrimSpace e <> ""
                      /\ md5 = GetMd5 (GetFingerprint (TrimSpace e))).
  { intros md5. rewrite Hsqls. unfold parseBlackSqls.
    rewrite blacklist_fold_is_Some. split; [|auto].
    intros [Hin|?]; [|assumption].
    rewrite lookup_empty in Hin. destruct Hin; discriminate. }
  assert (Hrej : forall s,
            fst (IsSQLAllowed (object (NewNamespace_body cfg)) reqCtx s) = false <->
            is_Some (sqls (object (NewNamespace_body cfg)) !! GetMd5 (GetFingerprint s))).
  { intros s. unfold IsSQLAllowed.
    destruct (decide (size (sqls (object (NewNamespace_body cfg))) = 0%nat)) as [Hz|Hnz].
    - apply map_size_empty_inv in Hz. rewrite Hz, lookup_empty. cbn. split.
      + discriminate.
      + intros [? ?]; discriminate.
    - destruct (sqls (object (NewNamespace_body cfg)) !! GetMd5 (GetFingerprint s));
        cbn; split; eauto; try discriminate. intros [? ?]; discriminate. }
  split; [rewrite Hrej; apply Hkeys|]. split.
  - intros e He Hne. apply Hrej, Hkeys. exists e. auto.
  - intros Hblank. unfold IsSQLAllowed.
    destruct (decide (size (sqls (object (NewNamespace_body cfg))) = 0%nat)) as [Hz|Hnz];
      [reflexivity|].
    exfalso. apply Hnz. apply map_size_empty_iff. apply map_empty. intros md5.
    destruct (sqls (object (NewNamespace_body cfg)) !! md5) eqn:Hmd5; [|reflexivity].
    assert (Hsome : is_Some (sqls (object (NewNamespace_body cfg)) !! md5)) by eauto.
    apply Hkeys in Hsome as (e & He & Hne & _).
    rewrite Forall_forall in Hblank. destruct (Hne (Hblank e He)).
Qed.

End MoreProperties.

(** ** The further properties at work *)

Section MoreConcrete.
Local Existing Instance Sample.collaborators.

(** X1 at work: a configuration with a slow-SQL time of 100 and no limits
    given. *)
Lemma NewNamespace_policies_in_range_witness :
  let cfg := Sample.configFull in
  let n := object (NewNamespace cfg) in
  returned (NewNamespace cfg) = Some n
  /\ 0 <= slowSQLTime n
  /\ 0 <= maxSqlExecuteTime n
  /\ (maxSqlResultSize n = -1 \/ 0 < maxSqlResultSize n)
  /\ 1 <= downAfterNoAlive n.
Proof.
  intros cfg n.
  assert (Hres : result (NewNamespace cfg) = None) by (vm_compute; reflexivity).
  assert (Hok : returned (NewNamespace cfg) = Some n)
    by (unfold n; exact (returned_ok _ Hres)).
  clearbody n cfg.
  exact (conj Hok (NewNamespace_policies_in_range cfg n Hok)).
Defined.

(** X5 at work: "slice-0" and " slice-0 ". *)
Lemma parseSlices_rejects_duplicates_witness :
  let cfgSlices := [Sample.slice0; Sample.slice0Padded] in
  ~ NoDup ((fun v => TrimSpace (SliceName v)) <$> cfgSlices)
  /\ exists e, parseSlices cfgSlices "utf8" 33 = (∅, Some e).
Proof.
  intros cfgSlices.
  assert (Hnames : (fun v => TrimSpace (SliceName v)) <$> cfgSlices
                   = ["slice-0"; "slice-0"]) by (vm_compute; reflexivity).
  assert (Hdup : ~ NoDup ((fun v => TrimSpace (SliceName v)) <$> cfgSlices)).
  { rewrite Hnames. intros Hnd. apply NoDup_cons in Hnd as [Hnotin _].
    apply Hnotin. left. }
  clearbody cfgSlices.
  exact (conj Hdup (parseSlices_rejects_duplicates cfgSlices "utf8" 33 Hdup)).
Defined.

(** X8 at work: " db " is configured with the flag true. *)
Lemma IsAllowedDB_configured_witness :
  let cfg := Sample.configFull in
  let n := object (NewNamespace cfg) in
  returned (NewNamespace cfg) = Some n
  /\ IsAllowedDB n "db" = true
  /\ exists e, e ∈ AllowedDBS cfg /\ TrimSpace (fst e) = "db" /\ snd e = true.
Proof.
  intros cfg n.
  assert (Hres : result (NewNamespace cfg) = None) by (vm_compute; reflexivity).
  assert (Hok : returned (NewNamespace cfg) = Some n)
    by (unfold n; exact (returned_ok _ Hres)).
  assert (Hdb : IsAllowedDB n "db" = true) by (vm_compute; reflexivity).
  clearbody n cfg.
  exact (conj Hok (conj Hdb (proj2 (IsAllowedDB_configured cfg n "db" Hok) Hdb))).
Defined.

(** X9 at work: "root" is configured, "nobody" is not. *)
Lemma user_predicates_configured_witness :
  let cfg := Sample.configFull in
  let n := object (NewNamespace cfg) in
  returned (NewNamespace cfg) = Some n
  /\ (exists u, u ∈ Users cfg /\ UserName u = "root"
        /\ IsAllowWrite n "root" = Done (bool_decide (UserRWFlag u = ReadWrite))
        /\ IsRWSplit n "root" = Done (bool_decide (UserRWSplit u = ReadWriteSplit))
        /\ IsStatisticUser n "root"
           = Done (bool_decide (UserOtherProperty u = StatisticUser))
        /\ GetUserProperty n "root" = Done (UserOtherProperty u))
  /\ IsAllowWrite n "nobody" = Panicked nilDeref
  /\ IsRWSplit n "nobody" = Panicked nilDeref
  /\ IsStatisticUser n "nobody" = Panicked nilDeref
  /\ GetUserProperty n "nobody" = Panicked nilDeref.
Proof.
  intros cfg n.
  assert (Hres : result (NewNamespace cfg) = None) by (vm_compute; reflexivity).
  assert (Hok : returned (NewNamespace cfg) = Some n)
    by (unfold n; exact (returned_ok _ Hres)).
  assert (Hroot : exists u, u ∈ Users cfg /\ UserName u = "root").
  { eexists. split; [left|reflexivity]. }
  assert (Hnobody : forall u, u ∈ Users cfg -> UserName u <> "nobody").
  { intros u Hu. unfold cfg, Sample.configFull in Hu. cbn [Users] in Hu.
    apply elem_of_cons in Hu as [->|Hu]; [discriminate|].
    apply elem_of_cons in Hu as [->|Hu]; [discriminate|].
    apply elem_of_nil in Hu as []. }
  clearbody n cfg.
  split; [exact Hok|]. split.
  - exact (proj1 (user_predicates_configured cfg n "root" Hok) Hroot).
  - exact (proj2 (user_predicates_configured cfg n "nobody" Hok) Hnobody).
Defined.

(** X10 at work: one sequence on "slice-0", a slice configured as
    " slice-0 ". *)
Lemma NewNamespace_sequences_resolve_witness :
  let cfg := Sample.configFull in
  let n := object (NewNamespace cfg) in
  returned (NewNamespace cfg) = Some n
  /\ exists registered,
       sequences n = Some registered
       /\ length registered = length (GlobalSequences cfg)
       /\ (forall v, v ∈ GlobalSequences cfg ->
             exists s, slices n !! SeqSliceName v = Some s
                       /\ (SeqDB v, SeqTable v,
                           {| seqSlice := s;
                              seqName := ToUpper (SeqDB v) +:+ "." +:+ ToUpper (SeqTable v);
                              seqPKName := SeqPKName v |}) ∈ registered).
Proof.
  intros cfg n.
  assert (Hres : result (NewNamespace cfg) = None) by (vm_compute; reflexivity).
  assert (Hok : returned (NewNamespace cfg) = Some n)
    by (unfold n; exact (returned_ok _ Hres)).
  clearbody n cfg.
  exact (conj Hok (NewNamespace_sequences_resolve cfg n Hok)).
Defined.

(** X14 at work: one slice, three workers. *)
Lemma NewNamespace_supervisors_witness :
  let cfg := Sample.configFull in
  let n := object (NewNamespace cfg) in
  returned (NewNamespace cfg) = Some n
  /\ length (workersOf (trace (NewNamespace cfg))) = (3 * length (Slices cfg))%nat
  /\ size (slices n) = length (Slices cfg)
  /\ (forall w, w ∈ workersOf (trace (NewNamespace cfg)) <->
        exists v r, v ∈ Slices cfg
          /\ w = {| workerSlice := TrimSpace (SliceName v); workerRole := r;
                    running := true |})
  /\ Forall (fun e => exists k r, e = EvSpawn k r) (trace (NewNamespace cfg)).
Proof.
  intros cfg n.
  assert (Hres : result (NewNamespace cfg) = None) by (vm_compute; reflexivity).
  assert (Hok : returned (NewNamespace cfg) = Some n)
    by (unfold n; exact (returned_ok _ Hres)).
  clearbody n cfg.
  exact (conj Hok (NewNamespace_supervisors cfg n Hok)).
Defined.

(** X15 at work: a pool whose connections fail; the probe ends DOWN and
    hands out the connection of its third pass, already recycled. *)
Lemma probe_connection_witness :
  let namespace := Sample.namespace 8 5 in
  let v := Sample.failingPool "10.0.0.4:3306" in
  let p := {| probeStatus := DOWN;
              probeConn := Some {| connPass := 2; Execute := showSlaveStatus v |};
              probeTrace := [EvGet; EvPing; EvReconnect; EvRecycle 0; EvSleep Second;
                             EvGet; EvPing; EvReconnect; EvRecycle 1; EvSleep (2 * Second);
                             EvGet; EvPing; EvReconnect; EvRecycle 2; EvSleep (4 * Second)] |} in
  getInstanceStatus 64 namespace v = Done p
  /\ (probeConn p = None
      \/ exists c, probeConn p = Some c /\ EvRecycle (connPass c) ∈ probeTrace p).
Proof.
  intros namespace v p.
  assert (Hp : getInstanceStatus 64 namespace v = Done p) by (vm_compute; reflexivity).
  assert (Hdown : probeStatus p = DOWN) by reflexivity.
  clearbody p v namespace.
  exact (conj Hp (proj1 (proj2 (probe_connection 64 namespace v p Hp)) Hdown)).
Defined.

(** X16 at work: [downAfterNoAlive = 8] and a pool that never hands out a
    connection. *)
Lemma probe_returns_in_time_witness :
  let namespace := Sample.namespace 8 5 in
  let v := Sample.deadPool "10.0.0.4:3306" in
  downAfterNoAlive namespace <= 2 ^ 33
  /\ (33 <= 64)%nat
  /\ exists p,
       getInstanceStatus 64 namespace v = Done p
       /\ 0 <= elapsed (probeTrace p)
            <= 2 * Z.max 0 (downAfterNoAlive namespace - 1) * Second
       /\ (probeStatus p = UP ->
           elapsed (probeTrace p) <= (downAfterNoAlive namespace - 2) * Second).
Proof.
  intros namespace v.
  assert (Hd : downAfterNoAlive namespace = 8) by (vm_compute; reflexivity).
  assert (Hle : downAfterNoAlive namespace <= 2 ^ 33) by (rewrite Hd; lia).
  assert (Hfuel : (33 <= 64)%nat) by lia.
  clearbody v namespace.
  exact (conj Hle (conj Hfuel (probe_returns_in_time 64 namespace v Hle Hfuel))).
Defined.

(** X18 at work: the slave whose connections fail; the lag check is issued
    on the recycled connection and DOWN is stored. *)
Lemma checkPool_stores_probe_status_witness :
  let namespace := Sample.namespace 8 5 in
  let v := Sample.failingPool "10.0.0.4:3306" in
  let tr := [EvGet; EvPing; EvReconnect; EvRecycle 0; EvSleep Second;
             EvGet; EvPing; EvReconnect; EvRecycle 1; EvSleep (2 * Second);
             EvGet; EvPing; EvReconnect; EvRecycle 2; EvSleep (4 * Second);
             EvExecute 2; EvRecycle 2; EvStore 1 DOWN] in
  checkPool 64 namespace (Sample.sliceWith 10) false 1 v = Done (DOWN, tr)
  /\ exists p tr',
       getInstanceStatus 64 namespace v = Done p
       /\ DOWN = probeStatus p
       /\ tr = probeTrace p ++ tr' ++ [EvStore 1 DOWN].
Proof.
  intros namespace v tr.
  assert (Hc : checkPool 64 namespace (Sample.sliceWith 10) false 1 v = Done (DOWN, tr))
    by (vm_compute; reflexivity).
  clearbody tr v namespace.
  exact (conj Hc (checkPool_stores_probe_status 64 namespace (Sample.sliceWith 10)
                    false 1 v DOWN tr Hc)).
Defined.

(** X19 at work: the master pool of the slice. *)
Lemma checkPool_lag_gate_witness :
  let namespace := Sample.namespace 8 5 in
  let slice := Sample.sliceWith 10 in
  let v := Sample.healthyPool "10.0.0.1:3306" 0 in
  let p := {| probeStatus := UP;
              probeConn := Some {| connPass := 0; Execute := showSlaveStatus v |};
              probeTrace := [EvGet; EvPing] |} in
  (true = true \/ StatusMap (Master slice) !! 0%nat = Some DOWN
     \/ secondsBehindMaster namespace = 0%N)
  /\ getInstanceStatus 64 namespace v = Done p
  /\ exists tr,
       checkPool 64 namespace slice true 0 v = Done (probeStatus p, tr)
       /\ (forall j, EvExecute j ∉ tr).
Proof.
  intros namespace slice v p.
  assert (Hgate : true = true \/ StatusMap (Master slice) !! 0%nat = Some DOWN
                  \/ secondsBehindMaster namespace = 0%N) by (left; reflexivity).
  assert (Hp : getInstanceStatus 64 namespace v = Done p) by (vm_compute; reflexivity).
  clearbody p v slice namespace.
  exact (conj Hgate (conj Hp (checkPool_lag_gate 64 namespace slice true 0 v p Hgate Hp))).
Defined.

(** X20 at work: a turn of the slave worker of the slice. *)
Lemma checkStatus_turn_result_witness :
  let namespace := Sample.namespace 8 5 in
  let slice := Sample.sliceWith 10 in
  let slice' := setGroup slice RoleSlave
                  {| ConnPool := ConnPool (Slave slice);
                     StatusMap := <[1%nat := DOWN]> (<[0%nat := UP]> ∅) |} in
  let tr := [EvGet; EvPing; EvRecycle 0; EvStore 0 UP;
             EvGet; EvPing; EvReconnect; EvRecycle 0; EvSleep Second;
             EvGet; EvPing; EvReconnect; EvRecycle 1; EvSleep (2 * Second);
             EvGet; EvPing; EvReconnect; EvRecycle 2; EvSleep (4 * Second);
             EvExecute 2; EvRecycle 2; EvStore 1 DOWN; EvSleep (2 * Second)] in
  checkStatus_turn 64 namespace slice RoleSlave false = Done (Some (slice', tr))
  /\ Cfg slice' = Cfg slice
  /\ (forall r', r' <> RoleSlave -> groupOf slice' r' = groupOf slice r')
  /\ ConnPool (groupOf slice' RoleSlave) = ConnPool (groupOf slice RoleSlave)
  /\ (forall i, (length (ConnPool (groupOf slice RoleSlave)) <= i)%nat ->
        StatusMap (groupOf slice' RoleSlave) !! i
        = StatusMap (groupOf slice RoleSlave) !! i)
  /\ (forall i v, ConnPool (groupOf slice RoleSlave) !! i = Some v ->
        exists status tr',
          checkPool 64 namespace slice (bool_decide (RoleSlave = RoleMaster)) i v
            = Done (status, tr')
          /\ StatusMap (groupOf slice' RoleSlave) !! i = Some status)
  /\ last tr = Some (EvSleep (2 * Second)).
Proof.
  intros namespace slice slice' tr.
  assert (Ht : checkStatus_turn 64 namespace slice RoleSlave false
               = Done (Some (slice', tr))) by (vm_compute; reflexivity).
  clearbody tr slice' slice namespace.
  exact (conj Ht (checkStatus_turn_result 64 namespace slice slice' RoleSlave tr Ht)).
Defined.

(** X22 at work: "utf8mb4" with "utf8mb4_general_ci". *)
Lemma NewNamespace_charset_witness :
  let cfg := Sample.configFull in
  let n := object (NewNamespace cfg) in
  returned (NewNamespace cfg) = Some n
  /\ (forall k s, slices n !! k = Some s ->
        SliceCharset s = defaultCharset n /\ SliceCollationID s = defaultCollationID n)
  /\ defaultCharset n = DefaultCharset cfg
  /\ VerifyCharset (DefaultCharset cfg) (DefaultCollation cfg) = None
  /\ CollationNames (DefaultCollation cfg) = Some (defaultCollationID n).
Proof.
  intros cfg n.
  assert (Hres : result (NewNamespace cfg) = None) by (vm_compute; reflexivity).
  assert (Hok : returned (NewNamespace cfg) = Some n)
    by (unfold n; exact (returned_ok _ Hres)).
  assert (Hcol : DefaultCollation cfg <> "") by discriminate.
  clearbody n cfg.
  destruct (NewNamespace_charset cfg n Hok) as (Hslices & _ & _ & Hgiven).
  exact (conj Hok (conj Hslices (Hgiven Hcol))).
Defined.

(** X23 at work: the entry " select 1 " is on the blacklist. *)
Lemma NewNamespace_blacklist_witness :
  let cfg := Sample.configFull in
  let n := object (NewNamespace cfg) in
  returned (NewNamespace cfg) = Some n
  /\ fst (IsSQLAllowed n ∅ (TrimSpace " select 1 ")) = false.
Proof.
  intros cfg n.
  assert (Hres : result (NewNamespace cfg) = None) by (vm_compute; reflexivity).
  assert (Hok : returned (NewNamespace cfg) = Some n)
    by (unfold n; exact (returned_ok _ Hres)).
  assert (Hin : " select 1 " ∈ BlackSQL cfg) by left.
  assert (Hne : TrimSpace " select 1 " <> "")
    by (intros Heq; vm_compute in Heq; discriminate).
  clearbody n cfg.
  exact (conj Hok
           (proj1 (proj2 (NewNamespace_blacklist cfg n ∅ "select 2" Hok))
              " select 1 " Hin Hne)).
Defined.

End MoreConcrete.
